(** * Contract-management e-mail processor: duplicate detection and
      processing-state tracking.

    A shallow embedding of the Apps Script sources
    ([main.js], [emailProcessor.js], [driveManager.js],
    [spreadsheetManager.js], the property management module and the
    trigger management module) and the properties established about
    them.

    Conventions of the embedding.
    - A JavaScript string is a [string], a sequence of code units that
      are bytes here.  The keys are built from what is left after all
      characters outside ASCII have been deleted, so letter case is
      that of ASCII; the default order of [sort] is the order of the
      code units, and the properties below that involve it hold for
      any total order.
    - A [Date] is its [getTime()] value, an integer number of
      milliseconds ([Z]); numbers are exact integers.  A missing or
      unusable argument is [None].
    - An exception is a value [Throw] of the result type [Exc]; each
      [try { } catch] of the source is a [catch] here.
    - The script-property store is an association list in enumeration
      order (the order of [Object.entries]), because the stable sort of
      [rotateProcessedMessages] breaks ties by that order.  The store
      itself never fails.
    - A sheet is the list of its data rows (the header row is left out),
      oldest first, as [appendRow] builds it.  Opening the spreadsheet,
      opening the Drive folder, creating a file and posting to the
      webhook can fail; what they answer while a message is handled is
      given by a record of outcomes.
    - In the names of files and the keys of properties, white space,
      for [trim] and the class [\s] of a regular expression, is the
      white space of ASCII ([JS.isSpace]), and [includes] compares code
      units.  The body of a message, which is text of any language, is
      a sequence of UTF-16 code units with the white space of
      ECMAScript ([Utf16]).  A regular expression of the configuration
      is the function that its [test] is.
    - The triggers of the project are a list in the order of
      [getProjectTriggers]; what [ScriptApp] answers in a run is given
      by a record. *)

From Stdlib Require Import ZArith List Bool Ascii String Lia.
From Stdlib Require Import Permutation Sorted.
From Stdlib Require Import DecimalString DecimalFacts DecimalPos DecimalZ.
Import ListNotations.
Open Scope string_scope.
Open Scope Z_scope.

(* ================================================================== *)
(** * Exceptions *)

Inductive Exc (A : Type) : Type :=
| Ok (a : A)
| Throw (msg : string).
Arguments Ok {A} a.
Arguments Throw {A} msg.

Definition bind {A B : Type} (m : Exc A) (k : A -> Exc B) : Exc B :=
  match m with
  | Ok a => k a
  | Throw e => Throw e
  end.

Notation "x <- m ;; k" := (bind m (fun x => k))
  (at level 61, m at next level, right associativity).

(** [try { m } catch (error) { h error }] *)
Definition catch {A : Type} (m : Exc A) (h : string -> A) : A :=
  match m with
  | Ok a => a
  | Throw e => h e
  end.

(** Reading an argument that the source dereferences ([x.replace],
    [x.sort]): [null]/[undefined] raises a [TypeError]. *)
Definition deref {A : Type} (what : string) (x : option A) : Exc A :=
  match x with
  | Some a => Ok a
  | None => Throw ("TypeError: " ++ what)
  end.

(* ================================================================== *)
(** * JavaScript string primitives used by the program *)

Module JS.

Definition code (c : ascii) : Z := Z.of_N (N_of_ascii c).

Definition between (lo hi : Z) (c : ascii) : bool :=
  (lo <=? code c) && (code c <=? hi).

Definition isUpper : ascii -> bool := between 65 90.
Definition isLower : ascii -> bool := between 97 122.
Definition isDigit : ascii -> bool := between 48 57.

(** the class [a-zA-Z0-9] *)
Definition isAlnum (c : ascii) : bool := isLower c || isUpper c || isDigit c.

(** [s.replace(/[^CLASS]/g, '')]: keep the characters of the class. *)
Fixpoint keep (cls : ascii -> bool) (s : string) : string :=
  match s with
  | EmptyString => EmptyString
  | String c r => if cls c then String c (keep cls r) else keep cls r
  end.

Definition lowerChar (c : ascii) : ascii :=
  if isUpper c then ascii_of_N (N_of_ascii c + 32) else c.

(** [s.toLowerCase()] on the ASCII range. *)
Fixpoint toLowerCase (s : string) : string :=
  match s with
  | EmptyString => EmptyString
  | String c r => String (lowerChar c) (toLowerCase r)
  end.

(** [s.startsWith(p)] *)
Definition startsWith (p s : string) : bool := String.prefix p s.

(** [a.join(sep)] *)
Definition join (sep : string) (l : list string) : string :=
  String.concat sep l.

(** [a.sort(compare)], where [le x y] says that [compare(x, y) <= 0].
    An element is put in front of the elements of the sorted tail that
    are not smaller, so equal elements keep their order (the sort is
    stable). *)
Fixpoint insertBy {A : Type} (le : A -> A -> bool) (x : A) (l : list A) : list A :=
  match l with
  | [] => [x]
  | y :: r => if le x y then x :: y :: r else y :: insertBy le x r
  end.

Fixpoint sortBy {A : Type} (le : A -> A -> bool) (l : list A) : list A :=
  match l with
  | [] => []
  | x :: r => insertBy le x (sortBy le r)
  end.

(** [a.sort()] on strings: ascending order of the code units. *)
Definition sort (l : list string) : list string := sortBy String.leb l.

(** [`${n}`] for an integer [n]. *)
Definition showZ (n : Z) : string := NilEmpty.string_of_int (Z.to_int n).

(** [s.substring(0, n)] *)
Definition substring0 (n : nat) (s : string) : string := String.substring 0 n s.

(** Digits of [parseInt]. *)
Definition digitVal (c : ascii) : option Z :=
  if isDigit c then Some (code c - 48) else None.

Definition hexVal (c : ascii) : option Z :=
  if isDigit c then Some (code c - 48)
  else if between 97 102 c then Some (code c - 87)
  else if between 65 70 c then Some (code c - 55)
  else None.

Definition isSpace (c : ascii) : bool :=
  (code c =? 32) || between 9 13 c.

Fixpoint skipSpaces (s : string) : string :=
  match s with
  | String c r => if isSpace c then skipSpaces r else s
  | EmptyString => s
  end.

(** Longest prefix of decimal digits, accumulated from the left;
    [None] when there is no digit at all. *)
Fixpoint digitsFrom (acc : option Z) (s : string) : option Z :=
  match s with
  | EmptyString => acc
  | String c r =>
      match digitVal c with
      | Some d => digitsFrom (Some (match acc with Some a => 10 * a + d | None => d end)) r
      | None => acc
      end
  end.

Fixpoint hexDigitsFrom (acc : option Z) (s : string) : option Z :=
  match s with
  | EmptyString => acc
  | String c r =>
      match hexVal c with
      | Some d => hexDigitsFrom (Some (match acc with Some a => 16 * a + d | None => d end)) r
      | None => acc
      end
  end.

(** The digits after the sign: hexadecimal after [0x] or [0X], decimal
    otherwise. *)
Definition unsignedInt (s : string) : option Z :=
  match s with
  | String "0" (String "x" r) => hexDigitsFrom None r
  | String "0" (String "X" r) => hexDigitsFrom None r
  | _ => digitsFrom None s
  end.

(** [parseInt(s)]: leading white space, an optional sign, then the
    digits; [None] is [NaN]. *)
Definition parseInt (s : string) : option Z :=
  match skipSpaces s with
  | String "-" r => option_map Z.opp (unsignedInt r)
  | String "+" r => unsignedInt r
  | r => unsignedInt r
  end.

End JS.

(* ================================================================== *)
(** * Platform services used by the fingerprint

    [Utilities.computeDigest(MD5, s)], [Utilities.base64Encode] and
    [Utilities.formatDate(d, 'JST', 'yyyyMMdd_HHmm')] belong to the Apps
    Script runtime, not to the repository.  They are written out here
    after their public definitions (RFC 1321, RFC 4648, the civil
    calendar at the fixed offset +09:00) so that keys can be computed. *)

Module Platform.

Definition w32 (x : Z) : Z := Z.land x 4294967295.
Definition add32 (x y : Z) : Z := w32 (x + y).
Definition not32 (x : Z) : Z := Z.lxor x 4294967295.
Definition rotl32 (x : Z) (c : Z) : Z :=
  w32 (Z.lor (Z.shiftl x c) (Z.shiftr x (32 - c))).

Definition md5_K : list Z :=
  [ 3614090360; 3905402710;  606105819; 3250441966;
    4118548399; 1200080426; 2821735955; 4249261313;
    1770035416; 2336552879; 4294925233; 2304563134;
    1804603682; 4254626195; 2792965006; 1236535329;
    4129170786; 3225465664;  643717713; 3921069994;
    3593408605;   38016083; 3634488961; 3889429448;
     568446438; 3275163606; 4107603335; 1163531501;
    2850285829; 4243563512; 1735328473; 2368359562;
    4294588738; 2272392833; 1839030562; 4259657740;
    2763975236; 1272893353; 4139469664; 3200236656;
     681279174; 3936430074; 3572445317;   76029189;
    3654602809; 3873151461;  530742520; 3299628645;
    4096336452; 1126891415; 2878612391; 4237533241;
    1700485571; 2399980690; 4293915773; 2240044497;
    1873313359; 4264355552; 2734768916; 1309151649;
    4149444226; 3174756917;  718787259; 3951481745 ].

Definition md5_S : list Z :=
  [ 7; 12; 17; 22; 7; 12; 17; 22; 7; 12; 17; 22; 7; 12; 17; 22;
    5;  9; 14; 20; 5;  9; 14; 20; 5;  9; 14; 20; 5;  9; 14; 20;
    4; 11; 16; 23; 4; 11; 16; 23; 4; 11; 16; 23; 4; 11; 16; 23;
    6; 10; 15; 21; 6; 10; 15; 21; 6; 10; 15; 21; 6; 10; 15; 21 ].

Definition nthZ (l : list Z) (i : Z) : Z := nth (Z.to_nat i) l 0.

Record md5_state := MkMd5 { mA : Z; mB : Z; mC : Z; mD : Z }.

Definition md5_init : md5_state :=
  MkMd5 1732584193 4023233417 2562383102 271733878.

(** One of the 64 operations on the block [M] of sixteen words. *)
Definition md5_op (M : list Z) (st : md5_state) (i : Z) : md5_state :=
  let '(MkMd5 a b c d) := st in
  let '(f, g) :=
    if i <? 16 then (Z.lor (Z.land b c) (Z.land (not32 b) d), i)
    else if i <? 32 then (Z.lor (Z.land d b) (Z.land (not32 d) c), (5 * i + 1) mod 16)
    else if i <? 48 then (Z.lxor (Z.lxor b c) d, (3 * i + 5) mod 16)
    else (Z.lxor c (Z.lor b (not32 d)), (7 * i) mod 16) in
  let f' := add32 (add32 (add32 f a) (nthZ md5_K i)) (nthZ M g) in
  MkMd5 d (add32 b (rotl32 f' (nthZ md5_S i))) b c.

Definition md5_rounds : list Z := map Z.of_nat (seq 0 64).

Definition md5_block (st : md5_state) (M : list Z) : md5_state :=
  let r := fold_left (md5_op M) md5_rounds st in
  MkMd5 (add32 (mA st) (mA r)) (add32 (mB st) (mB r))
        (add32 (mC st) (mC r)) (add32 (mD st) (mD r)).

(** little-endian bytes of a word, and back *)
Fixpoint le_bytes (n : nat) (x : Z) : list Z :=
  match n with
  | O => []
  | S k => Z.land x 255 :: le_bytes k (Z.shiftr x 8)
  end.

Fixpoint le_word (bs : list Z) : Z :=
  match bs with
  | [] => 0
  | b :: r => b + 256 * le_word r
  end.

(** the message followed by 0x80, zeros up to 56 mod 64, and the bit
    length on eight bytes *)
Definition md5_pad (msg : list Z) : list Z :=
  let len := Z.of_nat (List.length msg) in
  let zeros := Z.to_nat ((55 - len) mod 64) in
  msg ++ 128 :: repeat 0 zeros ++ le_bytes 8 (8 * len).

(** Cut into groups of [n] items; [fuel] bounds the number of groups. *)
Fixpoint chunks {A : Type} (fuel n : nat) (l : list A) : list (list A) :=
  match fuel, l with
  | O, _ => []
  | _, [] => []
  | S f, _ => firstn n l :: chunks f n (skipn n l)
  end.

Definition groups {A : Type} (n : nat) (l : list A) : list (list A) :=
  chunks (S (List.length l)) n l.

Definition md5_bytes (msg : list Z) : list Z :=
  let blocks := map (fun blk => map le_word (groups 4 blk)) (groups 64 (md5_pad msg)) in
  let r := fold_left md5_block blocks md5_init in
  le_bytes 4 (mA r) ++ le_bytes 4 (mB r) ++ le_bytes 4 (mC r) ++ le_bytes 4 (mD r).

Definition bytes_of_string (s : string) : list Z :=
  map JS.code (list_ascii_of_string s).

(** [Utilities.computeDigest(Utilities.DigestAlgorithm.MD5, s)] *)
Definition computeDigestMD5 (s : string) : list Z := md5_bytes (bytes_of_string s).

Definition b64_alphabet : string :=
  "ABCDEFGHIJKLMNOPQRSTUVWXYZabcdefghijklmnopqrstuvwxyz0123456789+/".

Definition b64_char (i : Z) : ascii :=
  match String.get (Z.to_nat i) b64_alphabet with
  | Some c => c
  | None => "="%char
  end.

Definition b64_group (g : list Z) : string :=
  match g with
  | [a; b; c] =>
      String (b64_char (a / 4))
     (String (b64_char ((a mod 4) * 16 + b / 16))
     (String (b64_char ((b mod 16) * 4 + c / 64))
     (String (b64_char (c mod 64)) "")))
  | [a; b] =>
      String (b64_char (a / 4))
     (String (b64_char ((a mod 4) * 16 + b / 16))
     (String (b64_char ((b mod 16) * 4)) "="))
  | [a] =>
      String (b64_char (a / 4))
     (String (b64_char ((a mod 4) * 16)) "==")
  | _ => ""
  end.

(** [Utilities.base64Encode(bytes)] *)
Definition base64Encode (bs : list Z) : string :=
  String.concat "" (map b64_group (groups 3 bs)).

(** Zero-padded decimal of a non-negative field, at least [width] digits. *)
Definition pad (width : nat) (n : Z) : string :=
  let s := JS.showZ n in
  string_of_list_ascii (repeat "0"%char (width - String.length s)) ++ s.

(** Year of the era, month counted from March, and day of the month of
    a day within an era of 400 years (146097 days, from 1 March). *)
Definition civil_of_doe (doe : Z) : Z * Z * Z :=
  let yoe := (doe - doe / 1460 + doe / 36524 - doe / 146096) / 365 in
  let doy := doe - (365 * yoe + yoe / 4 - yoe / 100) in
  let mp := (5 * doy + 2) / 153 in
  let d := doy - (153 * mp + 2) / 5 + 1 in
  (yoe, mp, d).

(** The day of the era that has these three coordinates. *)
Definition doe_of_civil (yoe mp d : Z) : Z :=
  365 * yoe + yoe / 4 - yoe / 100 + (153 * mp + 2) / 5 + d - 1.

(** Year, month and day of the day number [z] counted from 1970-01-01. *)
Definition civil_from_days (z : Z) : Z * Z * Z :=
  let z := z + 719468 in
  let era := z / 146097 in
  let '(yoe, mp, d) := civil_of_doe (z mod 146097) in
  let m := if mp <? 10 then mp + 3 else mp - 9 in
  let y := yoe + era * 400 + (if m <=? 2 then 1 else 0) in
  (y, m, d).

Definition msPerMinute : Z := 60000.
Definition jstOffsetMinutes : Z := 540.

(** The minute in which the instant [t] falls. *)
Definition minuteOf (t : Z) : Z := t / msPerMinute.

(** [yyyyMMdd_HHmm] of the minute [mi] (minutes since the epoch) at +09:00 *)
Definition formatMinute (mi : Z) : string :=
  let loc := mi + jstOffsetMinutes in
  let '(y, m, d) := civil_from_days (loc / 1440) in
  let hm := loc mod 1440 in
  pad 4 y ++ pad 2 m ++ pad 2 d ++ "_" ++ pad 2 (hm / 60) ++ pad 2 (hm mod 60).

(** [Utilities.formatDate(date, 'JST', 'yyyyMMdd_HHmm')]; a missing or
    invalid date is refused. *)
Definition formatDate (date : option Z) : Exc string :=
  match date with
  | Some t => Ok (formatMinute (minuteOf t))
  | None => Throw "Invalid argument: date"
  end.

End Platform.

(* ================================================================== *)
(** * Fingerprint generator ([main.js], generateContentDuplicateKey) *)

Definition senderClass (c : ascii) : bool :=
  JS.isAlnum c || (JS.code c =? 64) || (JS.code c =? 46).

Definition pdfClass (c : ascii) : bool :=
  JS.isAlnum c || (JS.code c =? 46) || (JS.code c =? 44).

Definition subjectKey (subject : string) : string :=
  JS.toLowerCase (JS.keep JS.isAlnum subject).

Definition pdfKey (pdfNames : list string) : string :=
  JS.toLowerCase (JS.keep pdfClass (JS.join "," (JS.sort pdfNames))).

Definition senderKey (sender : string) : string :=
  JS.toLowerCase (JS.keep senderClass sender).

Definition combinedKey (sender dateKey subject : string) (pdfNames : list string) : string :=
  senderKey sender ++ "_" ++ dateKey ++ "_" ++ subjectKey subject ++ "_" ++ pdfKey pdfNames.

(** [Utilities.base64Encode(Utilities.computeDigest(MD5, combinedKey))] *)
Definition hashOf (combined : string) : string :=
  Platform.base64Encode (Platform.computeDigestMD5 combined).

(** The body of the [try] block, in the order of its statements.  An
    argument that is [None] stands for [null] or a value of another
    type, on which the method call raises.  ([pdfNames.sort()] also
    sorts the array of the caller in place; [processAttachments] below
    accounts for it.) *)
Definition contentKeyBody (sender : option string) (date : option Z)
    (subject : option string) (pdfNames : option (list string)) : Exc string :=
  dateKey <- Platform.formatDate date ;;
  subjectText <- deref "subject.replace" subject ;;
  names <- deref "pdfNames.sort" pdfNames ;;
  senderText <- deref "sender.replace" sender ;;
  Ok ("CONTENT_" ++
      JS.substring0 16 (hashOf (combinedKey senderText dateKey subjectText names))).

(** [now] is the reading of the clock taken by the [catch] branch. *)
Definition generateContentDuplicateKey (now : Z) (sender : option string)
    (date : option Z) (subject : option string)
    (pdfNames : option (list string)) : string :=
  catch (contentKeyBody sender date subject pdfNames)
        (fun _ => "CONTENT_" ++ JS.showZ now).

(** Texts that differ only in letter case and white space.

    The relation of the order-independence property: two texts are
    taken to differ only in case and white space when they agree once
    the white space is deleted and the letters are lowered. *)

Definition squash (s : string) : string :=
  JS.toLowerCase (JS.keep (fun c => negb (JS.isSpace c)) s).

Definition sameUpToCaseAndSpace (a b : string) : Prop := squash a = squash b.

(* ================================================================== *)
(** * Script properties ([PropertiesService.getScriptProperties()])

    The store of the platform: at most one value per key.  Its
    operations never fail here. *)

Definition Props : Type := list (string * string).

Module PropertiesService.

Fixpoint getProperty (ps : Props) (key : string) : option string :=
  match ps with
  | [] => None
  | (k, v) :: r => if String.eqb k key then Some v else getProperty r key
  end.

Definition hasOwnProperty (ps : Props) (key : string) : bool :=
  existsb (fun kv => String.eqb (fst kv) key) ps.

(** An existing key keeps its place, a new key goes to the end. *)
Fixpoint setProperty (ps : Props) (key value : string) : Props :=
  match ps with
  | [] => [(key, value)]
  | (k, v) :: r =>
      if String.eqb k key then (k, value) :: r
      else (k, v) :: setProperty r key value
  end.

Definition deleteProperty (ps : Props) (key : string) : Props :=
  filter (fun kv => negb (String.eqb (fst kv) key)) ps.

End PropertiesService.

(** [getProperty(key, false)] of [main.js]: the value, [null] when
    there is none. *)
Definition getPropertyOptional (ps : Props) (key : string) : option string :=
  PropertiesService.getProperty ps key.

(** [getProperty(key)] of [main.js]: a missing or empty value raises. *)
Definition getPropertyRequired (ps : Props) (key : string) : Exc string :=
  match PropertiesService.getProperty ps key with
  | Some v => if String.eqb v "" then Throw ("Required property " ++ key ++ " not found")
              else Ok v
  | None => Throw ("Required property " ++ key ++ " not found")
  end.

(** JavaScript truthiness of a string or [null] ([!value]). *)
Definition truthy (v : option string) : bool :=
  match v with
  | Some s => negb (String.eqb s "")
  | None => false
  end.

Definition PROCESSED_MSG_ : string := "PROCESSED_MSG_".

Definition isProcessedKey (key : string) : bool := JS.startsWith PROCESSED_MSG_ key.

(** The key under which a handled message is remembered
    ([`PROCESSED_MSG_${id}`], test of the duplicate prevention). *)
Definition processedKey (messageId : string) : string := PROCESSED_MSG_ ++ messageId.

(** ** rotateProcessedMessages *)

(** [{ key, timestamp }] *)
Definition Stamped : Type := (string * Z)%type.

(** The loop collecting the processed-message properties whose value
    parses as a number. *)
Fixpoint collectProcessed (ps : Props) : list Stamped :=
  match ps with
  | [] => []
  | (key, value) :: r =>
      if isProcessedKey key then
        match JS.parseInt value with
        | Some timestamp => (key, timestamp) :: collectProcessed r
        | None => collectProcessed r
        end
      else collectProcessed r
  end.

(** [processedMessages.sort((a, b) => a.timestamp - b.timestamp)] *)
Definition olderFirst (a b : Stamped) : bool := snd a <=? snd b.

Definition sortByTime (l : list Stamped) : list Stamped := JS.sortBy olderFirst l.

(** The entries chosen for removal: [slice(0, Math.min(removeCount, n))]. *)
Definition toRemove (removeCount : nat) (ps : Props) : list Stamped :=
  let processedMessages := sortByTime (collectProcessed ps) in
  firstn (Nat.min removeCount (List.length processedMessages)) processedMessages.

Definition deleteAll (keys : list string) (ps : Props) : Props :=
  fold_left PropertiesService.deleteProperty keys ps.

(** The store afterwards and the number of entries removed. *)
Definition rotateProcessedMessages (removeCount : nat) (ps : Props) : Props * nat :=
  let items := toRemove removeCount ps in
  (deleteAll (map fst items) ps, List.length items).

(** ** cleanupOldProcessedMessages *)

Definition msPerDay : Z := 24 * 60 * 60 * 1000.

(** [timestamp < cutoffTime], false for [NaN]. *)
Definition olderThan (cutoffTime : Z) (value : string) : bool :=
  match JS.parseInt value with
  | Some timestamp => timestamp <? cutoffTime
  | None => false
  end.

(** The keys deleted by the loop over [Object.entries(properties)]. *)
Definition expiredKeys (cutoffTime : Z) (ps : Props) : list string :=
  map fst (filter (fun kv => isProcessedKey (fst kv) && olderThan cutoffTime (snd kv)) ps).

Definition cleanupOldProcessedMessages (now : Z) (daysOld : Z) (ps : Props) : Props * nat :=
  let cutoffTime := now - daysOld * msPerDay in
  let keys := expiredKeys cutoffTime ps in
  (deleteAll keys ps, List.length keys).

(** ** clearAllProcessedMessages *)

Definition processedKeys (ps : Props) : list string :=
  filter isProcessedKey (map fst ps).

Definition clearAllProcessedMessages (ps : Props) : Props * nat :=
  let keys := processedKeys ps in
  (deleteAll keys ps, List.length keys).

(** The properties that are not processed messages, in their order. *)
Definition configuration (ps : Props) : Props :=
  filter (fun kv => negb (isProcessedKey (fst kv))) ps.

(** ** setProperty of [main.js] *)

Definition nearLimit : nat := 48.
Definition rotationBatch : nat := 5.
Definition cleanupDays : Z := 3.

(** The automatic clean-up that precedes the write of a new key. *)
Definition autoCleanup (now : Z) (key : string) (ps : Props) : Props :=
  if (nearLimit <=? List.length ps)%nat && negb (PropertiesService.hasOwnProperty ps key) then
    if isProcessedKey key then fst (rotateProcessedMessages rotationBatch ps)
    else fst (cleanupOldProcessedMessages now cleanupDays ps)
  else ps.

Definition setProperty (now : Z) (key value : string) (ps : Props) : Props :=
  PropertiesService.setProperty (autoCleanup now key ps) key value.

(* ================================================================== *)
(** * The two ledgers ([spreadsheetManager.js]) *)

(** A row of the sheet of processed messages (columns A to F). *)
Record ProcessedRow := MkProcessedRow {
  processedAt : Z;
  rowMessageId : string;
  rowKey : string;
  rowSubject : string;
  rowSender : string;
  rowStatus : string
}.

(** A row of the sheet of content duplicates (columns A to H). *)
Record DuplicateRow := MkDuplicateRow {
  registeredAt : Z;
  rowContentKey : string;
  dupSender : string;
  sentAt : Z;
  dupSubject : string;
  pdfFilenames : string;
  driveFolderUrl : string;
  firstSavedAt : Z
}.

(** An attachment of a message: [getName()]. *)
Record Attachment := MkAttachment { attName : string }.

(** The entry that [processAttachments] returns for an attachment.  The
    fields that only repeat another one ([folderUrl], [pdfDirectUrl],
    [existingUrl]) or describe the upload ([size], [fileId],
    [uploadTime]) are left out. *)
Record AttachmentInfo := MkInfo {
  originalName : string;
  savedName : option string;
  driveUrl : option string;
  skipped : option string;
  error : option string;
  infoContentKey : option string;
  isDuplicate : bool
}.

(** The payload handed to [sendSlackNotification]. *)
Record Notification := MkNotification {
  noteSubject : string;
  noteSender : string;
  noteAttachments : list AttachmentInfo
}.

(** Everything the script can read or change. *)
Record World := MkWorld {
  props : Props;
  processedSheet : list ProcessedRow;
  contentSheet : list DuplicateRow;
  driveFiles : list string;
  slackSent : list Notification
}.

Definition withProps (w : World) (ps : Props) : World :=
  MkWorld ps (processedSheet w) (contentSheet w) (driveFiles w) (slackSent w).

Definition withProcessed (w : World) (rows : list ProcessedRow) : World :=
  MkWorld (props w) rows (contentSheet w) (driveFiles w) (slackSent w).

Definition withContent (w : World) (rows : list DuplicateRow) : World :=
  MkWorld (props w) (processedSheet w) rows (driveFiles w) (slackSent w).

Definition withDrive (w : World) (files : list string) : World :=
  MkWorld (props w) (processedSheet w) (contentSheet w) files (slackSent w).

Definition withSlack (w : World) (sent : list Notification) : World :=
  MkWorld (props w) (processedSheet w) (contentSheet w) (driveFiles w) sent.

(** [SpreadsheetApp.openById(id)] followed by the lookup of the tab:
    the service answers ([up]) or raises. *)
Definition openSheet {A : Type} (up : bool) (rows : list A) : Exc (list A) :=
  if up then Ok rows else Throw "Service Spreadsheets failed".

(** ** Content ledger *)

Record DuplicateInfo := MkDuplicateInfo {
  dupFound : bool;          (* isDuplicate *)
  existingUrl : option string
}.

Definition notDuplicate : DuplicateInfo := MkDuplicateInfo false None.

(** The scan of the rows for the first one with this key. *)
Fixpoint scanContent (rows : list DuplicateRow) (contentKey : string) : DuplicateInfo :=
  match rows with
  | [] => notDuplicate
  | row :: rest =>
      if String.eqb (rowContentKey row) contentKey
      then MkDuplicateInfo true (Some (driveFolderUrl row))
      else scanContent rest contentKey
  end.

Definition checkContentDuplicate (up : bool) (w : World) (contentKey : string) : DuplicateInfo :=
  catch
    (if negb (truthy (getPropertyOptional (props w) "SPREADSHEET_ID")) then Ok notDuplicate
     else
       data <- openSheet up (contentSheet w) ;;
       match data with
       | [] => Ok notDuplicate
       | _ => Ok (scanContent data contentKey)
       end)
    (fun _ => notDuplicate).

(** [Utilities.formatDate(date, 'JST', DATE_FORMAT)] of a cell: the
    instant is kept, a missing date raises. *)
Definition dateCell (date : option Z) : Exc Z :=
  match date with
  | Some t => Ok t
  | None => Throw "Invalid argument: date"
  end.

Definition recordContentDuplicate (up : bool) (now : Z) (w : World)
    (contentKey sender : string) (date : option Z) (subject : string)
    (pdfNames : list string) (driveUrl : string) : World :=
  catch
    (if negb (truthy (getPropertyOptional (props w) "SPREADSHEET_ID")) then Ok w
     else
       rows <- openSheet up (contentSheet w) ;;
       sent <- dateCell date ;;
       let rowData := MkDuplicateRow now contentKey sender sent subject
                        (JS.join ", " pdfNames) driveUrl now in
       Ok (withContent w (rows ++ [rowData])))
    (fun _ => w).

(** No two rows of the content ledger carry the same key. *)
Definition keysUnique (rows : list DuplicateRow) : Prop :=
  NoDup (map rowContentKey rows).

(** The rows of the content ledger that carry a key. *)
Definition rowsWithKey (contentKey : string) (rows : list DuplicateRow) : list DuplicateRow :=
  filter (fun row => String.eqb (rowContentKey row) contentKey) rows.

(** ** Processing ledger *)

Fixpoint scanProcessed (rows : list ProcessedRow) (messageId : string) : bool :=
  match rows with
  | [] => false
  | row :: rest =>
      if String.eqb (rowMessageId row) messageId then true
      else scanProcessed rest messageId
  end.

Definition isMessageProcessedInSpreadsheet (up : bool) (w : World) (messageId : string) : bool :=
  catch
    (if negb (truthy (getPropertyOptional (props w) "SPREADSHEET_ID")) then Ok false
     else
       data <- openSheet up (processedSheet w) ;;
       match data with
       | [] => Ok false
       | _ => Ok (scanProcessed data messageId)
       end)
    (fun _ => false).

(** [contentKey || ''] *)
Definition orEmpty (v : option string) : string :=
  match v with
  | Some s => s
  | None => ""
  end.

Definition markMessageProcessedInSpreadsheet (up : bool) (now : Z) (w : World)
    (messageId subject sender : string) (contentKey : option string)
    (status : string) : World :=
  catch
    (if negb (truthy (getPropertyOptional (props w) "SPREADSHEET_ID")) then Ok w
     else
       rows <- openSheet up (processedSheet w) ;;
       let rowData := MkProcessedRow now messageId (orEmpty contentKey)
                        subject sender status in
       Ok (withProcessed w (rows ++ [rowData])))
    (fun _ => w).

(* ================================================================== *)
(** * The coordinator ([driveManager.js], [emailProcessor.js], [main.js]) *)

(** A Gmail message as the script reads it.  [patternMatch] is the
    answer [checkSubjectPattern(subject).isMatch]; the regular
    expressions of [CONFIG.SUBJECT_PATTERNS] are configuration and are
    not modelled. *)
Record Message := MkMessage {
  messageId : string;
  subject : string;
  from : string;
  date : Z;
  attachments : list Attachment;
  inTrash : bool;
  patternMatch : bool
}.

(** What the services outside the script answer while one message is
    handled: whether the spreadsheet opens at each of the four places
    where it is opened, the URL of the base folder or the error of
    [DriveApp.getFolderById], for the attachment of each index the name
    and URL of the file created by [saveAttachmentToDrive] or its
    error, whether the webhook accepts the notification, and the
    reading of the clock. *)
Record Outcomes := MkOutcomes {
  sheetAtLookup : bool;
  sheetAtCheck : bool;
  baseFolder : Exc string;
  saved : nat -> Exc (string * string);
  sheetAtRecord : bool;
  slackAccepts : bool;
  sheetAtMark : bool;
  clock : Z
}.

Definition failed {A : Type} (r : Exc A) : bool :=
  match r with
  | Ok _ => false
  | Throw _ => true
  end.

Definition endsWith (suffix s : string) : bool :=
  let n := String.length s in
  let k := String.length suffix in
  (k <=? n)%nat && String.eqb (String.substring (n - k) k s) suffix.

(** [name.toLowerCase().endsWith('.pdf')] *)
Definition isPdfName (name : string) : bool := endsWith ".pdf" (JS.toLowerCase name).

Definition notPdfInfo (fileName : string) : AttachmentInfo :=
  MkInfo fileName None None (Some "Not a PDF file") None None false.

Definition duplicateContentInfo (fileName : string) (contentKey : option string)
    (duplicateInfo : DuplicateInfo) : AttachmentInfo :=
  MkInfo fileName None (existingUrl duplicateInfo)
         (Some "Duplicate content - PDF already saved") None contentKey true.

Definition savedInfo (fileName : string) (file : string * string)
    (contentKey : option string) : AttachmentInfo :=
  MkInfo fileName (Some (fst file)) (Some (snd file)) None None contentKey false.

Definition errorInfo (fileName message : string) (contentKey : option string)
    : AttachmentInfo :=
  MkInfo fileName None None None (Some message) contentKey false.

(** The body of [attachments.forEach((attachment, index) => ...)] in
    [processAttachments]; [pdfNames] is the array after
    [generateContentDuplicateKey] has sorted it in place. *)
Definition saveOne (o : Outcomes) (subject sender : string) (emailDate : Z)
    (pdfNames : list string) (contentKey : option string)
    (duplicateInfo : DuplicateInfo) (folderUrl : string)
    (acc : World * list AttachmentInfo) (item : nat * Attachment)
    : World * list AttachmentInfo :=
  let '(w, attachmentInfo) := acc in
  let '(index, attachment) := item in
  let fileName := attName attachment in
  if negb (isPdfName fileName) then
    (w, (attachmentInfo ++ [notPdfInfo fileName])%list)
  else if dupFound duplicateInfo then
    (w, (attachmentInfo ++ [duplicateContentInfo fileName contentKey duplicateInfo])%list)
  else
    match saved o index with
    | Throw message => (w, (attachmentInfo ++ [errorInfo fileName message contentKey])%list)
    | Ok file =>
        let w1 := withDrive w (driveFiles w ++ [fst file]) in
        let infos := (attachmentInfo ++ [savedInfo fileName file contentKey])%list in
        match contentKey with
        | Some key =>
            if (index =? 0)%nat then
              (recordContentDuplicate (sheetAtRecord o) (clock o) w1 key sender
                 (Some emailDate) subject pdfNames folderUrl, infos)
            else (w1, infos)
        | None => (w1, infos)
        end
    end.

(** The attachments with their indices. *)
Definition indexed {A : Type} (l : list A) : list (nat * A) :=
  combine (seq 0 (List.length l)) l.

Definition processAttachments (o : Outcomes) (w : World)
    (attachments : list Attachment) (subject : string) (emailDate : Z)
    (sender : string) : World * Exc (list AttachmentInfo) :=
  match attachments with
  | [] => (w, Ok [])
  | _ =>
      match getPropertyRequired (props w) "DRIVE_FOLDER_ID" with
      | Throw e => (w, Throw e)
      | Ok _ =>
          let pdfNames := map attName (filter (fun a => isPdfName (attName a)) attachments) in
          let contentKey :=
            match pdfNames with
            | [] => None
            | _ => Some (generateContentDuplicateKey (clock o) (Some sender)
                           (Some emailDate) (Some subject) (Some pdfNames))
            end in
          let duplicateInfo :=
            match contentKey with
            | Some key => checkContentDuplicate (sheetAtCheck o) w key
            | None => notDuplicate
            end in
          match baseFolder o with
          | Throw message => (w, Throw ("Contract base folder access failed: " ++ message))
          | Ok folderUrl =>
              let '(w', infos) :=
                fold_left
                  (saveOne o subject sender emailDate (JS.sort pdfNames)
                           contentKey duplicateInfo folderUrl)
                  (indexed attachments) (w, []) in
              (w', Ok infos)
          end
      end
  end.

(** [processMessage] of [emailProcessor.js].  The rows that it writes
    to the contract list ([addEmailRecord], [updateRecordStatus]) are a
    report: both calls are enclosed in their own [try]/[catch], and
    neither ledger nor any decision reads them; they are left out. *)
Definition processMessage (o : Outcomes) (w : World) (m : Message) : World * bool :=
  if negb (patternMatch m) then (w, false)
  else
    let '(w1, attachmentInfo) :=
      match attachments m with
      | [] => (w, [])
      | _ =>
          if existsb (fun a => isPdfName (attName a)) (attachments m) then
            let '(w', r) := processAttachments o w (attachments m) (subject m) (date m) (from m) in
            (w', catch r (fun _ => []))
          else (w, map (fun a => notPdfInfo (attName a)) (attachments m))
      end in
    let w2 :=
      if slackAccepts o
      then withSlack w1 (slackSent w1 ++ [MkNotification (subject m) (from m) attachmentInfo])
      else w1 in
    (w2, true).

Definition isMessageAlreadyProcessed (o : Outcomes) (w : World) (m : Message) : bool :=
  isMessageProcessedInSpreadsheet (sheetAtLookup o) w (messageId m).

Definition markMessageAsProcessed (o : Outcomes) (w : World) (m : Message) : World :=
  markMessageProcessedInSpreadsheet (sheetAtMark o) (clock o) w
    (messageId m) (subject m) (from m) None "Success".

(** The body of [messages.forEach] in [processEmails]: the world
    afterwards, and whether the message counted as processed
    ([processedCount++], [threadHasNewMessages = true]).  The accessors
    of the message are taken to answer, so the [catch] of the body has
    nothing to catch. *)
Definition handleMessage (o : Outcomes) (w : World) (m : Message) : World * bool :=
  if inTrash m then (w, false)
  else if isMessageAlreadyProcessed o w m then (w, false)
  else
    let '(w1, done) := processMessage o w m in
    if done then (markMessageAsProcessed o w1 m, true) else (w1, false).


(** The loop of [processEmails] over the messages of the threads found,
    each with the outcomes it meets.  The label that a thread with new
    messages gets only narrows the search of later runs and is left
    out.  The check of the configuration that the function runs first
    is [validateConfiguration] below, and the function as a whole,
    check and search included, is [processEmailsRun]. *)
Definition processEmails (w : World) (found : list (Outcomes * Message)) : World :=
  fold_left (fun w om => fst (handleMessage (fst om) w (snd om))) found w.

(* ================================================================== *)
(** * Auxiliary definitions of the proofs *)

(** [allFrom P n a] evaluates [P] on the [n] integers from [a] on. *)
Fixpoint allFrom (P : Z -> bool) (n : nat) (a : Z) : bool :=
  match n with
  | O => true
  | S k => P a && allFrom P k (a + 1)
  end.

(** A field of two digits is two characters long. *)
Definition twoChars (n : Z) : bool :=
  (String.length (Platform.pad 2 n) =? 2)%nat.

(** The value of the digits [d] read after the value [a]. *)
Fixpoint readAfter (d : Decimal.uint) (a : Z) : Z :=
  match d with
  | Decimal.Nil => a
  | Decimal.D0 l => readAfter l (10 * a)
  | Decimal.D1 l => readAfter l (10 * a + 1)
  | Decimal.D2 l => readAfter l (10 * a + 2)
  | Decimal.D3 l => readAfter l (10 * a + 3)
  | Decimal.D4 l => readAfter l (10 * a + 4)
  | Decimal.D5 l => readAfter l (10 * a + 5)
  | Decimal.D6 l => readAfter l (10 * a + 6)
  | Decimal.D7 l => readAfter l (10 * a + 7)
  | Decimal.D8 l => readAfter l (10 * a + 8)
  | Decimal.D9 l => readAfter l (10 * a + 9)
  end.

(* ================================================================== *)
(** * Sample data *)

(** The instant 2024-06-22 10:30:00 at +09:00. *)
Definition june22 : Z := 1719019800000.

(** Two lists of attachment names that differ only in the case of one
    letter. *)
Definition mixedCaseNames : list string := ["Contract.pdf"; "appendix.pdf"].
Definition lowerCaseNames : list string := ["contract.pdf"; "appendix.pdf"].

(** A store at the limit that holds configuration almost only: four
    settings, three trigger properties, twenty-one sender addresses,
    eighteen recipient addresses, and two processed messages. *)
Definition numbered (stem value : string) (n : nat) : list (string * string) :=
  map (fun i => (stem ++ JS.showZ (Z.of_nat i), value)) (seq 1 n).

Definition configurationStore : Props :=
  ([ ("SLACK_WEBHOOK_URL", "https://hooks.slack.com/services/T/B/x");
    ("SLACK_CHANNEL", "#contracts");
    ("DRIVE_FOLDER_ID", "folder-1");
    ("SPREADSHEET_ID", "sheet-1");
    ("TRIGGER_ID", "trigger-1");
    ("TRIGGER_CREATED", "2024-06-01T00:00:00.000Z");
    ("LAST_EXECUTION", "2024-06-22T01:25:00.000Z");
    ("SENDER_EMAIL", "noreply@contracttool1.example.com") ]
  ++ numbered "SENDER_EMAIL_" "noreply@contracttool.example.com" 20
  ++ numbered "RECIPIENT_EMAIL_" "contracts@company.example.com" 18)%list.

Definition crowdedStore : Props :=
  (configurationStore
   ++ [ ("PROCESSED_MSG_18f3a1", "1719010000000");
        ("PROCESSED_MSG_18f3a2", "1719013600000") ])%list.

(** A store at the limit that holds processed messages mostly. *)
Definition messageStore : Props :=
  ([ ("SLACK_WEBHOOK_URL", "https://hooks.slack.com/services/T/B/x");
    ("DRIVE_FOLDER_ID", "folder-1");
    ("SPREADSHEET_ID", "sheet-1");
    ("SENDER_EMAIL_1", "noreply@contracttool1.example.com") ]
  ++ map (fun i => (("PROCESSED_MSG_m" ++ JS.showZ (Z.of_nat i))%string,
                    JS.showZ (1719000000000 + 60000 * Z.of_nat ((7 * i) mod 44))))
         (seq 1 44))%list.

(** A configured installation before any message. *)
Definition settings : Props :=
  [ ("SLACK_WEBHOOK_URL", "https://hooks.slack.com/services/T/B/x");
    ("DRIVE_FOLDER_ID", "folder-1");
    ("SPREADSHEET_ID", "sheet-1");
    ("SENDER_EMAIL_1", "noreply@contracttool7.example.com") ].

Definition freshWorld : World := MkWorld settings [] [] [] [].

(** A message with one PDF. *)
Definition loanMessage : Message :=
  MkMessage "18f3a1" "Loan Agreement - signed by John Doe"
    "noreply@contracttool7.example.com" june22
    [MkAttachment "loan_agreement.pdf"] false true.

Definition loanKey : string :=
  generateContentDuplicateKey june22 (Some (from loanMessage)) (Some (date loanMessage))
    (Some (subject loanMessage)) (Some ["loan_agreement.pdf"]).

(** Every service answers. *)
Definition allFine : Outcomes :=
  MkOutcomes true true (Ok "https://drive.example.com/folders/folder-1")
    (fun _ => Ok ("20240622_loan_agreement.pdf", "https://drive.example.com/file/1"))
    true true true (june22 + 300000).

(** The upload of every attachment fails. *)
Definition uploadFails : Outcomes :=
  MkOutcomes true true (Ok "https://drive.example.com/folders/folder-1")
    (fun _ => Throw "Service error: Drive") true true true (june22 + 300000).


(** The message is remembered by a script property and unknown to the
    ledger. *)
Definition rememberedWorld : World :=
  withProps freshWorld
    (PropertiesService.setProperty settings (processedKey "18f3a1") "1719019000000").

(** The message is in the ledger and no script property remembers it. *)
Definition loggedWorld : World :=
  withProcessed freshWorld
    [MkProcessedRow (june22 + 200000) "18f3a1" "" (subject loanMessage)
       (from loanMessage) "Success"].

(** The content ledger after one and after two appends under one key. *)
Definition recordedOnce : World :=
  recordContentDuplicate true (june22 + 300000) freshWorld loanKey
    (from loanMessage) (Some june22) (subject loanMessage)
    ["loan_agreement.pdf"] "https://drive.example.com/folders/first".

Definition recordedTwice : World :=
  recordContentDuplicate true (june22 + 600000) recordedOnce loanKey
    (from loanMessage) (Some june22) (subject loanMessage)
    ["loan_agreement.pdf"] "https://drive.example.com/folders/second".

(** A second delivery of the same content, and outcomes in which the
    spreadsheet cannot be opened when the content is looked up. *)
Definition loanCopy : Message :=
  MkMessage "18f3a2" "Loan Agreement - signed by John Doe"
    "noreply@contracttool7.example.com" june22
    [MkAttachment "loan_agreement.pdf"] false true.

Definition checkFails : Outcomes :=
  MkOutcomes true false (Ok "https://drive.example.com/folders/folder-1")
    (fun _ => Ok ("20240622_loan_agreement_1.pdf", "https://drive.example.com/file/2"))
    true true true (june22 + 600000).

Definition twoDeliveries : World :=
  processEmails freshWorld [(allFine, loanMessage); (checkFails, loanCopy)].


(* ================================================================== *)
(** * Sample stores of the script properties *)

(** A store with a processed message whose value is not a number. *)
Definition damagedStore : Props :=
  [ ("SPREADSHEET_ID", "sheet-1");
    ("PROCESSED_MSG_a", "1719010000000");
    ("PROCESSED_MSG_b", "pending");
    ("PROCESSED_MSG_c", "1719013600000") ].

(* ================================================================== *)
(** * Further string primitives *)

Module Text.

(** [s.includes(p)] *)
Fixpoint includes (p s : string) : bool :=
  String.prefix p s ||
  match s with
  | EmptyString => false
  | String _ r => includes p r
  end.

(** [s.split(sep)] for a separator of one character. *)
Fixpoint split (sep : ascii) (s : string) : list string :=
  match s with
  | EmptyString => [EmptyString]
  | String c r =>
      if Ascii.eqb c sep then EmptyString :: split sep r
      else
        match split sep r with
        | first :: others => String c first :: others
        | [] => [String c EmptyString]
        end
  end.

(** [s.trimEnd()] and [s.trim()], for the white space of the ASCII
    range. *)
Fixpoint trimEnd (s : string) : string :=
  match s with
  | EmptyString => EmptyString
  | String c r =>
      match trimEnd r with
      | EmptyString => if JS.isSpace c then EmptyString else String c EmptyString
      | r' => String c r'
      end
  end.

Definition trim (s : string) : string := trimEnd (JS.skipSpaces s).

(** [s.replace(/[CLASS]/g, r)] for a replacement of one character. *)
Fixpoint replaceClass (cls : ascii -> bool) (r : ascii) (s : string) : string :=
  match s with
  | EmptyString => EmptyString
  | String c rest => String (if cls c then r else c) (replaceClass cls r rest)
  end.

End Text.

(* ================================================================== *)
(** * The property manager (the property management module) *)

Module PropertyManager.

(** [o[key] = v] on an object: a key that is there keeps its place. *)
Fixpoint assign {V : Type} (o : list (string * V)) (key : string) (v : V)
    : list (string * V) :=
  match o with
  | [] => [(key, v)]
  | (k, x) :: r => if String.eqb k key then (k, v) :: r else (k, x) :: assign r key v
  end.

(** An entry of [categorized.processedMessages]; the text of its date
    in the Japanese locale is left out. *)
Record ProcessedEntry := MkProcessedEntry {
  value : string;
  timestamp : option Z
}.

Record Categorized := MkCategorized {
  configuration : Props;
  processedMessages : list (string * ProcessedEntry);
  senderEmails : Props;
  recipientEmails : Props;
  other : Props;
  total : nat
}.

Definition configurationKeys : list string :=
  ["SLACK_WEBHOOK_URL"; "SLACK_CHANNEL"; "DRIVE_FOLDER_ID"; "SPREADSHEET_ID"].

(** The body of the loop of [getAllProperties]. *)
Definition categorize (c : Categorized) (entry : string * string) : Categorized :=
  let '(key, v) := entry in
  if JS.startsWith "PROCESSED_MSG_" key then
    MkCategorized (configuration c)
      (assign (processedMessages c) key (MkProcessedEntry v (JS.parseInt v)))
      (senderEmails c) (recipientEmails c) (other c) (total c)
  else if JS.startsWith "SENDER_EMAIL" key then
    MkCategorized (configuration c) (processedMessages c)
      (assign (senderEmails c) key v) (recipientEmails c) (other c) (total c)
  else if JS.startsWith "RECIPIENT_EMAIL" key then
    MkCategorized (configuration c) (processedMessages c) (senderEmails c)
      (assign (recipientEmails c) key v) (other c) (total c)
  else if existsb (String.eqb key) configurationKeys then
    MkCategorized
      (assign (configuration c) key
         (if String.eqb key "SLACK_WEBHOOK_URL" then "[HIDDEN]" else v))
      (processedMessages c) (senderEmails c) (recipientEmails c) (other c) (total c)
  else
    MkCategorized (configuration c) (processedMessages c) (senderEmails c)
      (recipientEmails c) (assign (other c) key v) (total c).

Definition getAllProperties (allProperties : Props) : Categorized :=
  fold_left categorize allProperties
    (MkCategorized [] [] [] [] [] (List.length allProperties)).

(** The texts that [getPropertyStats] and [cleanupProcessedMessages]
    recommend. *)
Inductive Advice :=
| LimitReached          (* CRITICAL: Property limit reached ... *)
| CleanUpImmediately    (* Run cleanupProcessedMessages() immediately *)
| ApproachingLimit      (* WARNING: Approaching property limit *)
| ConsiderCleanUp       (* Consider running cleanupProcessedMessages() *)
| ManyProcessedMessages (* Large number of processed messages ... *)
| NoSenderEmails        (* No sender emails configured ... *)
| MoreFrequentCleanup   (* Consider more frequent cleanup *)
| SetUpTriggers.        (* Set up automatic triggers *)

Record Stats := MkStats {
  statTotal : nat;
  statConfiguration : nat;
  statSenderEmails : nat;
  statRecipientEmails : nat;
  statProcessedMessages : nat;
  statOther : nat;
  percentUsed : nat;
  nearLimit : bool;
  atLimit : bool;
  statRecommendations : list Advice
}.

(** [Math.round((total / 50) * 100)] is [2 * total]: the quotient and
    the product are off by less than a half. *)
Definition getPropertyStats (ps : Props) : Stats :=
  let props := getAllProperties ps in
  let atLimit := (50 <=? total props)%nat in
  let nearLimit := (45 <=? total props)%nat in
  let processed := List.length (processedMessages props) in
  let senders := List.length (senderEmails props) in
  MkStats (total props)
    (List.length (configuration props))
    senders
    (List.length (recipientEmails props))
    processed
    (List.length (other props))
    (2 * total props)
    nearLimit atLimit
    ((if atLimit then [LimitReached; CleanUpImmediately]
      else if nearLimit then [ApproachingLimit; ConsiderCleanUp]
      else []) ++
     (if (20 <? processed)%nat then [ManyProcessedMessages] else []) ++
     (if (senders =? 0)%nat then [NoSenderEmails] else []))%list.

Record CleanupResult := MkCleanupResult {
  totalBefore : nat;
  totalAfter : nat;
  deleted : nat;
  kept : nat;
  recommendations : list Advice
}.

(** The loop of [cleanupProcessedMessages] that sorts the processed
    messages into those to delete and those to keep; an entry carries
    its key and the number read from its value. *)
Fixpoint analyse (cutoffTime : Z) (ps : Props)
    : list (string * option Z) * list (string * option Z) :=
  match ps with
  | [] => ([], [])
  | (key, v) :: r =>
      let '(toDelete, toKeep) := analyse cutoffTime r in
      if JS.startsWith "PROCESSED_MSG_" key then
        if olderThan cutoffTime v then ((key, JS.parseInt v) :: toDelete, toKeep)
        else (toDelete, (key, JS.parseInt v) :: toKeep)
      else (toDelete, toKeep)
  end.

Definition cleanupProcessedMessages (now daysOld : Z) (dryRun : bool) (ps : Props)
    : Props * CleanupResult :=
  let cutoffTime := now - daysOld * (24 * 60 * 60 * 1000) in
  let '(toDelete, toKeep) := analyse cutoffTime ps in
  let ps' :=
    if (0 <? List.length toDelete)%nat && negb dryRun
    then deleteAll (map fst toDelete) ps
    else ps in
  let finalCount := List.length ps' in
  (ps',
   MkCleanupResult (List.length ps) finalCount
     (if dryRun then 0%nat else List.length toDelete)
     (List.length toKeep)
     (if (45 <=? finalCount)%nat then [MoreFrequentCleanup; SetUpTriggers] else [])).

Definition setPropertySafely (key v : string) (force : bool) (ps : Props) : Exc Props :=
  let currentCount := List.length ps in
  let exists_ := PropertiesService.hasOwnProperty ps key in
  if negb exists_ && (50 <=? currentCount)%nat && negb force
  then Throw "Cannot add new property: 50 property limit reached"
  else Ok (PropertiesService.setProperty ps key v).

Definition deletePropertiesByPattern (pattern : string) (dryRun : bool) (ps : Props)
    : Props * nat :=
  let toDelete := filter (fun entry => Text.includes pattern (fst entry)) ps in
  match toDelete with
  | [] => (ps, 0%nat)
  | _ =>
      if negb dryRun then (deleteAll (map fst toDelete) ps, List.length toDelete)
      else (ps, 0%nat)
  end.

Record EmergencyResult := MkEmergencyResult {
  cleaned : nat;
  beforeCount : option nat;
  afterCount : option nat;
  message : string
}.

Definition emergencyCleanup (now : Z) (ps : Props) : Props * EmergencyResult :=
  let stats := getPropertyStats ps in
  if negb (nearLimit stats) then
    (ps, MkEmergencyResult 0 None None "No cleanup needed")
  else
    let '(ps', result) := cleanupProcessedMessages now 3 false ps in
    let newStats := getPropertyStats ps' in
    (ps',
     MkEmergencyResult (deleted result) (Some (statTotal stats))
       (Some (statTotal newStats))
       (if atLimit newStats then "Still at limit" else "Cleanup successful")).

End PropertyManager.

(** The short names of [main.js]. *)
Definition cleanupOld (now days : Z) (dryRun : bool) (ps : Props) :=
  PropertyManager.cleanupProcessedMessages now days dryRun ps.

Definition fixProperties (now : Z) (ps : Props) :=
  PropertyManager.emergencyCleanup now ps.

(** The keys that a categorisation holds and the number of its
    entries. *)
Definition categoryKeys (c : PropertyManager.Categorized) : list string :=
  (map fst (PropertyManager.configuration c) ++
   map fst (PropertyManager.processedMessages c) ++
   map fst (PropertyManager.senderEmails c) ++
   map fst (PropertyManager.recipientEmails c) ++
   map fst (PropertyManager.other c))%list.

Definition categorySizes (c : PropertyManager.Categorized) : nat :=
  (List.length (PropertyManager.configuration c) +
   List.length (PropertyManager.processedMessages c) +
   List.length (PropertyManager.senderEmails c) +
   List.length (PropertyManager.recipientEmails c) +
   List.length (PropertyManager.other c))%nat.

(** [distinct l] says that no string occurs twice in [l]. *)
Fixpoint distinct (l : list string) : bool :=
  match l with
  | [] => true
  | x :: r => negb (existsb (String.eqb x) r) && distinct r
  end.

(** A full store: four settings and forty-six processed messages, the
    first ten of them a week old. *)
Definition fullStore : Props :=
  (settings ++
   map (fun i => (("PROCESSED_MSG_f" ++ JS.showZ (Z.of_nat i))%string,
                  JS.showZ (if (i <=? 10)%nat then june22 - 7 * msPerDay
                            else june22 - 60000 * Z.of_nat i)))
       (seq 1 46))%list.

(* ================================================================== *)
(** * The configured senders ([main.js]) *)

(** [[...new Set(a)]]: the elements in the order of their first
    occurrence. *)
Definition setAdd (seen : list string) (x : string) : list string :=
  if existsb (String.eqb x) seen then seen else (seen ++ [x])%list.

Definition setOf (a : list string) : list string := fold_left setAdd a [].

(** The keys that [getConfiguredSenderEmails] reads, in its order: the
    legacy key, then [SENDER_EMAIL_1] to [SENDER_EMAIL_20]. *)
Definition senderEmailKeys : list string :=
  "SENDER_EMAIL" ::
  map (fun i => "SENDER_EMAIL_" ++ JS.showZ (Z.of_nat i)) (seq 1 20).

(** [const email = getProperty(key, false); if (email) emails.push(email)] *)
Definition pushConfigured (ps : Props) (key : string) : list string :=
  match getPropertyOptional ps key with
  | Some email => if truthy (Some email) then [email] else []
  | None => []
  end.

Definition getConfiguredSenderEmails (ps : Props) : list string :=
  setOf (flat_map (pushConfigured ps) senderEmailKeys).

(* ================================================================== *)
(** * Recipients and subject patterns ([emailProcessor.js]) *)

Definition createRecipientHash (recipients : option (list string)) : string :=
  catch
    (recipients <- deref "recipients.sort" recipients ;;
     let sortedRecipients := JS.sort recipients in
     let recipientString := JS.join "," sortedRecipients in
     let hash := hashOf recipientString in
     Ok (JS.substring0 16 hash))
    (fun _ => "default").

(** A pattern of the configuration: the text of [pattern.toString()]
    and what [pattern.test(subject)] answers; a pattern that is not a
    regular expression raises. *)
Record Pattern := MkPattern {
  patternString : string;
  test : string -> Exc bool
}.

(** An entry of [results]; the groups of the match are left out. *)
Record PatternResult := MkPatternResult {
  pattern : string;
  patternIsMatch : bool;
  patternError : option string
}.

(** [CONFIG.SUBJECT_PATTERNS] *)
Record SubjectPatterns := MkSubjectPatterns {
  ENABLE_MULTIPLE_PATTERNS : bool;
  MATCH_MODE : option string;
  PATTERNS : option (list Pattern)
}.

Record Summary := MkSummary {
  totalPatterns : nat;
  matchedCount : nat;
  finalResult : bool
}.

(** The answer of [checkSubjectPattern]. *)
Record PatternMatch := MkPatternMatch {
  isMatch : bool;
  matchedPattern : option string;
  checkedPatterns : list string;
  allResults : list PatternResult;
  matchMode : option string;
  summary : option Summary;
  matchError : option string
}.

(** The loop of [checkMultiplePatterns]: it ends with the results of
    all patterns, or returns at the first match in the mode [any]. *)
Fixpoint testPatterns (matchMode subject : string) (patterns : list Pattern)
    (results : list PatternResult) (checkedPatterns : list string)
    : PatternMatch + (list PatternResult * list string) :=
  match patterns with
  | [] => inr (results, checkedPatterns)
  | p :: rest =>
      let patternString := patternString p in
      let checkedPatterns := (checkedPatterns ++ [patternString])%list in
      match test p subject with
      | Ok isMatch =>
          let results :=
            (results ++ [MkPatternResult patternString isMatch None])%list in
          if String.eqb matchMode "any" && isMatch then
            inl (MkPatternMatch true (Some patternString) checkedPatterns results
                   (Some matchMode) None None)
          else testPatterns matchMode subject rest results checkedPatterns
      | Throw message =>
          testPatterns matchMode subject rest
            (results ++ [MkPatternResult patternString false (Some message)])%list
            checkedPatterns
      end
  end.

Definition checkMultiplePatterns (config : SubjectPatterns) (subject : string)
    : PatternMatch :=
  let patterns := match PATTERNS config with Some l => l | None => [] end in
  let matchMode :=
    match MATCH_MODE config with
    | Some m => if String.eqb m "" then "any" else m
    | None => "any"
    end in
  match testPatterns matchMode subject patterns [] [] with
  | inl found => found
  | inr (results, checkedPatterns) =>
      let hasMatches := existsb patternIsMatch results in
      let allMatch := forallb patternIsMatch results in
      let finalMatch := if String.eqb matchMode "any" then hasMatches else allMatch in
      MkPatternMatch finalMatch
        (if finalMatch then option_map pattern (find patternIsMatch results) else None)
        checkedPatterns results (Some matchMode)
        (Some (MkSummary (List.length patterns)
                 (List.length (filter patternIsMatch results)) finalMatch))
        None
  end.

(** [checkSubjectPattern]; [legacy] is [CONFIG.SUBJECT_PATTERN].  The
    details of the legacy match are left out. *)
Definition legacyMatch (legacy : Pattern) (subject : string) : Exc PatternMatch :=
  isMatch <- test legacy subject ;;
  Ok (MkPatternMatch isMatch
        (if isMatch then Some (patternString legacy) else None)
        [patternString legacy] [] None None None).

Definition checkSubjectPattern (config : option SubjectPatterns) (legacy : Pattern)
    (subject : string) : PatternMatch :=
  catch
    (match config with
     | Some c =>
         if ENABLE_MULTIPLE_PATTERNS c then Ok (checkMultiplePatterns c subject)
         else legacyMatch legacy subject
     | None => legacyMatch legacy subject
     end)
    (fun message => MkPatternMatch false None [] [] None None (Some message)).

(** Whether a pattern answers that the subject matches. *)
Definition hits (subject : string) (p : Pattern) : bool :=
  match test p subject with
  | Ok b => b
  | Throw _ => false
  end.

(** The patterns of a configuration ([PATTERNS || []]). *)
Definition patternsOf (config : SubjectPatterns) : list Pattern :=
  match PATTERNS config with
  | Some l => l
  | None => []
  end.

(** Sample data: a store that names one sender under three keys and a
    second sender beyond the keys that are read; two lists of
    recipients; three patterns, the second of which is no regular
    expression. *)
Definition senderStore : Props :=
  [ ("SENDER_EMAIL", "noreply@contracttool1.example.com");
    ("SENDER_EMAIL_1", "noreply@contracttool1.example.com");
    ("SENDER_EMAIL_2", "");
    ("SENDER_EMAIL_7", "noreply@contracttool7.example.com");
    ("SENDER_EMAIL_20", "noreply@contracttool1.example.com");
    ("SENDER_EMAIL_21", "noreply@contracttool9.example.com") ].

Definition someRecipients : list string :=
  ["user2@example.com"; "user1@example.com"; "legal@example.com"].

Definition sameRecipients : list string :=
  ["legal@example.com"; "user2@example.com"; "user1@example.com"].

Definition containsSigned : Pattern :=
  MkPattern "/signed/" (fun subject => Ok (Text.includes "signed" subject)).

Definition brokenPattern : Pattern :=
  MkPattern "signed" (fun _ => Throw "pattern.test is not a function").

Definition containsLoan : Pattern :=
  MkPattern "/Loan/" (fun subject => Ok (Text.includes "Loan" subject)).

(* ================================================================== *)
(** * The names of the saved files ([driveManager.js]) *)

(** The nine characters that the names replace, by their codes: the
    angle brackets, the colon, the double quote, the two slashes, the
    bar, the question mark and the star. *)
Definition invalidCodes : list Z := [60; 62; 58; 34; 47; 92; 124; 63; 42].

Definition isInvalidForName (c : ascii) : bool :=
  existsb (Z.eqb (JS.code c)) invalidCodes.

(** [Utilities.formatDate(date, 'JST', 'yyyyMMdd')] *)
Definition formatDay (t : Z) : string :=
  let loc := Platform.minuteOf t + Platform.jstOffsetMinutes in
  let '(y, m, d) := Platform.civil_from_days (loc / 1440) in
  Platform.pad 4 y ++ Platform.pad 2 m ++ Platform.pad 2 d.

(** [Utilities.formatDate(date, 'JST', 'HHmmss')] *)
Definition formatClock (t : Z) : string :=
  let seconds := t / 1000 + 60 * Platform.jstOffsetMinutes in
  let ofDay := seconds mod 86400 in
  Platform.pad 2 (ofDay / 3600) ++ Platform.pad 2 (ofDay mod 3600 / 60) ++
  Platform.pad 2 (ofDay mod 60).

(** [originalName] is [None] for [null] or [undefined]; [now] is the
    reading of the clock.  With a string or nothing for a name the body
    raises nothing, and the [catch] is left out. *)
Definition generateDatePrefixedFilename (now : Z) (dateStr : string) (index : nat)
    (originalName : option string) : string :=
  let timestamp := formatClock now in
  let fallback :=
    dateStr ++ "_attachment_" ++ JS.showZ (Z.of_nat index + 1) ++ "_" ++ timestamp in
  match originalName with
  | Some name =>
      if truthy (Some name) && truthy (Some (Text.trim name)) then
        let cleanName := Text.trim (Text.replaceClass isInvalidForName "_" name) in
        dateStr ++ "_" ++ cleanName
      else fallback
  | None => fallback
  end.

(** The base name and the extension that [ensureUniqueFilename] takes
    from [fileName.split('.')]. *)
Definition splitName (fileName : string) : string * string :=
  let nameParts := Text.split "." fileName in
  if (1 <? List.length nameParts)%nat
  then (JS.join "." (removelast nameParts), "." ++ last nameParts "")
  else (JS.join "." nameParts, "").

(** [`${baseName}_${counter}${extension}`] *)
Definition candidate (baseName extension : string) (counter : nat) : string :=
  baseName ++ "_" ++ JS.showZ (Z.of_nat counter) ++ extension.

(** [folder.getFilesByName(name).hasNext()] in a folder given by the
    names of its files. *)
Definition hasFile (folder : list string) (name : string) : bool :=
  existsb (String.eqb name) folder.

(** The [do ... while (counter < 100)] loop from [counter] on, with
    [more] rounds to follow the first one at most. *)
Fixpoint uniqueNameFrom (folder : list string) (baseName extension : string)
    (more counter : nat) : string :=
  let uniqueName := candidate baseName extension counter in
  if negb (hasFile folder uniqueName) then uniqueName
  else
    match more with
    | O => uniqueName
    | S more' => uniqueNameFrom folder baseName extension more' (S counter)
    end.

(** The Drive service answers ([up]) or raises. *)
Definition openFolder {A : Type} (up : bool) (x : A) : Exc A :=
  if up then Ok x else Throw "Service error: Drive".

Definition ensureUniqueFilename (up : bool) (now : Z) (folder : list string)
    (fileName : string) : string :=
  catch
    (files <- openFolder up folder ;;
     if negb (hasFile files fileName) then Ok fileName
     else
       let '(baseName, extension) := splitName fileName in
       Ok (uniqueNameFrom files baseName extension 98 1))
    (fun _ => fileName ++ "_" ++ JS.showZ now).

(** [saveAttachmentToDrive]: the folder afterwards, the name of the
    file and its URL; [created] is the answer of [folder.createFile].
    An error is passed on. *)
Definition saveAttachmentToDrive (up : bool) (now : Z) (created : string -> Exc string)
    (folder : list string) (attachment : Attachment) (index : nat) (emailDate : Z)
    : Exc (list string * (string * string)) :=
  let originalName := attName attachment in
  let dateStr := formatDay emailDate in
  let safeFileName := generateDatePrefixedFilename now dateStr index (Some originalName) in
  let finalFileName := ensureUniqueFilename up now folder safeFileName in
  url <- created finalFileName ;;
  Ok ((folder ++ [finalFileName])%list, (finalFileName, url)).

(** Every character of the text is in the class. *)
Definition allChars (cls : ascii -> bool) (s : string) : bool :=
  forallb cls (list_ascii_of_string s).

(** No character of the text is invalid in a file name. *)
Definition validName (s : string) : bool :=
  allChars (fun c => negb (isInvalidForName c)) s.

(** A digit or the sign of a number. *)
Definition isNumeric (c : ascii) : bool := JS.isDigit c || (JS.code c =? 45).

(** Sample data: a folder that holds a file and its ninety-nine numbered
    copies. *)
Definition crowdedFolder : list string :=
  "20240622_loan_agreement.pdf" ::
  map (candidate "20240622_loan_agreement" ".pdf") (seq 1 99).

(* ================================================================== *)
(** * Maintenance of the processing ledger ([spreadsheetManager.js]) *)

(** [new Date(row[0])]: the cell of column A holds the time of the
    append to the second (the format is [yyyy/MM/dd HH:mm:ss]); the
    spreadsheet and the script are taken to be at +09:00, as the format
    is. *)
Definition processingDate (row : ProcessedRow) : Z := 1000 * (processedAt row / 1000).

(** [sheet.deleteRow(i + 2)]: the data row of index [i] goes. *)
Definition deleteRow {A : Type} (i : nat) (rows : list A) : list A :=
  (firstn i rows ++ skipn (S i) rows)%list.

(** The loop [for (let i = data.length - 1; i >= 0; i--)] of the
    clean-up, with the rounds for the indices below [next] still to
    come: the sheet and the count so far, and afterwards. *)
Fixpoint deleteOldRows (cutoffDate : Z) (data : list ProcessedRow) (next : nat)
    (sheet : list ProcessedRow) (removedCount : nat) : list ProcessedRow * nat :=
  match next with
  | O => (sheet, removedCount)
  | S i =>
      match nth_error data i with
      | Some row =>
          if processingDate row <? cutoffDate
          then deleteOldRows cutoffDate data i (deleteRow i sheet) (S removedCount)
          else deleteOldRows cutoffDate data i sheet removedCount
      | None => deleteOldRows cutoffDate data i sheet removedCount
      end
  end.

Definition cleanupOldProcessedEntriesFromSpreadsheet (up : bool) (now daysOld : Z)
    (w : World) : World * nat :=
  catch
    (if negb (truthy (getPropertyOptional (props w) "SPREADSHEET_ID")) then Ok (w, 0%nat)
     else
       data <- openSheet up (processedSheet w) ;;
       match data with
       | [] => Ok (w, 0%nat)
       | _ =>
           let cutoffDate := now - daysOld * (24 * 60 * 60 * 1000) in
           let '(rows, removedCount) :=
             deleteOldRows cutoffDate data (List.length data) data 0 in
           Ok (withProcessed w rows, removedCount)
       end)
    (fun _ => (w, 0%nat)).

(** [cleanupSpreadsheetOld] of [main.js] *)
Definition cleanupSpreadsheetOld (up : bool) (now days : Z) (w : World) : World * nat :=
  cleanupOldProcessedEntriesFromSpreadsheet up now days w.

Record MessageStats := MkMessageStats {
  statsTotal : nat;
  statsRecent : nat;
  statsErrors : nat
}.

(** The body of [data.forEach] in [getProcessedMessageStats]. *)
Definition countRow (recentCutoff : Z) (counts : nat * nat) (row : ProcessedRow)
    : nat * nat :=
  let '(recent, errors) := counts in
  (if recentCutoff <=? processingDate row then S recent else recent,
   if String.eqb (rowStatus row) "Error" then S errors else errors).

Definition getProcessedMessageStats (up : bool) (now : Z) (w : World) : MessageStats :=
  catch
    (if negb (truthy (getPropertyOptional (props w) "SPREADSHEET_ID"))
     then Ok (MkMessageStats 0 0 0)
     else
       data <- openSheet up (processedSheet w) ;;
       match data with
       | [] => Ok (MkMessageStats 0 0 0)
       | _ =>
           let recentCutoff := now - 7 * 24 * 60 * 60 * 1000 in
           let '(recent, errors) := fold_left (countRow recentCutoff) data (0%nat, 0%nat) in
           Ok (MkMessageStats (List.length data) recent errors)
       end)
    (fun _ => MkMessageStats 0 0 0).

(** The row is not older than the cut-off. *)
Definition keptRow (cutoffDate : Z) (row : ProcessedRow) : bool :=
  negb (processingDate row <? cutoffDate).

(** Sample data: a ledger with a row of the first of June and a row of
    the twenty-second; a message whose first attachment is a text. *)
Definition agedWorld : World :=
  withProcessed freshWorld
    [MkProcessedRow (june22 - 21 * msPerDay) "18e0b7" "" "Lease - signed by Ann Lee"
       "noreply@contracttool7.example.com" "Success";
     MkProcessedRow (june22 + 200000) "18f3a1" "" (subject loanMessage)
       (from loanMessage) "Success"].

Definition coverFirst : list Attachment :=
  [MkAttachment "cover.txt"; MkAttachment "loan_agreement.pdf"].

(* ================================================================== *)
(** * The check of the configuration and a whole run ([main.js]) *)

(** A spreadsheet other than the one in use: its id and what its two
    ledgers hold (nothing where the tab is missing or new). *)
Record Spreadsheet := MkSpreadsheet {
  fileId : string;
  itsProcessed : list ProcessedRow;
  itsContent : list DuplicateRow
}.

(** What Drive and the spreadsheet service answer while
    [validateConfiguration] runs: whether [getFolderById] answers for
    the folder of the properties; the id of the first folder of the
    configured name, if any; the id of the folder that [createFolder]
    makes; whether [openById] and [ensureLoggingSheet] answer for the
    spreadsheet of the properties; the first file of the configured
    name, if any, with whether it is a spreadsheet, and whether
    [openById] and [ensureLoggingSheet] answer for it; the id of the
    spreadsheet that [create] and the set-up of its tabs make; and the
    reading of the clock. *)
Record Checks := MkChecks {
  folderAnswers : bool;
  folderByName : Exc (option string);
  folderCreated : Exc string;
  spreadsheetAnswers : bool;
  fileByName : Exc (option (bool * Spreadsheet));
  fileAnswers : bool;
  spreadsheetCreated : Exc string;
  checkedAt : Z
}.

Definition getOrCreateDriveFolder (c : Checks) (w : World) : World * Exc string :=
  match (folderId <- getPropertyRequired (props w) "DRIVE_FOLDER_ID" ;;
         if folderAnswers c then Ok folderId else Throw "Service error: Drive") with
  | Ok folderId => (w, Ok folderId)
  | Throw _ =>
      match (found <- folderByName c ;;
             match found with
             | Some folderId => Ok folderId
             | None => folderCreated c
             end) with
      | Ok folderId =>
          (withProps w (setProperty (checkedAt c) "DRIVE_FOLDER_ID" folderId (props w)),
           Ok folderId)
      | Throw message => (w, Throw message)
      end
  end.

(** [setProperty('SPREADSHEET_ID', spreadsheetId)]: from now on the
    ledgers are those of this spreadsheet. *)
Definition useSpreadsheet (now : Z) (w : World) (s : Spreadsheet) : World :=
  MkWorld (setProperty now "SPREADSHEET_ID" (fileId s) (props w))
    (itsProcessed s) (itsContent s) (driveFiles w) (slackSent w).

(** [createOrGetSpreadsheet] of [spreadsheetManager.js].  The contract
    list, whose headers [ensureLoggingSheet] may renew, is no part of
    the world. *)
Definition createOrGetSpreadsheet (c : Checks) (w : World) : World * Exc string :=
  let spreadsheetId := getPropertyOptional (props w) "SPREADSHEET_ID" in
  if truthy spreadsheetId && spreadsheetAnswers c then (w, Ok (orEmpty spreadsheetId))
  else
    match fileByName c with
    | Throw message => (w, Throw message)
    | Ok (Some (true, file)) =>
        if fileAnswers c
        then (useSpreadsheet (checkedAt c) w file, Ok (fileId file))
        else (w, Throw "Service Spreadsheets failed")
    | Ok _ =>
        match spreadsheetCreated c with
        | Throw message => (w, Throw message)
        | Ok id => (useSpreadsheet (checkedAt c) w (MkSpreadsheet id [] []), Ok id)
        end
    end.

(** [validateConfiguration]; [CONFIG.ENABLE_SPREADSHEET_LOGGING] is
    [true]. *)
Definition validateConfiguration (c : Checks) (w : World) : World * Exc unit :=
  match getConfiguredSenderEmails (props w) with
  | [] =>
      (w, Throw "No sender emails configured. Please set at least one SENDER_EMAIL_* property.")
  | _ =>
      match getPropertyRequired (props w) "SLACK_WEBHOOK_URL" with
      | Throw message => (w, Throw message)
      | Ok webhookUrl =>
          if negb (JS.startsWith "https://hooks.slack.com/" webhookUrl)
          then (w, Throw "Invalid Slack webhook URL in script properties")
          else
            match getOrCreateDriveFolder c w with
            | (w1, Throw message) => (w1, Throw message)
            | (w1, Ok _) =>
                match createOrGetSpreadsheet c w1 with
                | (w2, Throw message) => (w2, Throw message)
                | (w2, Ok _) => (w2, Ok tt)
                end
            end
      end
  end.

(** [processEmails] as a whole: the check of the configuration, the
    search ([search] is what [GmailApp.search] and the accessors of the
    threads answer) and the loop over the messages found, which is
    [processEmails] above.  An error is thrown on; the notification of
    the error that the [catch] sends to Slack is left out. *)
Definition processEmailsRun (c : Checks) (search : Exc (list (Outcomes * Message)))
    (w : World) : World * Exc unit :=
  match validateConfiguration c w with
  | (w1, Throw message) => (w1, Throw message)
  | (w1, Ok _) =>
      match search with
      | Throw message => (w1, Throw message)
      | Ok found => (processEmails w1 found, Ok tt)
      end
  end.

(** Sample data: the services answer the check of the configuration;
    the spreadsheet of the properties cannot be opened, no file of its
    name is found and a new one is made. *)
Definition checksPass : Checks :=
  MkChecks true (Ok None) (Ok "folder-2") true (Ok None) true (Ok "sheet-2") june22.

Definition spreadsheetLost : Checks :=
  MkChecks true (Ok None) (Ok "folder-2") false (Ok None) true (Ok "sheet-2") june22.

(* ================================================================== *)
(** * The contract list ([spreadsheetManager.js]) *)

(** [senderEmail] is [None] for [null] or [undefined]. *)
Definition extractContractTool (senderEmail : option string) : string :=
  match senderEmail with
  | None => "Unknown"
  | Some senderEmail =>
      if negb (truthy (Some senderEmail)) then "Unknown"
      else
        let email := JS.toLowerCase senderEmail in
        if Text.includes "contracttool1" email then "Contract Tool 1"
        else if Text.includes "contracttool2" email || Text.includes "contracttool2alt" email
        then "Contract Tool 2"
        else if Text.includes "contracttool3" email then "Contract Tool 3"
        else if Text.includes "contracttool4" email then "Contract Tool 4"
        else if Text.includes "contracttool5" email then "Contract Tool 5"
        else if Text.includes "contracttool6" email then "Contract Tool 6"
        else if Text.includes "contracttool7" email then "Contract Tool 7"
        else if Text.includes "contracttool8" email then "Contract Tool 8"
        else if Text.includes "contracttool9" email then "Contract Tool 9"
        else if Text.includes "contracttool10" email then "Contract Tool 10"
        else if Text.includes "via Dropbox Sign" email ||
                Text.includes "'Dropbox Sign' via" email
        then "Dropbox Sign"
        else if Text.includes "via HelloSign" email ||
                Text.includes "'HelloSign' via" email
        then "HelloSign"
        else if Text.includes "hellosign.com" email then "HelloSign/Dropbox Sign"
        else if Text.includes "docusign" email then "DocuSign"
        else
          match nth_error (Text.split "@" email) 1 with
          | Some domain =>
              if truthy (Some domain) then hd "" (Text.split "." domain) else "Unknown"
          | None => "Unknown"
          end
  end.

(* ================================================================== *)
(** * The summary of a body ([spreadsheetManager.js], truncateBody) *)

(** The body of a message is read as JavaScript reads it: a sequence of
    UTF-16 code units.  [length] counts them, [substring] cuts between
    them, and the white space of [trim] and of the class [\s] is that
    of ECMAScript: the characters TAB to CR, the space, the no-break
    space, U+1680, U+2000 to U+200A, the line and paragraph separators,
    U+202F, U+205F, the ideographic space U+3000 and U+FEFF. *)
Module Utf16.

Definition t : Type := list N.

Definition isWhiteSpace (c : N) : bool :=
  ((9 <=? c) && (c <=? 13) || (c =? 32) || (c =? 160) || (c =? 5760) ||
   (8192 <=? c) && (c <=? 8202) || (c =? 8232) || (c =? 8233) ||
   (c =? 8239) || (c =? 8287) || (c =? 12288) || (c =? 65279))%N.

Fixpoint trimStart (s : t) : t :=
  match s with
  | [] => []
  | c :: r => if isWhiteSpace c then trimStart r else s
  end.

Fixpoint trimEnd (s : t) : t :=
  match s with
  | [] => []
  | c :: r =>
      match trimEnd r with
      | [] => if isWhiteSpace c then [] else [c]
      | kept => c :: kept
      end
  end.

(** [s.trim()] *)
Definition trim (s : t) : t := trimEnd (trimStart s).

(** The code units of a text of ASCII. *)
Definition ofAscii (s : string) : t := map N_of_ascii (list_ascii_of_string s).

End Utf16.

Definition lineFeed : N := 10%N.
Definition spaceUnit : N := 32%N.

(** The number of code units that [\s*\n] takes at the head of a text:
    the white space up to its last line feed, [None] when the white
    space at the head holds no line feed.  The longest match of [\s*]
    is tried first. *)
Fixpoint blankLineLength (s : Utf16.t) : option nat :=
  match s with
  | [] => None
  | c :: r =>
      if Utf16.isWhiteSpace c then
        match blankLineLength r with
        | Some n => Some (S n)
        | None => if N.eqb c lineFeed then Some 1%nat else None
        end
      else None
  end.

(** [s.replace(/\n\s*\n/g, ' ')]: the text is read from the left; the
    [skip] code units that follow belong to the match that has just
    been replaced. *)
Fixpoint replaceBlankLines (skip : nat) (s : Utf16.t) : Utf16.t :=
  match s with
  | [] => []
  | c :: r =>
      match skip with
      | S k => replaceBlankLines k r
      | O =>
          if N.eqb c lineFeed then
            match blankLineLength r with
            | Some n => spaceUnit :: replaceBlankLines n r
            | None => c :: replaceBlankLines 0 r
            end
          else c :: replaceBlankLines 0 r
      end
  end.

(** [s.replace(/\s+/g, ' ')]: of a run of white space the last code
    unit stays, as a space. *)
Fixpoint collapseSpaces (s : Utf16.t) : Utf16.t :=
  match s with
  | [] => []
  | c :: r =>
      if Utf16.isWhiteSpace c then
        match r with
        | d :: _ => if Utf16.isWhiteSpace d then collapseSpaces r
                    else spaceUnit :: collapseSpaces r
        | [] => [spaceUnit]
        end
      else c :: collapseSpaces r
  end.

Definition MAX_BODY_LENGTH : nat := 1000.

(** The three dots that are added to a body that was cut. *)
Definition dots : Utf16.t := [46; 46; 46]%N.

(** The last step of [truncateBody]. *)
Definition cutBody (cleanBody : Utf16.t) : Utf16.t :=
  if (List.length cleanBody <=? MAX_BODY_LENGTH)%nat then cleanBody
  else (firstn MAX_BODY_LENGTH cleanBody ++ dots)%list.

(** [body] is [None] for [null] or [undefined]; the empty text is
    falsy. *)
Definition truncateBody (body : option Utf16.t) : Utf16.t :=
  match body with
  | None => []
  | Some body =>
      match body with
      | [] => []
      | _ =>
          if (List.length (Utf16.trim body) =? 0)%nat then []
          else
            let cleanBody :=
              Utf16.trim (collapseSpaces (replaceBlankLines 0 body)) in
            cutBody cleanBody
      end
  end.

(** The code unit is a space or no white space at all. *)
Definition isPlain (c : N) : bool := negb (Utf16.isWhiteSpace c) || N.eqb c spaceUnit.

(** The text begins with white space. *)
Definition startsWithSpace (s : Utf16.t) : bool :=
  match s with
  | c :: _ => Utf16.isWhiteSpace c
  | [] => false
  end.

(** Sample data: a body of four hundred ideographs, and a body in which
    two no-break spaces and an ideographic space part two letters. *)
Definition kanjiBody : Utf16.t := repeat 22865%N 400.

Definition wideSpaces : Utf16.t := [97; 160; 160; 12288; 98]%N.

(* ================================================================== *)
(** * The contract list ([spreadsheetManager.js]) *)

(** The data of a message that [processMessage] hands to
    [addEmailRecord]. *)
Module EmailData.
Record t := Mk {
  date : option Z;
  sender : string;
  recipient : option string;
  subject : string;
  body : Utf16.t;
  pdfFilename : option string;
  pdfDirectLinks : option string;
  status : option string;
  slackNotified : bool;
  messageId : string;
  error : option string
}.
End EmailData.

(** The fields that [updateRecordStatus] may be given; [None] is
    [undefined]. *)
Module Updates.
Record t := Mk {
  status : option string;
  pdfDirectLinks : option string;
  pdfFilename : option string;
  slackNotified : option bool;
  error : option string;
  pdfCount : option nat
}.
End Updates.

(** A row of the contract list, columns A to N. *)
Record ContractRow := MkContractRow {
  listDate : Z;
  listTool : string;
  listSender : string;
  listRecipient : string;
  listSubject : string;
  listType : string;
  listParty : string;
  listPdfFilename : string;
  listPdfLinks : string;
  listStatus : string;
  listSlackNotified : string;
  listSummary : Utf16.t;
  listMessageId : string;
  listErrorLog : string
}.

(** [spreadsheet.getSheetByName(TAB_NAME)]: the data rows of the tab,
    or [None] when the spreadsheet has no such tab. *)
Definition ContractSheet : Type := option (list ContractRow).

Definition yesNo (b : bool) : string := if b then "Yes" else "No".

Definition orDefault (v : option string) (d : string) : string :=
  match v with
  | Some s => if String.eqb s "" then d else s
  | None => d
  end.

(** The tab of the contract list behind [getProperty('SPREADSHEET_ID')]
    and [openById]. *)
Definition openContractList (up : bool) (ps : Props) (sheet : ContractSheet)
    : Exc (option (list ContractRow)) :=
  _ <- getPropertyRequired ps "SPREADSHEET_ID" ;;
  if up then Ok sheet else Throw "Service Spreadsheets failed".

(** [addEmailRecord]; the texts of the columns F and G, which
    [extractContractType] and [extractContractParty] make of the
    subject and the body, are given.  The colours of the cells are left
    out. *)
Definition addEmailRecord (up : bool) (ps : Props) (sheet : ContractSheet)
    (contractType contractParty : string) (emailData : EmailData.t)
    : ContractSheet * bool :=
  catch
    (tab <- openContractList up ps sheet ;;
     rows <- match tab with
             | Some rows => Ok rows
             | None => Throw "Logging sheet not found"
             end ;;
     received <- dateCell (EmailData.date emailData) ;;
     let rowData :=
       MkContractRow received
         (extractContractTool (Some (EmailData.sender emailData)))
         (EmailData.sender emailData)
         (orDefault (EmailData.recipient emailData) "")
         (EmailData.subject emailData)
         contractType contractParty
         (orDefault (EmailData.pdfFilename emailData) "")
         (orDefault (EmailData.pdfDirectLinks emailData) "")
         (orDefault (EmailData.status emailData) "Processing")
         (yesNo (EmailData.slackNotified emailData))
         (truncateBody (Some (EmailData.body emailData)))
         (EmailData.messageId emailData)
         (orDefault (EmailData.error emailData) "") in
     Ok (Some (rows ++ [rowData])%list, true))
    (fun _ => (sheet, false)).

(** The index of the first data row whose column M holds the id. *)
Fixpoint findByMessageId (messageId : string) (rows : list ContractRow) : option nat :=
  match rows with
  | [] => None
  | row :: rest =>
      if String.eqb (listMessageId row) messageId then Some 0%nat
      else option_map S (findByMessageId messageId rest)
  end.

Definition setIfGiven {A : Type} (given : option A) (old : A) : A :=
  match given with
  | Some v => v
  | None => old
  end.

(** The [setValue] calls of [updateRecordStatus] on the row found. *)
Definition applyUpdates (updates : Updates.t) (row : ContractRow) : ContractRow :=
  MkContractRow (listDate row) (listTool row) (listSender row) (listRecipient row)
    (listSubject row) (listType row) (listParty row)
    (setIfGiven (Updates.pdfFilename updates) (listPdfFilename row))
    (setIfGiven (Updates.pdfDirectLinks updates) (listPdfLinks row))
    (setIfGiven (Updates.status updates) (listStatus row))
    (setIfGiven (option_map yesNo (Updates.slackNotified updates)) (listSlackNotified row))
    (listSummary row) (listMessageId row)
    (setIfGiven (Updates.error updates) (listErrorLog row)).

Fixpoint updateAt {A : Type} (i : nat) (f : A -> A) (l : list A) : list A :=
  match l, i with
  | [], _ => []
  | x :: r, O => f x :: r
  | x :: r, S j => x :: updateAt j f r
  end.

Definition updateRecordStatus (up : bool) (ps : Props) (sheet : ContractSheet)
    (messageId : string) (updates : Updates.t) : ContractSheet * bool :=
  catch
    (tab <- openContractList up ps sheet ;;
     rows <- match tab with
             | Some rows => Ok rows
             | None => Throw "Logging sheet not found"
             end ;;
     match findByMessageId messageId rows with
     | None => Ok (sheet, false)
     | Some i => Ok (Some (updateAt i (applyUpdates updates) rows), true)
     end)
    (fun _ => (sheet, false)).

(** What [searchRecordByMessageId] returns: the number of the row in
    the sheet and the cells of the columns A to K under the names that
    the function gives them. *)
Module SearchResult.
Record t := Mk {
  row : nat;
  date : Z;
  sender : string;
  subject : string;
  bodySummary : string;
  attachmentCount : string;
  pdfCount : string;
  driveFolderUrl : string;
  status : string;
  messageId : string;
  slackNotified : bool;
  errorLog : string
}.
End SearchResult.



(** Sample data: the record of the loan agreement as [processMessage]
    hands it over first. *)
Definition loanRecord : EmailData.t :=
  EmailData.Mk (Some june22) "noreply@contracttool7.example.com"
    (Some "contracts@company.example.com") "Loan Agreement - signed by John Doe"
    (Utf16.ofAscii "Please find the signed agreement attached.")
    None (Some "") (Some "Processing") false "18f3a1" None.

Definition successUpdate : Updates.t :=
  Updates.Mk (Some "Success") (Some "https://drive.example.com/file/1")
    (Some "loan_agreement.pdf") (Some true) None (Some 1%nat).

(* ================================================================== *)
(** * The files of a message ([driveManager.js], processAttachments) *)

(** The file that [processAttachments] stores for an attachment when
    the content is new: the one that [saveAttachmentToDrive] answers
    for a PDF, none for another attachment or after an error. *)
Definition storedFile (o : Outcomes) (item : nat * Attachment) : list string :=
  if isPdfName (attName (snd item)) then
    match saved o (fst item) with
    | Ok file => [fst file]
    | Throw _ => []
    end
  else [].

(** Sample data: outcomes in which the upload of the first attachment
    fails and that of the others succeeds, and a message with two PDFs
    around a picture. *)
Definition firstUploadFails : Outcomes :=
  MkOutcomes true true (Ok "https://drive.example.com/folders/folder-1")
    (fun index =>
       match index with
       | O => Throw "Service error: Drive"
       | _ => Ok ("20240622_terms.pdf", "https://drive.example.com/file/3")
       end)
    true true true (june22 + 300000).

Definition threeAttachments : list Attachment :=
  [MkAttachment "loan_agreement.pdf"; MkAttachment "logo.png"; MkAttachment "terms.pdf"].

(* ================================================================== *)
(** * The triggers (trigger management module) *)

(** A trigger of the project. *)
Record Trigger := MkTrigger {
  handlerFunction : string;
  uniqueId : string
}.

(** The triggers of the project, in the order of
    [ScriptApp.getProjectTriggers()], and the script properties. *)
Record Script := MkScript {
  triggers : list Trigger;
  scriptProps : Props
}.

(** What [ScriptApp] answers in a run: whether [getProjectTriggers]
    answers, whether [deleteTrigger] answers for the trigger of an id,
    and the id of the trigger that [create] makes, or its error. *)
Record ScriptApp := MkScriptApp {
  listAnswers : bool;
  deleteAnswers : string -> bool;
  created : Exc string
}.

Definition isEmailTrigger (t : Trigger) : bool :=
  String.eqb (handlerFunction t) "processEmails".

(** The loop of [deleteExistingTriggers] over the triggers: the
    triggers that are left, and the error of the [deleteTrigger] that
    ended the loop. *)
Fixpoint deleteEmailTriggers (app : ScriptApp) (ts : list Trigger)
    : list Trigger * Exc unit :=
  match ts with
  | [] => ([], Ok tt)
  | t :: rest =>
      if isEmailTrigger t then
        if deleteAnswers app (uniqueId t) then deleteEmailTriggers app rest
        else (t :: rest, Throw "Service error: Script")
      else
        let (remaining, outcome) := deleteEmailTriggers app rest in
        (t :: remaining, outcome)
  end.

(** [deleteExistingTriggers]: the error is thrown on. *)
Definition deleteExistingTriggers (app : ScriptApp) (s : Script) : Script * Exc unit :=
  if listAnswers app then
    match deleteEmailTriggers app (triggers s) with
    | (remaining, Ok _) =>
        let ps := PropertiesService.deleteProperty (scriptProps s) "TRIGGER_ID" in
        let ps := PropertiesService.deleteProperty ps "TRIGGER_CREATED" in
        (MkScript remaining ps, Ok tt)
    | (remaining, Throw message) =>
        (MkScript remaining (scriptProps s), Throw message)
    end
  else (s, Throw "Service error: Script").

(** [createTrigger]; [nowText] is [new Date().toISOString()].  The
    notification, which goes to Slack only and whose errors are caught,
    is left out. *)
Definition createTrigger (app : ScriptApp) (now : Z) (nowText : string) (s : Script)
    : Script * Exc unit :=
  match deleteExistingTriggers app s with
  | (s1, Throw message) => (s1, Throw message)
  | (s1, Ok _) =>
      match created app with
      | Throw message => (s1, Throw message)
      | Ok id =>
          let ts := (triggers s1 ++ [MkTrigger "processEmails" id])%list in
          let ps := setProperty now "TRIGGER_ID" id (scriptProps s1) in
          let ps := setProperty now "TRIGGER_CREATED" nowText ps in
          (MkScript ts ps, Ok tt)
      end
  end.

(** [getTriggerInfo]: the ids of the triggers of [processEmails], none
    after an error. *)
Definition getTriggerInfo (app : ScriptApp) (s : Script) : list string :=
  if listAnswers app then map uniqueId (filter isEmailTrigger (triggers s)) else [].

(** [checkTriggerHealth]; with one trigger it reads and logs only. *)
Definition checkTriggerHealth (app : ScriptApp) (now : Z) (nowText : string) (s : Script)
    : Script * Exc unit :=
  match getTriggerInfo app s with
  | [] => createTrigger app now nowText s
  | [_] => (s, Ok tt)
  | _ =>
      match deleteExistingTriggers app s with
      | (s1, Throw message) => (s1, Throw message)
      | (s1, Ok _) => createTrigger app now nowText s1
      end
  end.

(** The triggers of [processEmails] and the others. *)
Definition emailTriggers (s : Script) : list Trigger := filter isEmailTrigger (triggers s).

Definition otherTriggers (s : Script) : list Trigger :=
  filter (fun t => negb (isEmailTrigger t)) (triggers s).

(** Sample data: a project with two triggers of [processEmails] around
    a trigger of another function; a [ScriptApp] that answers, and one
    that cannot make a trigger. *)
Definition doubledTriggers : Script :=
  MkScript [MkTrigger "processEmails" "t-1"; MkTrigger "dailyReport" "t-2";
            MkTrigger "processEmails" "t-3"]
    (("TRIGGER_ID", "t-3") :: settings).

Definition scriptAnswers : ScriptApp := MkScriptApp true (fun _ => true) (Ok "t-4").

Definition quotaExceeded : ScriptApp :=
  MkScriptApp true (fun _ => true) (Throw "This script has too many triggers").

(* ================================================================== *)
(** * The platform functions on known values *)

Example md5_of_the_empty_text : hashOf "" = "1B2M2Y8AsgTpgAmY7PhCfg==".
Proof. vm_compute. reflexivity. Qed.

Example md5_of_a_sentence :
  hashOf "The quick brown fox jumps over the lazy dog" = "nhB9nTcrtoJr2B01QqQZ1g==".
Proof. vm_compute. reflexivity. Qed.

Example md5_of_two_blocks :
  hashOf ("1234567890123456789012345678901234567890" ++
          "1234567890123456789012345678901234567890") = "V+30oivjyVWsSdouIQe2eg==".
Proof. vm_compute. reflexivity. Qed.

Example minute_key_of_june22 :
  Platform.formatDate (Some june22) = Ok "20240622_1030".
Proof. vm_compute. reflexivity. Qed.

Example minute_key_of_a_leap_day :
  Platform.formatDate (Some 951782399999) = Ok "20000229_0859".
Proof. vm_compute. reflexivity. Qed.

Example minute_key_of_the_epoch :
  Platform.formatDate (Some 0) = Ok "19700101_0900".
Proof. vm_compute. reflexivity. Qed.

Example parseInt_of_a_timestamp : JS.parseInt "1719019800000" = Some 1719019800000.
Proof. vm_compute. reflexivity. Qed.

Example parseInt_stops_at_a_letter : JS.parseInt " 42abc" = Some 42.
Proof. vm_compute. reflexivity. Qed.

Example parseInt_of_hexadecimal : JS.parseInt "0x1F" = Some 31.
Proof. vm_compute. reflexivity. Qed.

Example parseInt_of_no_number : JS.parseInt "pending" = None.
Proof. vm_compute. reflexivity. Qed.

Example sort_by_code_unit :
  JS.sort ["b.pdf"; "a.pdf"; "B.pdf"; "ab.pdf"] = ["B.pdf"; "a.pdf"; "ab.pdf"; "b.pdf"].
Proof. vm_compute. reflexivity. Qed.

Example key_of_the_loan_agreement :
  combinedKey "a@x.com" "20240622_1030" "Loan Agreement" ["loan.pdf"] =
    "a@x.com_20240622_1030_loanagreement_loan.pdf" /\
  generateContentDuplicateKey 0 (Some "a@x.com") (Some june22)
    (Some "Loan Agreement") (Some ["loan.pdf"]) = "CONTENT_mRGb2IYYWOauR9iv".
Proof. vm_compute. split; reflexivity. Qed.

(* ================================================================== *)
(** * Properties of the stable sort *)

Section SortBy.

Context {A : Type}.
Variable le : A -> A -> bool.
Hypothesis le_total : forall x y, le x y = true \/ le y x = true.
Hypothesis le_trans : forall x y z, le x y = true -> le y z = true -> le x z = true.

Let leP (x y : A) : Prop := le x y = true.

Lemma insertBy_perm (x : A) (l : list A) : Permutation (x :: l) (JS.insertBy le x l).
Proof.
  induction l as [|y r IH]; simpl.
  - apply Permutation_refl.
  - destruct (le x y).
    + apply Permutation_refl.
    + eapply Permutation_trans; [apply perm_swap|].
      now apply perm_skip.
Qed.

Lemma sortBy_perm (l : list A) : Permutation l (JS.sortBy le l).
Proof.
  induction l as [|x r IH]; simpl.
  - apply perm_nil.
  - eapply Permutation_trans; [apply perm_skip, IH|apply insertBy_perm].
Qed.

Lemma insertBy_sorted (x : A) (l : list A) :
  StronglySorted leP l -> StronglySorted leP (JS.insertBy le x l).
Proof.
  induction 1 as [|y r Hr IH Hy]; simpl.
  - constructor; constructor.
  - destruct (le x y) eqn:E.
    + constructor.
      * now constructor.
      * constructor; [exact E|].
        eapply Forall_impl; [|exact Hy].
        intros z Hz. unfold leP in *. eauto.
    + constructor; [exact IH|].
      assert (Hyx : le y x = true) by (destruct (le_total x y); congruence).
      eapply Permutation_Forall; [apply insertBy_perm|].
      constructor; assumption.
Qed.

Lemma sortBy_sorted (l : list A) : StronglySorted leP (JS.sortBy le l).
Proof.
  induction l as [|x r IH]; simpl.
  - constructor.
  - now apply insertBy_sorted.
Qed.

(** Two sorted arrangements of the same elements coincide when the
    order identifies elements that are below each other. *)
Lemma sorted_perm_unique (l1 l2 : list A) :
  (forall x y, le x y = true -> le y x = true -> x = y) ->
  StronglySorted leP l1 -> StronglySorted leP l2 ->
  Permutation l1 l2 -> l1 = l2.
Proof.
  intros anti H1. revert l2.
  induction H1 as [|a r1 Hr1 IH Ha]; intros l2 H2 HP.
  - apply Permutation_nil in HP. now subst.
  - destruct H2 as [|b r2 Hr2 Hb].
    + apply Permutation_sym, Permutation_nil in HP. discriminate.
    + assert (a = b) as ->.
      { assert (Ia : In a (b :: r2)) by (eapply Permutation_in; [exact HP|now left]).
        assert (Ib : In b (a :: r1))
          by (eapply Permutation_in; [apply Permutation_sym, HP|now left]).
        destruct Ia as [->|Ia]; [reflexivity|].
        destruct Ib as [->|Ib]; [reflexivity|].
        rewrite Forall_forall in Ha, Hb.
        apply anti; [apply Ha, Ib|apply Hb, Ia]. }
      f_equal. apply IH; [assumption|].
      eapply Permutation_cons_inv; exact HP.
Qed.

Lemma sortBy_perm_eq (l1 l2 : list A) :
  (forall x y, le x y = true -> le y x = true -> x = y) ->
  Permutation l1 l2 -> JS.sortBy le l1 = JS.sortBy le l2.
Proof.
  intros anti HP.
  apply sorted_perm_unique; auto using sortBy_sorted.
  eapply Permutation_trans; [apply Permutation_sym, sortBy_perm|].
  eapply Permutation_trans; [exact HP|apply sortBy_perm].
Qed.

End SortBy.

(* ================================================================== *)
(** * Properties of the string primitives *)

Lemma ascii_compare_refl (a : ascii) : Ascii.compare a a = Eq.
Proof. unfold Ascii.compare. apply N.compare_refl. Qed.

Lemma ascii_compare_trans_lt (a b c : ascii) :
  Ascii.compare a b = Lt -> Ascii.compare b c = Lt -> Ascii.compare a c = Lt.
Proof.
  unfold Ascii.compare. rewrite !N.compare_lt_iff. apply N.lt_trans.
Qed.

Lemma string_compare_trans_lt (s1 : string) :
  forall s2 s3, String.compare s1 s2 = Lt -> String.compare s2 s3 = Lt ->
                String.compare s1 s3 = Lt.
Proof.
  induction s1 as [|a r1 IH]; intros [|b r2] [|c r3]; simpl; try congruence.
  destruct (Ascii.compare a b) eqn:Eab; try discriminate;
    destruct (Ascii.compare b c) eqn:Ebc; try discriminate; intros H1 H2.
  - apply Ascii.compare_eq_iff in Eab, Ebc. subst.
    rewrite ascii_compare_refl. eauto.
  - apply Ascii.compare_eq_iff in Eab. subst. now rewrite Ebc.
  - apply Ascii.compare_eq_iff in Ebc. subst. now rewrite Eab.
  - now rewrite (ascii_compare_trans_lt _ _ _ Eab Ebc).
Qed.

Lemma string_compare_refl (s : string) : String.compare s s = Eq.
Proof.
  induction s as [|a r IH]; simpl; [reflexivity|].
  now rewrite ascii_compare_refl.
Qed.

Lemma string_leb_trans (x y z : string) :
  String.leb x y = true -> String.leb y z = true -> String.leb x z = true.
Proof.
  unfold String.leb.
  destruct (String.compare x y) eqn:Exy; try discriminate;
    destruct (String.compare y z) eqn:Eyz; try discriminate; intros _ _.
  - apply String.compare_eq_iff in Exy, Eyz. subst.
    now rewrite string_compare_refl.
  - apply String.compare_eq_iff in Exy. subst. now rewrite Eyz.
  - apply String.compare_eq_iff in Eyz. subst. now rewrite Exy.
  - now rewrite (string_compare_trans_lt _ _ _ Exy Eyz).
Qed.

(** Sorting forgets the order in which the names were supplied. *)
Lemma sort_perm_eq (l1 l2 : list string) :
  Permutation l1 l2 -> JS.sort l1 = JS.sort l2.
Proof.
  apply sortBy_perm_eq.
  - apply String.leb_total.
  - apply string_leb_trans.
  - apply String.leb_antisym.
Qed.

Lemma ascii_cases (P : ascii -> Prop) :
  (forall b0 b1 b2 b3 b4 b5 b6 b7 : bool, P (Ascii b0 b1 b2 b3 b4 b5 b6 b7)) ->
  forall c, P c.
Proof. intros H [b0 b1 b2 b3 b4 b5 b6 b7]. apply H. Qed.

Ltac by_all_ascii c :=
  pattern c; apply ascii_cases;
  intros [] [] [] [] [] [] [] []; vm_compute; try reflexivity; try discriminate.

Lemma isAlnum_lower (c : ascii) : JS.isAlnum (JS.lowerChar c) = JS.isAlnum c.
Proof. by_all_ascii c. Qed.

Lemma senderClass_lower (c : ascii) : senderClass (JS.lowerChar c) = senderClass c.
Proof. by_all_ascii c. Qed.

Lemma pdfClass_lower (c : ascii) : pdfClass (JS.lowerChar c) = pdfClass c.
Proof. by_all_ascii c. Qed.

Lemma isAlnum_not_space (c : ascii) : JS.isSpace c = true -> JS.isAlnum c = false.
Proof. by_all_ascii c. Qed.

Lemma senderClass_not_space (c : ascii) : JS.isSpace c = true -> senderClass c = false.
Proof. by_all_ascii c. Qed.

(** Keeping a class of characters and lowering the letters commute when
    the class does not look at the case. *)
Lemma keep_toLowerCase (cls : ascii -> bool) :
  (forall c, cls (JS.lowerChar c) = cls c) ->
  forall s, JS.keep cls (JS.toLowerCase s) = JS.toLowerCase (JS.keep cls s).
Proof.
  intros Hc s. induction s as [|c r IH]; simpl; [reflexivity|].
  rewrite Hc. destruct (cls c); simpl; now rewrite IH.
Qed.

Lemma keep_keep_no_space (cls : ascii -> bool) :
  (forall c, JS.isSpace c = true -> cls c = false) ->
  forall s, JS.keep cls (JS.keep (fun c => negb (JS.isSpace c)) s) = JS.keep cls s.
Proof.
  intros Hs s. induction s as [|c r IH]; simpl; [reflexivity|].
  destruct (JS.isSpace c) eqn:E; simpl.
  - now rewrite (Hs c E).
  - destruct (cls c); now rewrite IH.
Qed.

(** A normalised field is a function of the text up to case and space. *)
Lemma normalised_squash (cls : ascii -> bool) :
  (forall c, cls (JS.lowerChar c) = cls c) ->
  (forall c, JS.isSpace c = true -> cls c = false) ->
  forall s, JS.toLowerCase (JS.keep cls s) = JS.keep cls (squash s).
Proof.
  intros Hc Hs s. unfold squash.
  now rewrite keep_toLowerCase, keep_keep_no_space.
Qed.

Lemma senderKey_squash (a b : string) :
  sameUpToCaseAndSpace a b -> senderKey a = senderKey b.
Proof.
  unfold sameUpToCaseAndSpace, senderKey. intros H.
  rewrite !(normalised_squash senderClass senderClass_lower senderClass_not_space).
  now rewrite H.
Qed.

Lemma subjectKey_squash (a b : string) :
  sameUpToCaseAndSpace a b -> subjectKey a = subjectKey b.
Proof.
  unfold sameUpToCaseAndSpace, subjectKey. intros H.
  rewrite !(normalised_squash JS.isAlnum isAlnum_lower isAlnum_not_space).
  now rewrite H.
Qed.

Lemma pdfKey_perm (l1 l2 : list string) : Permutation l1 l2 -> pdfKey l1 = pdfKey l2.
Proof. intros H. unfold pdfKey. now rewrite (sort_perm_eq l1 l2 H). Qed.

(** The key of complete arguments. *)
Lemma generateContentDuplicateKey_complete now sender t subj pdfs :
  generateContentDuplicateKey now (Some sender) (Some t) (Some subj) (Some pdfs) =
  "CONTENT_" ++ JS.substring0 16
     (hashOf (combinedKey sender (Platform.formatMinute (Platform.minuteOf t)) subj pdfs)).
Proof.
  unfold generateContentDuplicateKey, contentKeyBody, Platform.formatDate, deref, bind, catch.
  reflexivity.
Qed.

(* ================================================================== *)
(** * Fingerprint: order, case and white space *)

(** C5.  The fingerprint does not change when the attachment names are
    supplied in another order, nor when the sender and the subject are
    replaced by texts that differ from them only in letter case and
    white space; in particular the names [a; b] and [b; a] give the
    same key. *)
Theorem fingerprint_order_case_space :
  forall now1 now2 t sender1 sender2 subject1 subject2 pdfs1 pdfs2,
    Permutation pdfs1 pdfs2 ->
    sameUpToCaseAndSpace sender1 sender2 ->
    sameUpToCaseAndSpace subject1 subject2 ->
    generateContentDuplicateKey now1 (Some sender1) (Some t) (Some subject1) (Some pdfs1) =
    generateContentDuplicateKey now2 (Some sender2) (Some t) (Some subject2) (Some pdfs2).
Proof.
  intros now1 now2 t s1 s2 j1 j2 l1 l2 HP Hs Hj.
  rewrite !generateContentDuplicateKey_complete. unfold combinedKey.
  now rewrite (senderKey_squash _ _ Hs), (subjectKey_squash _ _ Hj), (pdfKey_perm _ _ HP).
Qed.

Lemma fingerprint_order_case_space_witness :
  generateContentDuplicateKey 1719020100000 (Some "NoReply@Tool1.example.com ")
    (Some june22) (Some "Document completed: Employment Contract")
    (Some ["employment_contract.pdf"; "nda.pdf"]) =
  generateContentDuplicateKey 1719020400000 (Some "noreply@tool1.example.com")
    (Some june22) (Some "document  COMPLETED: employment contract")
    (Some ["nda.pdf"; "employment_contract.pdf"]).
Proof.
  apply fingerprint_order_case_space.
  - apply perm_swap.
  - vm_compute. reflexivity.
  - vm_compute. reflexivity.
Defined.

(* ================================================================== *)
(** * Fingerprint: case of the attachment names *)

(** A single attachment name enters the key in lower case. *)
Lemma pdfKey_single_case (a b : string) :
  JS.toLowerCase a = JS.toLowerCase b -> pdfKey [a] = pdfKey [b].
Proof.
  intros H. unfold pdfKey, JS.sort, JS.join. simpl.
  rewrite <- !(keep_toLowerCase pdfClass pdfClass_lower). now rewrite H.
Qed.

(** C6.  With two names the case matters: the names are sorted before
    they are lowered, so [Contract.pdf] goes in front of [appendix.pdf]
    while [contract.pdf] goes behind it, and the two keys differ. *)
Theorem fingerprint_case_of_names_matters :
  (forall a b, In (a, b) (combine mixedCaseNames lowerCaseNames) ->
               JS.toLowerCase a = JS.toLowerCase b) /\
  pdfKey mixedCaseNames = "contract.pdf,appendix.pdf" /\
  pdfKey lowerCaseNames = "appendix.pdf,contract.pdf" /\
  generateContentDuplicateKey 0 (Some "a@x.com") (Some june22)
    (Some "Loan Agreement") (Some mixedCaseNames) = "CONTENT_85nXqZfbnhDVsZhA" /\
  generateContentDuplicateKey 0 (Some "a@x.com") (Some june22)
    (Some "Loan Agreement") (Some lowerCaseNames) = "CONTENT_BnAETc1tng7T08uE" /\
  generateContentDuplicateKey 0 (Some "a@x.com") (Some june22)
    (Some "Loan Agreement") (Some mixedCaseNames) <>
  generateContentDuplicateKey 0 (Some "a@x.com") (Some june22)
    (Some "Loan Agreement") (Some lowerCaseNames).
Proof.
  split; [|vm_compute; repeat split; discriminate].
  intros a b [H|[H|[]]]; inversion H; subst; vm_compute; reflexivity.
Qed.

(* ================================================================== *)
(** * Decimal renderings *)

Lemma digitsFrom_some (d : Decimal.uint) :
  forall a, JS.digitsFrom (Some a) (NilEmpty.string_of_uint d) = Some (readAfter d a).
Proof.
  induction d; intros a; simpl; try reflexivity;
    rewrite <- IHd; f_equal; f_equal; lia.
Qed.

Lemma readAfter_pos (d : Decimal.uint) :
  forall p, readAfter d (Z.pos p) = Z.pos (Pos.of_uint_acc d p).
Proof.
  induction d; intros p; cbn [readAfter Pos.of_uint_acc]; try reflexivity;
    rewrite <- IHd; f_equal; lia.
Qed.

Lemma readAfter_zero (d : Decimal.uint) : readAfter d 0 = Z.of_N (Pos.of_uint d).
Proof.
  induction d; cbn [readAfter Pos.of_uint]; try reflexivity; try exact IHd;
    apply readAfter_pos.
Qed.

Lemma digitsFrom_none (d : Decimal.uint) :
  d <> Decimal.Nil ->
  JS.digitsFrom None (NilEmpty.string_of_uint d) = Some (Z.of_N (Pos.of_uint d)).
Proof.
  destruct d; intros H; [now elim H| | | | | | | | | |]; simpl;
    rewrite digitsFrom_some; f_equal;
    first [apply readAfter_zero | apply readAfter_pos].
Qed.

Lemma digitsFrom_zeros (k : nat) (s : string) :
  JS.digitsFrom (Some 0) (string_of_list_ascii (repeat "0"%char k) ++ s) =
  JS.digitsFrom (Some 0) s.
Proof. induction k as [|k IH]; simpl; [reflexivity|exact IH]. Qed.

(** The decimal rendering of a natural number, as digits. *)
Lemma showZ_digits (n : Z) :
  0 <= n ->
  exists d, JS.showZ n = NilEmpty.string_of_uint d /\ d <> Decimal.Nil /\
            Z.of_N (Pos.of_uint d) = n.
Proof.
  intros H. unfold JS.showZ. destruct n as [|p|p]; [| |lia]; simpl.
  - exists Decimal.zero. repeat split. discriminate.
  - exists (Pos.to_uint p). repeat split.
    + apply Unsigned.to_uint_nonnil.
    + now rewrite DecimalPos.Unsigned.of_to.
Qed.

Lemma pad_read (width : nat) (n : Z) :
  0 <= n -> JS.digitsFrom None (Platform.pad width n) = Some n.
Proof.
  intros H. destruct (showZ_digits n H) as (d & E & Hd & V).
  unfold Platform.pad. rewrite E.
  destruct (width - String.length (NilEmpty.string_of_uint d))%nat as [|k]; simpl.
  - rewrite digitsFrom_none by exact Hd. now rewrite V.
  - rewrite digitsFrom_zeros, digitsFrom_some, readAfter_zero. now rewrite V.
Qed.

Lemma pad_inj (width : nat) (a b : Z) :
  0 <= a -> 0 <= b -> Platform.pad width a = Platform.pad width b -> a = b.
Proof.
  intros Ha Hb H. apply (pad_read width) in Ha, Hb. rewrite H in Ha. congruence.
Qed.

Lemma string_of_uint_length (d : Decimal.uint) :
  String.length (NilEmpty.string_of_uint d) = Decimal.nb_digits d.
Proof. induction d; simpl; congruence. Qed.

Lemma readAfter_lower (d : Decimal.uint) :
  forall a, 0 <= a -> a * 10 ^ Z.of_nat (Decimal.nb_digits d) <= readAfter d a.
Proof.
  induction d; intros a Ha; cbn [readAfter Decimal.nb_digits];
    [simpl; lia| | | | | | | | | |];
    rewrite Nat2Z.inj_succ, Z.pow_succ_r by lia;
    (eapply Z.le_trans; [|apply IHd; lia]);
    pose proof (Z.pow_pos_nonneg 10 (Z.of_nat (Decimal.nb_digits d)) ltac:(lia) ltac:(lia));
    nia.
Qed.

(** A rendering of [k] digits is that of a number of at least
    [10 ^ (k - 1)]: there is no leading zero. *)
Lemma showZ_length_bound (n : Z) :
  0 <= n -> 10 ^ (Z.of_nat (String.length (JS.showZ n)) - 1) <= Z.max n 1.
Proof.
  intros H. unfold JS.showZ. destruct n as [|p|p]; [simpl; lia| |lia].
  simpl. rewrite string_of_uint_length.
  pose proof (DecimalPos.Unsigned.of_to p) as OT.
  pose proof (DecimalPos.Unsigned.to_of (Pos.to_uint p)) as TO.
  rewrite OT in TO. change (N.to_uint (N.pos p)) with (Pos.to_uint p) in TO.
  pose proof (Unsigned.to_uint_nonzero p) as NZ.
  pose proof (readAfter_zero (Pos.to_uint p)) as RZ. rewrite OT in RZ. simpl in RZ.
  assert (NH : Decimal.nzhead (Pos.to_uint p) = Pos.to_uint p).
  { unfold Decimal.unorm in TO.
    destruct (Decimal.nzhead (Pos.to_uint p)) eqn:E; try (symmetry; exact TO).
    exfalso. apply NZ. exact TO. }
  destruct (Pos.to_uint p) as [|l|l|l|l|l|l|l|l|l|l] eqn:D;
    [now elim (Unsigned.to_uint_nonnil p)
    |exfalso; exact (DecimalFacts.nzhead_nonzero _ _ NH)| | | | | | | | |];
    cbn [readAfter Decimal.nb_digits] in *;
    rewrite Nat2Z.inj_succ;
    replace (Z.succ (Z.of_nat (Decimal.nb_digits l)) - 1)
      with (Z.of_nat (Decimal.nb_digits l)) by lia;
    match type of RZ with
    | readAfter l ?a = _ => pose proof (readAfter_lower l a ltac:(lia)) as L
    end;
    pose proof (Z.pow_pos_nonneg 10 (Z.of_nat (Decimal.nb_digits l)) ltac:(lia) ltac:(lia));
    rewrite RZ in L; nia.
Qed.

(** The part of the key that comes from the digest is sixteen
    characters long. *)
Lemma hashOf_prefix_length (k : string) :
  String.length (JS.substring0 16 (hashOf k)) = 16%nat.
Proof.
  unfold hashOf, Platform.computeDigestMD5, Platform.md5_bytes.
  generalize (fold_left Platform.md5_block
       (map (fun blk : list Z => map Platform.le_word (Platform.groups 4 blk))
          (Platform.groups 64 (Platform.md5_pad (Platform.bytes_of_string k))))
       Platform.md5_init).
  intros [a b c d]. reflexivity.
Qed.

(* ================================================================== *)
(** * Fingerprint: the fallback *)

(** The decimal rendering tells the integers apart. *)
Lemma showZ_inj (a b : Z) : JS.showZ a = JS.showZ b -> a = b.
Proof.
  unfold JS.showZ. intros H.
  apply (f_equal NilEmpty.int_of_string) in H.
  rewrite !NilEmpty.isi in H.
  injection H as H.
  apply (f_equal Z.of_int) in H.
  now rewrite !DecimalZ.of_to in H.
Qed.

Lemma string_app_inv_head (p a b : string) : p ++ a = p ++ b -> a = b.
Proof.
  induction p as [|c r IH]; simpl; intros H; [exact H|].
  injection H as H. auto.
Qed.

Lemma startsWith_app (p s : string) : JS.startsWith p (p ++ s) = true.
Proof.
  unfold JS.startsWith. induction p as [|c r IH]; simpl.
  - now destruct s.
  - destruct (ascii_dec c c) as [_|N]; [exact IH|now elim N].
Qed.

(** C8.  The computation returns a key for every input -- the result
    always starts with [CONTENT_] --; when an argument is missing or
    the date is unusable the key is the fallback made of the current
    instant.  The fallback is a key of its own: fallback keys made at
    different instants differ, and while the clock reads less than
    [10 ^ 15] milliseconds a fallback key differs from every key made
    of a digest. *)
Theorem fingerprint_never_fails :
  forall now sender date subject pdfNames,
    JS.startsWith "CONTENT_"
      (generateContentDuplicateKey now sender date subject pdfNames) = true /\
    (sender = None \/ date = None \/ subject = None \/ pdfNames = None ->
     generateContentDuplicateKey now sender date subject pdfNames =
     "CONTENT_" ++ JS.showZ now) /\
    (forall now', "CONTENT_" ++ JS.showZ now = "CONTENT_" ++ JS.showZ now' -> now = now') /\
    (0 <= now < 10 ^ 15 ->
     forall now' sender' date' subject' pdfNames',
       "CONTENT_" ++ JS.showZ now <>
       generateContentDuplicateKey now' (Some sender') (Some date') (Some subject')
         (Some pdfNames')).
Proof.
  intros now sender date subject pdfNames. split; [|split; [|split]].
  - unfold generateContentDuplicateKey, contentKeyBody, Platform.formatDate, deref, bind, catch.
    destruct date, subject, pdfNames, sender; apply startsWith_app.
  - unfold generateContentDuplicateKey, contentKeyBody, Platform.formatDate, deref, bind, catch.
    destruct date, subject, pdfNames, sender;
      intros [H|[H|[H|H]]]; try discriminate H; reflexivity.
  - intros now' H. apply string_app_inv_head in H. now apply showZ_inj.
  - intros Hn now' sender' date' subject' pdfNames' E.
    rewrite generateContentDuplicateKey_complete in E.
    apply string_app_inv_head in E.
    apply (f_equal String.length) in E. rewrite hashOf_prefix_length in E.
    pose proof (showZ_length_bound now ltac:(lia)) as B. rewrite E in B.
    change (Z.of_nat 16 - 1) with 15 in B. lia.
Qed.

Lemma fingerprint_never_fails_witness :
  generateContentDuplicateKey 1719019800123 (Some "a@x.com") None
    (Some "Loan Agreement") (Some ["loan.pdf"]) = "CONTENT_1719019800123" /\
  "CONTENT_" ++ JS.showZ 1719019800123 <>
  generateContentDuplicateKey 0 (Some "a@x.com") (Some june22)
    (Some "Loan Agreement") (Some ["loan.pdf"]).
Proof.
  destruct (fingerprint_never_fails 1719019800123 (Some "a@x.com") None
              (Some "Loan Agreement") (Some ["loan.pdf"])) as (_ & Hf & _ & Hd).
  split.
  - apply Hf. right. left. reflexivity.
  - apply Hd. lia.
Defined.

(* ================================================================== *)
(** * The minute key tells the minutes apart *)

Lemma allFrom_spec (P : Z -> bool) (n : nat) :
  forall a, allFrom P n a = true ->
  forall z, a <= z < a + Z.of_nat n -> P z = true.
Proof.
  induction n as [|k IH]; intros a H z Hz.
  - simpl in Hz. lia.
  - simpl in H. apply andb_true_iff in H as [Ha Hr].
    destruct (Z.eq_dec z a) as [->|Hne]; [exact Ha|].
    apply (IH (a + 1) Hr). lia.
Qed.

Lemma twoChars_all : allFrom twoChars 100 0 = true.
Proof. vm_compute. reflexivity. Qed.

Lemma pad2_length (n : Z) :
  0 <= n < 100 -> String.length (Platform.pad 2 n) = 2%nat.
Proof.
  intros H. apply Nat.eqb_eq.
  apply (allFrom_spec _ _ _ twoChars_all). simpl. lia.
Qed.

Lemma string_length_app (a b : string) :
  String.length (a ++ b) = (String.length a + String.length b)%nat.
Proof. induction a as [|c r IH]; simpl; [reflexivity|now rewrite IH]. Qed.

Lemma string_app_inj_head (a1 : string) :
  forall a2 b1 b2, String.length a1 = String.length a2 ->
                   a1 ++ b1 = a2 ++ b2 -> a1 = a2 /\ b1 = b2.
Proof.
  induction a1 as [|c r IH]; intros [|c2 r2] b1 b2 HL H; simpl in *; try discriminate.
  - now split.
  - injection H as -> H. injection HL as HL.
    destruct (IH _ _ _ HL H) as [-> ->]. now split.
Qed.

Lemma string_app_inj_tail (a1 a2 b1 b2 : string) :
  String.length b1 = String.length b2 ->
  a1 ++ b1 = a2 ++ b2 -> a1 = a2 /\ b1 = b2.
Proof.
  intros HL H. apply string_app_inj_head; [|exact H].
  apply (f_equal String.length) in H. rewrite !string_length_app in H. lia.
Qed.

(** ** The calendar *)

(** The coordinates of a day of an era, and that they determine it. *)
Lemma civil_of_doe_spec (doe : Z) :
  0 <= doe < 146097 ->
  exists yoe mp d,
    Platform.civil_of_doe doe = (yoe, mp, d) /\
    0 <= yoe <= 399 /\ 0 <= mp <= 11 /\ 1 <= d <= 31 /\
    Platform.doe_of_civil yoe mp d = doe.
Proof.
  intros H. unfold Platform.civil_of_doe, Platform.doe_of_civil.
  set (yoe := (doe - doe / 1460 + doe / 36524 - doe / 146096) / 365).
  set (doy := doe - (365 * yoe + yoe / 4 - yoe / 100)).
  set (mp := (5 * doy + 2) / 153).
  exists yoe, mp, (doy - (153 * mp + 2) / 5 + 1).
  assert (Hy : 0 <= yoe <= 399) by (subst yoe; Z.div_mod_to_equations; lia).
  assert (Hd : 0 <= doy <= 365) by (subst doy yoe; Z.div_mod_to_equations; lia).
  assert (Hm : 0 <= mp <= 11) by (subst mp; Z.div_mod_to_equations; lia).
  assert (Hdd : 1 <= doy - (153 * mp + 2) / 5 + 1 <= 31)
    by (subst mp; Z.div_mod_to_equations; lia).
  repeat split; lia.
Qed.

Lemma civil_from_days_spec (z : Z) :
  exists yoe mp d,
    let era := (z + 719468) / 146097 in
    z + 719468 = 146097 * era + Platform.doe_of_civil yoe mp d /\
    0 <= yoe <= 399 /\ 0 <= mp <= 11 /\ 1 <= d <= 31 /\
    Platform.civil_from_days z =
    (yoe + era * 400 + (if (if mp <? 10 then mp + 3 else mp - 9) <=? 2 then 1 else 0),
     (if mp <? 10 then mp + 3 else mp - 9), d).
Proof.
  pose proof (Z.mod_pos_bound (z + 719468) 146097 ltac:(lia)) as Hd.
  destruct (civil_of_doe_spec _ Hd) as (yoe & mp & d & E & Hy & Hm & Hdd & Hinv).
  exists yoe, mp, d. cbv zeta. repeat split; try lia.
  - rewrite Hinv. apply Z.div_mod. lia.
  - unfold Platform.civil_from_days. cbv zeta. rewrite E. reflexivity.
Qed.

(** Different days have different dates. *)
Lemma civil_from_days_inj (z1 z2 : Z) :
  Platform.civil_from_days z1 = Platform.civil_from_days z2 -> z1 = z2.
Proof.
  destruct (civil_from_days_spec z1) as (y1 & p1 & d1 & E1 & Hy1 & Hp1 & Hd1 & C1).
  destruct (civil_from_days_spec z2) as (y2 & p2 & d2 & E2 & Hy2 & Hp2 & Hd2 & C2).
  cbv zeta in *. rewrite C1, C2. intros H. injection H as Hy Hm Hd.
  assert (p1 = p2) as ->.
  { destruct (p1 <? 10) eqn:A1; destruct (p2 <? 10) eqn:A2;
      rewrite ?Z.ltb_lt, ?Z.ltb_ge in *; lia. }
  subst d2.
  assert (y1 + (z1 + 719468) / 146097 * 400 = y2 + (z2 + 719468) / 146097 * 400) as Hq by lia.
  assert ((z1 + 719468) / 146097 = (z2 + 719468) / 146097) as He by lia.
  assert (y1 = y2) as -> by lia.
  rewrite He in E1. lia.
Qed.

Lemma civil_from_days_range (z : Z) :
  0 <= z ->
  exists y m d, Platform.civil_from_days z = (y, m, d) /\
                0 <= y /\ 1 <= m <= 12 /\ 1 <= d <= 31.
Proof.
  intros Hz.
  destruct (civil_from_days_spec z) as (yoe & mp & d & E & Hy & Hp & Hd & C).
  cbv zeta in *. rewrite C. eexists _, _, _. split; [reflexivity|].
  assert (0 <= (z + 719468) / 146097) by (apply Z.div_pos; lia).
  repeat split; try lia;
    destruct (mp <? 10) eqn:A; rewrite ?Z.ltb_lt, ?Z.ltb_ge in *;
    try lia; destruct (_ <=? 2); lia.
Qed.

(** From 1970 on, the minute key determines the minute. *)
Lemma formatMinute_inj (m1 m2 : Z) :
  0 <= m1 -> 0 <= m2 ->
  Platform.formatMinute m1 = Platform.formatMinute m2 -> m1 = m2.
Proof.
  intros H1 H2. unfold Platform.formatMinute, Platform.jstOffsetMinutes.
  assert (D1 : 0 <= (m1 + 540) / 1440) by (apply Z.div_pos; lia).
  assert (D2 : 0 <= (m2 + 540) / 1440) by (apply Z.div_pos; lia).
  destruct (civil_from_days_range _ D1) as (y1 & mo1 & d1 & C1 & Ry1 & Rm1 & Rd1).
  destruct (civil_from_days_range _ D2) as (y2 & mo2 & d2 & C2 & Ry2 & Rm2 & Rd2).
  pose proof (civil_from_days_inj ((m1 + 540) / 1440) ((m2 + 540) / 1440)) as Inj.
  rewrite C1, C2 in *.
  pose proof (Z.mod_pos_bound (m1 + 540) 1440 ltac:(lia)) as B1.
  pose proof (Z.mod_pos_bound (m2 + 540) 1440 ltac:(lia)) as B2.
  set (h1 := (m1 + 540) mod 1440) in *. set (h2 := (m2 + 540) mod 1440) in *.
  assert (Hh1 : 0 <= h1 / 60 < 100) by (split; [apply Z.div_pos|apply Z.div_lt_upper_bound]; lia).
  assert (Hh2 : 0 <= h2 / 60 < 100) by (split; [apply Z.div_pos|apply Z.div_lt_upper_bound]; lia).
  pose proof (Z.mod_pos_bound h1 60 ltac:(lia)) as Hn1.
  pose proof (Z.mod_pos_bound h2 60 ltac:(lia)) as Hn2.
  intros H.
  apply string_app_inj_tail in H as [Hy H].
  2:{ rewrite !string_length_app.
      rewrite (pad2_length mo1), (pad2_length mo2), (pad2_length d1), (pad2_length d2),
        (pad2_length (h1 / 60)), (pad2_length (h2 / 60)),
        (pad2_length (h1 mod 60)), (pad2_length (h2 mod 60)) by lia.
      reflexivity. }
  apply string_app_inj_head in H as [Hmo H];
    [|rewrite (pad2_length mo1), (pad2_length mo2) by lia; reflexivity].
  apply string_app_inj_head in H as [Hd H];
    [|rewrite (pad2_length d1), (pad2_length d2) by lia; reflexivity].
  simpl in H. injection H as H.
  apply string_app_inj_head in H as [Hh Hn];
    [|rewrite (pad2_length (h1 / 60)), (pad2_length (h2 / 60)) by lia; reflexivity].
  apply pad_inj in Hy, Hmo, Hd, Hh, Hn; try lia.
  subst. specialize (Inj eq_refl).
  pose proof (Z.div_mod h1 60 ltac:(lia)). pose proof (Z.div_mod h2 60 ltac:(lia)).
  assert (h1 = h2) by lia.
  pose proof (Z.div_mod (m1 + 540) 1440 ltac:(lia)).
  pose proof (Z.div_mod (m2 + 540) 1440 ltac:(lia)).
  subst h1 h2. lia.
Qed.

Lemma minutes_apart (t1 t2 : Z) :
  60000 <= Z.abs (t2 - t1) -> Platform.minuteOf t1 <> Platform.minuteOf t2.
Proof.
  unfold Platform.minuteOf, Platform.msPerMinute. intros H E.
  pose proof (Z.div_mod t1 60000 ltac:(lia)).
  pose proof (Z.div_mod t2 60000 ltac:(lia)).
  pose proof (Z.mod_pos_bound t1 60000 ltac:(lia)).
  pose proof (Z.mod_pos_bound t2 60000 ltac:(lia)).
  lia.
Qed.

Lemma minuteOf_nonneg (t : Z) : 0 <= t -> 0 <= Platform.minuteOf t.
Proof.
  unfold Platform.minuteOf, Platform.msPerMinute. intros H.
  apply Z.div_pos; lia.
Qed.

(** Two messages that agree on everything but the minute have different
    combined keys. *)
Lemma combinedKey_minute (sender subj : string) (pdfs : list string) (t1 t2 : Z) :
  0 <= t1 -> 0 <= t2 ->
  Platform.minuteOf t1 <> Platform.minuteOf t2 ->
  combinedKey sender (Platform.formatMinute (Platform.minuteOf t1)) subj pdfs <>
  combinedKey sender (Platform.formatMinute (Platform.minuteOf t2)) subj pdfs.
Proof.
  intros H1 H2 Hne E. apply Hne. unfold combinedKey in E.
  apply string_app_inv_head in E. apply (string_app_inv_head "_") in E.
  apply string_app_inj_tail in E as [E _]; [|reflexivity].
  apply formatMinute_inj; auto using minuteOf_nonneg.
Qed.

(* ================================================================== *)
(** * The script properties *)

Lemma getProperty_set (ps : Props) (key value k : string) :
  PropertiesService.getProperty (PropertiesService.setProperty ps key value) k =
  if String.eqb key k then Some value else PropertiesService.getProperty ps k.
Proof.
  induction ps as [|[k0 v0] r IH]; simpl.
  - destruct (String.eqb key k); reflexivity.
  - destruct (String.eqb k0 key) eqn:E0; simpl.
    + apply String.eqb_eq in E0. subst k0.
      destruct (String.eqb key k); reflexivity.
    + destruct (String.eqb k0 k) eqn:E1; [|exact IH].
      apply String.eqb_eq in E1. subst k0. now rewrite String.eqb_sym, E0.
Qed.

Lemma getProperty_delete (ps : Props) (key k : string) :
  PropertiesService.getProperty (PropertiesService.deleteProperty ps key) k =
  if String.eqb key k then None else PropertiesService.getProperty ps k.
Proof.
  unfold PropertiesService.deleteProperty.
  induction ps as [|[k0 v0] r IH]; simpl.
  - destruct (String.eqb key k); reflexivity.
  - destruct (String.eqb k0 key) eqn:E0; simpl.
    + apply String.eqb_eq in E0. subst k0. rewrite IH.
      destruct (String.eqb key k); reflexivity.
    + rewrite IH. destruct (String.eqb k0 k) eqn:E1; [|reflexivity].
      apply String.eqb_eq in E1. subst k0. now rewrite String.eqb_sym, E0.
Qed.

Lemma getProperty_deleteAll (keys : list string) :
  forall ps k,
    PropertiesService.getProperty (deleteAll keys ps) k =
    if existsb (fun key => String.eqb key k) keys then None
    else PropertiesService.getProperty ps k.
Proof.
  unfold deleteAll.
  induction keys as [|key r IH]; intros ps k; simpl; [reflexivity|].
  rewrite IH, getProperty_delete.
  destruct (String.eqb key k); simpl; [|reflexivity].
  destruct (existsb _ r); reflexivity.
Qed.

Lemma configuration_delete (ps : Props) (key : string) :
  isProcessedKey key = true ->
  configuration (PropertiesService.deleteProperty ps key) = configuration ps.
Proof.
  intros Hk. unfold configuration, PropertiesService.deleteProperty.
  induction ps as [|[k0 v0] r IH]; simpl; [reflexivity|].
  destruct (String.eqb k0 key) eqn:E0; simpl.
  - apply String.eqb_eq in E0. subst k0. now rewrite Hk.
  - now rewrite IH.
Qed.

Lemma configuration_deleteAll (keys : list string) :
  Forall (fun key => isProcessedKey key = true) keys ->
  forall ps, configuration (deleteAll keys ps) = configuration ps.
Proof.
  unfold deleteAll. induction 1 as [|key r Hk _ IH]; intros ps; simpl; [reflexivity|].
  now rewrite IH, configuration_delete.
Qed.

(** A key outside the prefix is looked up in the configuration. *)
Lemma getProperty_configuration (ps : Props) (k : string) :
  isProcessedKey k = false ->
  PropertiesService.getProperty (configuration ps) k = PropertiesService.getProperty ps k.
Proof.
  intros Hk. unfold configuration.
  induction ps as [|[k0 v0] r IH]; simpl; [reflexivity|].
  destruct (isProcessedKey k0) eqn:E0; simpl.
  - destruct (String.eqb k0 k) eqn:E1; [|exact IH].
    apply String.eqb_eq in E1. congruence.
  - now rewrite IH.
Qed.

Lemma same_configuration (ps ps' : Props) (k : string) :
  isProcessedKey k = false ->
  configuration ps' = configuration ps ->
  PropertiesService.getProperty ps' k = PropertiesService.getProperty ps k.
Proof.
  intros Hk H.
  rewrite <- (getProperty_configuration ps' k Hk), <- (getProperty_configuration ps k Hk).
  now rewrite H.
Qed.

Lemma collectProcessed_keys (ps : Props) :
  Forall (fun key => isProcessedKey key = true) (map fst (collectProcessed ps)).
Proof.
  induction ps as [|[k v] r IH]; simpl; [constructor|].
  destruct (isProcessedKey k) eqn:E; [|exact IH].
  destruct (JS.parseInt v); [|exact IH].
  now constructor.
Qed.

Lemma collectProcessed_In (ps : Props) (e : Stamped) :
  In e (collectProcessed ps) -> In (fst e) (map fst ps).
Proof.
  induction ps as [|[k v] r IH]; simpl; [tauto|].
  destruct (isProcessedKey k); [|auto].
  destruct (JS.parseInt v); [|auto].
  intros [<-|H]; [now left|auto].
Qed.

Lemma In_firstn {A : Type} (n : nat) (l : list A) (x : A) :
  In x (firstn n l) -> In x l.
Proof.
  intros H. rewrite <- (firstn_skipn n l). apply in_or_app. now left.
Qed.

Lemma toRemove_incl (n : nat) (ps : Props) (e : Stamped) :
  In e (toRemove n ps) -> In e (collectProcessed ps).
Proof.
  unfold toRemove, sortByTime. intros H.
  apply In_firstn in H.
  eapply Permutation_in; [apply Permutation_sym, sortBy_perm|exact H].
Qed.

Lemma toRemove_keys (n : nat) (ps : Props) :
  Forall (fun key => isProcessedKey key = true) (map fst (toRemove n ps)).
Proof.
  apply Forall_forall. intros k Hk.
  apply in_map_iff in Hk as (e & <- & He).
  apply toRemove_incl in He.
  pose proof (collectProcessed_keys ps) as F. rewrite Forall_forall in F.
  apply F. now apply in_map.
Qed.

Lemma expiredKeys_keys (cutoffTime : Z) (ps : Props) :
  Forall (fun key => isProcessedKey key = true) (expiredKeys cutoffTime ps).
Proof.
  unfold expiredKeys. apply Forall_forall. intros k Hk.
  apply in_map_iff in Hk as (e & <- & He).
  apply filter_In in He as [_ He]. now apply andb_true_iff in He as [He _].
Qed.

Lemma processedKeys_keys (ps : Props) :
  Forall (fun key => isProcessedKey key = true) (processedKeys ps).
Proof.
  unfold processedKeys. apply Forall_forall. intros k Hk.
  now apply filter_In in Hk as [_ Hk].
Qed.

(** C10.  Rotation, clean-up by age and the clearing of all processed
    messages delete properties under the prefix [PROCESSED_MSG_] only:
    a key that does not start with the prefix has the same value
    afterwards, and the properties outside the prefix are the same list. *)
Theorem cleanup_keeps_other_properties :
  forall (ps : Props) (removeCount : nat) (now daysOld : Z) (key : string),
    isProcessedKey key = false ->
    (PropertiesService.getProperty (fst (rotateProcessedMessages removeCount ps)) key =
       PropertiesService.getProperty ps key /\
     PropertiesService.getProperty (fst (cleanupOldProcessedMessages now daysOld ps)) key =
       PropertiesService.getProperty ps key /\
     PropertiesService.getProperty (fst (clearAllProcessedMessages ps)) key =
       PropertiesService.getProperty ps key) /\
    (configuration (fst (rotateProcessedMessages removeCount ps)) = configuration ps /\
     configuration (fst (cleanupOldProcessedMessages now daysOld ps)) = configuration ps /\
     configuration (fst (clearAllProcessedMessages ps)) = configuration ps).
Proof.
  intros ps removeCount now daysOld key Hk.
  assert (C : configuration (fst (rotateProcessedMessages removeCount ps)) = configuration ps /\
              configuration (fst (cleanupOldProcessedMessages now daysOld ps)) = configuration ps /\
              configuration (fst (clearAllProcessedMessages ps)) = configuration ps).
  { unfold rotateProcessedMessages, cleanupOldProcessedMessages, clearAllProcessedMessages.
    simpl. repeat split; apply configuration_deleteAll;
      auto using toRemove_keys, expiredKeys_keys, processedKeys_keys. }
  split; [|exact C].
  destruct C as (C1 & C2 & C3).
  repeat split; apply (same_configuration _ _ key Hk); assumption.
Qed.

Lemma cleanup_keeps_other_properties_witness :
  PropertiesService.getProperty (fst (rotateProcessedMessages 10 messageStore)) "SLACK_WEBHOOK_URL"
  = PropertiesService.getProperty messageStore "SLACK_WEBHOOK_URL".
Proof.
  apply (cleanup_keeps_other_properties messageStore 10 1719019800000 30 "SLACK_WEBHOOK_URL").
  vm_compute. reflexivity.
Defined.

(* ================================================================== *)
(** * Eviction from the store of processed messages *)

Lemma olderFirst_total (a b : Stamped) : olderFirst a b = true \/ olderFirst b a = true.
Proof. unfold olderFirst. rewrite !Z.leb_le. lia. Qed.

Lemma olderFirst_trans (a b c : Stamped) :
  olderFirst a b = true -> olderFirst b c = true -> olderFirst a c = true.
Proof. unfold olderFirst. rewrite !Z.leb_le. lia. Qed.

Lemma sortByTime_sorted (l : list Stamped) :
  StronglySorted (fun a b => olderFirst a b = true) (sortByTime l).
Proof. apply sortBy_sorted; [apply olderFirst_total|apply olderFirst_trans]. Qed.

Lemma StronglySorted_app_le {A : Type} (R : A -> A -> Prop) (l1 l2 : list A) :
  StronglySorted R (l1 ++ l2) -> forall x y, In x l1 -> In y l2 -> R x y.
Proof.
  induction l1 as [|a r IH]; simpl; intros H x y Hx Hy; [contradiction|].
  inversion H as [|? ? Hs Hf]; subst.
  destruct Hx as [->|Hx].
  - rewrite Forall_forall in Hf. apply Hf, in_or_app. now right.
  - now apply IH.
Qed.

(** The entries chosen for removal are at least as old as the entries
    that stay. *)
Lemma toRemove_oldest (n : nat) (ps : Props) (e r : Stamped) :
  In e (toRemove n ps) -> In r (collectProcessed ps) -> ~ In r (toRemove n ps) ->
  snd e <= snd r.
Proof.
  unfold toRemove. set (sorted := sortByTime (collectProcessed ps)).
  set (k := Nat.min n (List.length sorted)). intros He Hr Hn.
  apply Z.leb_le.
  apply (StronglySorted_app_le (fun a b => olderFirst a b = true)
           (firstn k sorted) (skipn k sorted)); [|exact He|].
  - rewrite firstn_skipn. apply sortByTime_sorted.
  - assert (Hs : In r sorted)
      by (eapply Permutation_in; [apply sortBy_perm|exact Hr]).
    rewrite <- (firstn_skipn k sorted) in Hs.
    apply in_app_or in Hs as [Hs|Hs]; [contradiction|exact Hs].
Qed.

Lemma toRemove_length (n : nat) (ps : Props) :
  List.length (toRemove n ps) = Nat.min n (List.length (collectProcessed ps)).
Proof.
  unfold toRemove. rewrite length_firstn.
  assert (E : List.length (sortByTime (collectProcessed ps)) =
              List.length (collectProcessed ps))
    by (symmetry; apply Permutation_length, sortBy_perm).
  rewrite E. lia.
Qed.

Lemma hasOwnProperty_false (ps : Props) (key : string) :
  PropertiesService.hasOwnProperty ps key = false -> ~ In key (map fst ps).
Proof.
  unfold PropertiesService.hasOwnProperty. intros H Hin.
  apply in_map_iff in Hin as (kv & <- & Hkv).
  assert (existsb (fun kv0 => String.eqb (fst kv0) (fst kv)) ps = true)
    by (apply existsb_exists; exists kv; split; [exact Hkv|apply String.eqb_refl]).
  congruence.
Qed.

Lemma existsb_eqb_In (keys : list string) (k : string) :
  existsb (fun key => String.eqb key k) keys = true <-> In k keys.
Proof.
  rewrite existsb_exists. split.
  - intros (x & Hx & E). apply String.eqb_eq in E. now subst.
  - intros H. exists k. split; [exact H|apply String.eqb_refl].
Qed.

(** The clean-up that precedes the write of a new processed message
    into a store near the limit is the rotation by five. *)
Lemma autoCleanup_rotates (now : Z) (key : string) (ps : Props) :
  (nearLimit <= List.length ps)%nat ->
  PropertiesService.hasOwnProperty ps key = false ->
  isProcessedKey key = true ->
  autoCleanup now key ps = deleteAll (map fst (toRemove rotationBatch ps)) ps.
Proof.
  intros HL HN HP. unfold autoCleanup.
  apply Nat.leb_le in HL. rewrite HL, HN, HP. reflexivity.
Qed.

(** C9, as the code has it.  When a processed message under a new key
    is written into a store that holds 48 properties or more (all
    properties count, the configuration included), the rotation removes
    first the [min 5 n] oldest of the [n] processed messages that carry
    a number: every removed entry is at least as old as every entry that
    stays, the removed keys are gone afterwards, the new entry is there
    with its value, and every other property is as before. *)
Theorem eviction_before_insertion :
  forall (now : Z) (key value : string) (ps : Props),
    (nearLimit <= List.length ps)%nat ->
    PropertiesService.hasOwnProperty ps key = false ->
    isProcessedKey key = true ->
    let evicted := toRemove rotationBatch ps in
    let ps' := setProperty now key value ps in
    List.length evicted = Nat.min 5 (List.length (collectProcessed ps)) /\
    (forall e r, In e evicted -> In r (collectProcessed ps) -> ~ In r evicted ->
                 snd e <= snd r) /\
    (forall e, In e evicted -> PropertiesService.getProperty ps' (fst e) = None) /\
    PropertiesService.getProperty ps' key = Some value /\
    (forall k, k <> key -> ~ In k (map fst evicted) ->
               PropertiesService.getProperty ps' k = PropertiesService.getProperty ps k).
Proof.
  intros now key value ps HL HN HP evicted ps'.
  subst evicted ps'. unfold setProperty.
  rewrite (autoCleanup_rotates now key ps HL HN HP).
  split; [apply toRemove_length|].
  split; [intros e r; apply toRemove_oldest|].
  split; [|split].
  - intros e He. rewrite getProperty_set, getProperty_deleteAll.
    assert (Hne : key <> fst e).
    { intros ->. apply (hasOwnProperty_false ps _ HN).
      now apply collectProcessed_In, (toRemove_incl rotationBatch). }
    apply String.eqb_neq in Hne. rewrite Hne.
    assert (Hin : existsb (fun k => String.eqb k (fst e))
                    (map fst (toRemove rotationBatch ps)) = true)
      by (apply existsb_eqb_In; now apply in_map).
    now rewrite Hin.
  - rewrite getProperty_set. now rewrite String.eqb_refl.
  - intros k Hk Hn. rewrite getProperty_set, getProperty_deleteAll.
    assert (Hne : key <> k) by congruence.
    apply String.eqb_neq in Hne. rewrite Hne.
    destruct (existsb _ _) eqn:E; [|reflexivity].
    apply existsb_eqb_In in E. contradiction.
Qed.

Lemma eviction_before_insertion_witness :
  List.length (toRemove rotationBatch messageStore) = 5%nat /\
  PropertiesService.getProperty
    (setProperty 1719019800000 "PROCESSED_MSG_m45" "1719019800000" messageStore)
    "PROCESSED_MSG_m45" = Some "1719019800000".
Proof.
  destruct (eviction_before_insertion 1719019800000 "PROCESSED_MSG_m45"
              "1719019800000" messageStore) as (H1 & _ & _ & H4 & _).
  - apply Nat.leb_le. vm_compute. reflexivity.
  - vm_compute. reflexivity.
  - vm_compute. reflexivity.
  - split; [rewrite H1; vm_compute; reflexivity|exact H4].
Defined.

(** C9 as stated fails on a store that is full of configuration: two
    processed messages are all there is to evict, and the store still
    holds 47 properties when the new one is written. *)
Lemma eviction_of_five_counterexample :
  (nearLimit <= List.length crowdedStore)%nat /\
  PropertiesService.hasOwnProperty crowdedStore "PROCESSED_MSG_18f3a3" = false /\
  isProcessedKey "PROCESSED_MSG_18f3a3" = true /\
  List.length (toRemove rotationBatch crowdedStore) = 2%nat /\
  snd (rotateProcessedMessages rotationBatch crowdedStore) <> 5%nat /\
  List.length (setProperty 1719019800000 "PROCESSED_MSG_18f3a3" "1719019800000" crowdedStore)
  = 47%nat.
Proof.
  split; [apply Nat.leb_le; vm_compute; reflexivity|].
  vm_compute. repeat split; discriminate.
Qed.

(* ================================================================== *)
(** * The content ledger *)

Lemma scanContent_app_found (rows more : list DuplicateRow) (key : string) :
  dupFound (scanContent rows key) = true ->
  scanContent (rows ++ more)%list key = scanContent rows key.
Proof.
  induction rows as [|row rest IH]; simpl; [discriminate|].
  destruct (String.eqb (rowContentKey row) key); [reflexivity|exact IH].
Qed.

Lemma scanContent_app_missing (rows more : list DuplicateRow) (key : string) :
  dupFound (scanContent rows key) = false ->
  scanContent (rows ++ more)%list key = scanContent more key.
Proof.
  induction rows as [|row rest IH]; simpl; [reflexivity|].
  destruct (String.eqb (rowContentKey row) key); [discriminate|exact IH].
Qed.

(** What a lookup answers: the scan of the sheet when the spreadsheet
    is configured and opens, "not a duplicate" otherwise. *)
Lemma checkContentDuplicate_eq (up : bool) (w : World) (key : string) :
  checkContentDuplicate up w key =
  if truthy (getPropertyOptional (props w) "SPREADSHEET_ID") && up
  then scanContent (contentSheet w) key else notDuplicate.
Proof.
  unfold checkContentDuplicate.
  destruct (truthy _); simpl; [|reflexivity].
  destruct up; simpl; [|reflexivity].
  destruct (contentSheet w); reflexivity.
Qed.

(** What an append does when the spreadsheet is configured and opens. *)
Lemma recordContentDuplicate_appends (w : World) now key sender t subj pdfs url :
  truthy (getPropertyOptional (props w) "SPREADSHEET_ID") = true ->
  recordContentDuplicate true now w key sender (Some t) subj pdfs url =
  withContent w (contentSheet w ++
                 [MkDuplicateRow now key sender t subj (JS.join ", " pdfs) url now])%list.
Proof. intros H. unfold recordContentDuplicate. rewrite H. reflexivity. Qed.

(** An append leaves the sheet as it is or adds one row at the end,
    and touches nothing else. *)
Lemma recordContentDuplicate_cases (up : bool) (w : World) now key sender date subj pdfs url :
  let w' := recordContentDuplicate up now w key sender date subj pdfs url in
  props w' = props w /\ processedSheet w' = processedSheet w /\
  driveFiles w' = driveFiles w /\ slackSent w' = slackSent w /\
  (contentSheet w' = contentSheet w \/
   exists row,
     truthy (getPropertyOptional (props w) "SPREADSHEET_ID") = true /\
     rowContentKey row = key /\
     contentSheet w' = (contentSheet w ++ [row])%list).
Proof.
  unfold recordContentDuplicate.
  destruct (truthy _); simpl; [|now auto 6].
  destruct up; simpl; [|now auto 6].
  destruct date; simpl; [|now auto 6].
  repeat split. right. eexists. split; [reflexivity|].
  split; [|reflexivity]. reflexivity.
Qed.

(** A record that a lookup finds is found unchanged after any append. *)
Lemma lookup_stable (up up' : bool) (w : World) (key : string)
    now key' sender date subj pdfs url :
  dupFound (checkContentDuplicate up w key) = true ->
  checkContentDuplicate up
    (recordContentDuplicate up' now w key' sender date subj pdfs url) key =
  checkContentDuplicate up w key.
Proof.
  destruct (recordContentDuplicate_cases up' w now key' sender date subj pdfs url)
    as (Hp & _ & _ & _ & Hc).
  cbv zeta in Hp, Hc. rewrite !checkContentDuplicate_eq, Hp.
  destruct (truthy _ && up); [|discriminate].
  destruct Hc as [Hc|(row & _ & _ & Hc)]; rewrite Hc; [reflexivity|].
  apply scanContent_app_found.
Qed.

(* ================================================================== *)
(** * What the handling of a message leaves alone *)

Lemma fold_left_invariant {A B : Type} (f : A -> B -> A) (P : A -> Prop) :
  (forall a b, P a -> P (f a b)) ->
  forall l a, P a -> P (fold_left f l a).
Proof.
  intros Hf l. induction l as [|b r IH]; simpl; intros a Ha; [exact Ha|].
  apply IH, Hf, Ha.
Qed.

(** The script properties and the processing ledger are the same after
    the step of [processAttachments] on one attachment; so is the
    content ledger unless the attachment has index 0 and is saved. *)
Lemma saveOne_frame o subj sender t pdfs key info url
    (acc : World * list AttachmentInfo) (item : nat * Attachment) :
  let acc' := saveOne o subj sender t pdfs key info url acc item in
  props (fst acc') = props (fst acc) /\
  processedSheet (fst acc') = processedSheet (fst acc) /\
  (failed (saved o 0%nat) = true -> contentSheet (fst acc') = contentSheet (fst acc)).
Proof.
  destruct acc as [w infos], item as [index attachment]. unfold saveOne. simpl.
  destruct (negb (isPdfName (attName attachment))); [now auto|].
  destruct (dupFound info); [now auto|].
  destruct (saved o index) as [file|message] eqn:S; [|now auto].
  destruct key as [k|]; [|now auto].
  destruct (index =? 0)%nat eqn:I; [|now auto].
  apply Nat.eqb_eq in I. subst index. simpl.
  destruct (recordContentDuplicate_cases (sheetAtRecord o) (withDrive w (driveFiles w ++ [fst file])%list)
              (clock o) k sender (Some t) subj pdfs url) as (Hp & Hs & _ & _ & _).
  cbv zeta in Hp, Hs. rewrite Hp, Hs. repeat split.
  rewrite S. discriminate.
Qed.

Lemma saveAll_frame o subj sender t pdfs key info url (items : list (nat * Attachment)) :
  forall acc : World * list AttachmentInfo,
    let acc' := fold_left (saveOne o subj sender t pdfs key info url) items acc in
    props (fst acc') = props (fst acc) /\
    processedSheet (fst acc') = processedSheet (fst acc) /\
    (failed (saved o 0%nat) = true -> contentSheet (fst acc') = contentSheet (fst acc)).
Proof.
  induction items as [|item rest IH]; intros acc; simpl; [now auto|].
  destruct (IH (saveOne o subj sender t pdfs key info url acc item)) as (I1 & I2 & I3).
  destruct (saveOne_frame o subj sender t pdfs key info url acc item) as (F1 & F2 & F3).
  cbv zeta in *. repeat split; try congruence.
  intros S. now rewrite (I3 S), (F3 S).
Qed.

Lemma processAttachments_frame o w atts subj t sender :
  let r := processAttachments o w atts subj t sender in
  props (fst r) = props w /\
  processedSheet (fst r) = processedSheet w /\
  (failed (baseFolder o) = true \/ failed (saved o 0%nat) = true ->
   contentSheet (fst r) = contentSheet w).
Proof.
  unfold processAttachments.
  destruct atts as [|a atts]; [now auto|].
  destruct (getPropertyRequired (props w) "DRIVE_FOLDER_ID"); [|now auto].
  destruct (baseFolder o) as [url|message] eqn:B; [|now auto].
  match goal with
  | |- context [fold_left (saveOne ?o ?a1 ?a2 ?a3 ?a4 ?a5 ?a6 ?a7) ?l ?a] =>
      destruct (saveAll_frame o a1 a2 a3 a4 a5 a6 a7 l a) as (I1 & I2 & I3);
      cbv zeta in I1, I2, I3;
      destruct (fold_left (saveOne o a1 a2 a3 a4 a5 a6 a7) l a) as [w' infos]
  end.
  simpl in *. repeat split; auto. intros [H|H]; [discriminate|auto].
Qed.

Lemma processMessage_frame o w m :
  let r := processMessage o w m in
  props (fst r) = props w /\
  processedSheet (fst r) = processedSheet w /\
  (failed (baseFolder o) = true \/ failed (saved o 0%nat) = true ->
   contentSheet (fst r) = contentSheet w).
Proof.
  unfold processMessage.
  destruct (negb (patternMatch m)); [now auto|].
  destruct (attachments m) as [|a atts] eqn:A.
  - destruct (slackAccepts o); now auto.
  - destruct (existsb _ _).
    + destruct (processAttachments_frame o w (a :: atts) (subject m) (date m) (from m))
        as (F1 & F2 & F3). cbv zeta in *.
      destruct (processAttachments o w (a :: atts) (subject m) (date m) (from m))
        as [w' r]. simpl in *.
      destruct (slackAccepts o); simpl; auto.
    + destruct (slackAccepts o); now auto.
Qed.

(** A message whose subject matches is always counted as processed. *)
Lemma processMessage_done o w m :
  snd (processMessage o w m) = patternMatch m.
Proof.
  unfold processMessage.
  destruct (patternMatch m); simpl; [|reflexivity].
  destruct (attachments m) as [|a atts]; [reflexivity|].
  destruct (existsb _ _); [|reflexivity].
  destruct (processAttachments _ _ _ _ _ _). reflexivity.
Qed.

(** What a lookup in the processing ledger answers. *)
Lemma isMessageProcessedInSpreadsheet_eq (up : bool) (w : World) (id : string) :
  isMessageProcessedInSpreadsheet up w id =
  truthy (getPropertyOptional (props w) "SPREADSHEET_ID") && up &&
  scanProcessed (processedSheet w) id.
Proof.
  unfold isMessageProcessedInSpreadsheet.
  destruct (truthy _); simpl; [|reflexivity].
  destruct up; simpl; [|reflexivity].
  destruct (processedSheet w); reflexivity.
Qed.

(** What the marking of a message does. *)
Lemma markMessageAsProcessed_eq o w m :
  markMessageAsProcessed o w m =
  if truthy (getPropertyOptional (props w) "SPREADSHEET_ID") && sheetAtMark o
  then withProcessed w
         (processedSheet w ++
          [MkProcessedRow (clock o) (messageId m) "" (subject m) (from m) "Success"])%list
  else w.
Proof.
  unfold markMessageAsProcessed, markMessageProcessedInSpreadsheet.
  destruct (truthy _); simpl; [|reflexivity].
  destruct (sheetAtMark o); reflexivity.
Qed.

(** The handling of a message that is neither in the trash nor found in
    the ledger. *)
Lemma handleMessage_new o w m :
  inTrash m = false -> isMessageAlreadyProcessed o w m = false ->
  handleMessage o w m =
  if patternMatch m
  then (markMessageAsProcessed o (fst (processMessage o w m)) m, true)
  else (fst (processMessage o w m), false).
Proof.
  intros HT HA. unfold handleMessage. rewrite HT, HA.
  pose proof (processMessage_done o w m) as D.
  destruct (processMessage o w m) as [w1 done]. simpl in *. subst done.
  reflexivity.
Qed.

(* ================================================================== *)
(** * The content ledger under the coordinator *)

Lemma scanContent_missing (rows : list DuplicateRow) (key : string) :
  dupFound (scanContent rows key) = false -> ~ In key (map rowContentKey rows).
Proof.
  induction rows as [|row rest IH]; simpl; [tauto|].
  destruct (String.eqb (rowContentKey row) key) eqn:E; [discriminate|].
  apply String.eqb_neq in E. intros H [K|K]; [contradiction|now apply IH].
Qed.

Lemma keysUnique_append (rows : list DuplicateRow) (row : DuplicateRow) :
  keysUnique rows -> ~ In (rowContentKey row) (map rowContentKey rows) ->
  keysUnique (rows ++ [row]).
Proof.
  unfold keysUnique. intros U N. rewrite map_app. simpl.
  apply NoDup_app; [exact U|repeat constructor; tauto|].
  intros k Hk [<-|[]]. contradiction.
Qed.

(** The step of [processAttachments] on an attachment of index other
    than 0 leaves the content ledger alone. *)
Lemma saveOne_later o subj sender t pdfs key info url
    (acc : World * list AttachmentInfo) (index : nat) (a : Attachment) :
  index <> 0%nat ->
  contentSheet (fst (saveOne o subj sender t pdfs key info url acc (index, a))) =
  contentSheet (fst acc).
Proof.
  intros Hi. destruct acc as [w infos]. unfold saveOne. simpl.
  destruct (negb (isPdfName (attName a))); [reflexivity|].
  destruct (dupFound info); [reflexivity|].
  destruct (saved o index); [|reflexivity].
  destruct key; [|reflexivity].
  apply Nat.eqb_neq in Hi. now rewrite Hi.
Qed.

Lemma saveAll_later o subj sender t pdfs key info url (items : list (nat * Attachment)) :
  (forall i a, In (i, a) items -> i <> 0%nat) ->
  forall acc : World * list AttachmentInfo,
    contentSheet (fst (fold_left (saveOne o subj sender t pdfs key info url) items acc)) =
    contentSheet (fst acc).
Proof.
  induction items as [|[i a] rest IH]; intros Hi acc; simpl; [reflexivity|].
  rewrite IH by (intros j b Hj; apply (Hi j b); now right).
  apply saveOne_later. apply (Hi i a). now left.
Qed.

Lemma indexed_later {A : Type} (l : list A) (start i : nat) (a : A) :
  In (i, a) (combine (seq (S start) (List.length l)) l) -> i <> 0%nat.
Proof.
  intros H. apply in_combine_l in H. apply in_seq in H. lia.
Qed.

(** The step on the first attachment appends at most one row, under
    the key of the message, and only after a lookup that did not find
    the key. *)
Lemma saveOne_first o subj sender t pdfs key info url (w : World) (a : Attachment) :
  let w' := fst (saveOne o subj sender t pdfs key info url (w, []) (0%nat, a)) in
  contentSheet w' = contentSheet w \/
  exists k row,
    key = Some k /\ dupFound info = false /\
    truthy (getPropertyOptional (props w) "SPREADSHEET_ID") = true /\
    rowContentKey row = k /\
    contentSheet w' = (contentSheet w ++ [row])%list.
Proof.
  unfold saveOne. simpl.
  destruct (negb (isPdfName (attName a))); [now left|].
  destruct (dupFound info) eqn:D; [now left|].
  destruct (saved o 0%nat) as [file|message]; [|now left].
  destruct key as [k|]; [|now left]. simpl.
  destruct (recordContentDuplicate_cases (sheetAtRecord o)
              (withDrive w (driveFiles w ++ [fst file])%list)
              (clock o) k sender (Some t) subj pdfs url) as (_ & _ & _ & _ & Hc).
  cbv zeta in Hc. destruct Hc as [Hc|(row & Ht & Hk & Hc)]; [now left|].
  right. exists k, row. repeat split; assumption.
Qed.

Lemma processAttachments_keysUnique o w atts subj t sender :
  sheetAtCheck o = true ->
  keysUnique (contentSheet w) ->
  keysUnique (contentSheet (fst (processAttachments o w atts subj t sender))).
Proof.
  intros HC U. unfold processAttachments.
  destruct atts as [|a atts]; [exact U|].
  destruct (getPropertyRequired (props w) "DRIVE_FOLDER_ID"); [|exact U].
  destruct (baseFolder o) as [url|message]; [|exact U].
  set (pdfNames := map attName (filter (fun a0 => isPdfName (attName a0)) (a :: atts))).
  set (key := match pdfNames with
              | [] => None
              | _ => Some (generateContentDuplicateKey (clock o) (Some sender)
                             (Some t) (Some subj) (Some pdfNames))
              end).
  set (info := match key with
               | Some k => checkContentDuplicate (sheetAtCheck o) w k
               | None => notDuplicate
               end).
  unfold indexed. cbn [List.length seq combine fold_left].
  match goal with
  | |- context [fold_left ?f ?items ?acc] =>
      pose proof (saveAll_later o subj sender t (JS.sort pdfNames) key info url items
                    (fun i b H => indexed_later atts 0 i b H) acc) as L;
      destruct (fold_left f items acc) as [w' infos]
  end.
  cbn [fst] in L |- *. rewrite L.
  destruct (saveOne_first o subj sender t (JS.sort pdfNames) key info url w a)
    as [E|(k & row & Hk & Hd & Ht & Hr & E)]; cbv zeta in E; rewrite E; [exact U|].
  apply keysUnique_append; [exact U|].
  rewrite Hr. apply scanContent_missing.
  subst info. rewrite Hk, checkContentDuplicate_eq, Ht, HC in Hd. exact Hd.
Qed.

(** With a lookup that can open the spreadsheet, the handling of a
    message keeps the keys of the content ledger unique. *)
Lemma handleMessage_keysUnique o w m :
  sheetAtCheck o = true ->
  keysUnique (contentSheet w) ->
  keysUnique (contentSheet (fst (handleMessage o w m))).
Proof.
  intros HC U. unfold handleMessage.
  destruct (inTrash m); [exact U|].
  destruct (isMessageAlreadyProcessed o w m); [exact U|].
  assert (P : keysUnique (contentSheet (fst (processMessage o w m)))).
  { unfold processMessage.
    destruct (negb (patternMatch m)); [exact U|].
    destruct (attachments m) as [|a atts].
    - destruct (slackAccepts o); exact U.
    - destruct (existsb _ _).
      + pose proof (processAttachments_keysUnique o w (a :: atts) (subject m) (date m)
                      (from m) HC U) as K.
        destruct (processAttachments o w (a :: atts) (subject m) (date m) (from m))
          as [w' r]. simpl in *.
        destruct (slackAccepts o); exact K.
      + destruct (slackAccepts o); exact U. }
  destruct (processMessage o w m) as [w1 done]. simpl in *.
  destruct done; [|exact P].
  simpl. rewrite markMessageAsProcessed_eq. destruct (_ && _); exact P.
Qed.

Lemma processEmails_keysUnique (found : list (Outcomes * Message)) :
  forall w : World,
    keysUnique (contentSheet w) ->
    Forall (fun om => sheetAtCheck (fst om) = true) found ->
    keysUnique (contentSheet (processEmails w found)).
Proof.
  unfold processEmails.
  induction found as [|[o m] rest IH]; intros w U F; simpl; [exact U|].
  inversion F as [|? ? Ho Hrest]; subst. simpl in Ho.
  apply IH; [|exact Hrest]. now apply handleMessage_keysUnique.
Qed.

(** Two appends under one key, and what the lookup answers after each. *)
Lemma appended_twice (w : World) (key : string)
    now1 now2 s1 s2 t1 t2 subj1 subj2 pdfs1 pdfs2 url1 url2 :
  truthy (getPropertyOptional (props w) "SPREADSHEET_ID") = true ->
  let w1 := recordContentDuplicate true now1 w key s1 (Some t1) subj1 pdfs1 url1 in
  let w2 := recordContentDuplicate true now2 w1 key s2 (Some t2) subj2 pdfs2 url2 in
  contentSheet w2 =
    (contentSheet w ++
     [MkDuplicateRow now1 key s1 t1 subj1 (JS.join ", " pdfs1) url1 now1;
      MkDuplicateRow now2 key s2 t2 subj2 (JS.join ", " pdfs2) url2 now2])%list /\
  dupFound (checkContentDuplicate true w1 key) = true /\
  checkContentDuplicate true w2 key = checkContentDuplicate true w1 key /\
  (dupFound (checkContentDuplicate true w key) = false ->
   checkContentDuplicate true w2 key = MkDuplicateInfo true (Some url1)).
Proof.
  intros Hc w1 w2.
  assert (E1 : w1 = withContent w (contentSheet w ++
            [MkDuplicateRow now1 key s1 t1 subj1 (JS.join ", " pdfs1) url1 now1])%list)
    by (apply recordContentDuplicate_appends; exact Hc).
  assert (F1 : dupFound (checkContentDuplicate true w1 key) = true).
  { rewrite checkContentDuplicate_eq, E1. simpl. rewrite Hc. simpl.
    destruct (dupFound (scanContent (contentSheet w) key)) eqn:D.
    - now rewrite scanContent_app_found.
    - rewrite scanContent_app_missing by exact D. simpl. now rewrite String.eqb_refl. }
  assert (S : checkContentDuplicate true w2 key = checkContentDuplicate true w1 key)
    by (apply lookup_stable; exact F1).
  repeat split.
  - subst w2. rewrite recordContentDuplicate_appends by (rewrite E1; exact Hc).
    rewrite E1. simpl. now rewrite <- app_assoc.
  - exact F1.
  - exact S.
  - intros D. rewrite S, checkContentDuplicate_eq, E1. simpl. rewrite Hc. simpl.
    rewrite checkContentDuplicate_eq, Hc in D. simpl in D.
    rewrite scanContent_app_missing by exact D. simpl. now rewrite String.eqb_refl.
Qed.

(** C1, as the code has it.  The content ledger is write-once per key
    in the states that the coordinator reaches as long as its lookups
    of the content can open the spreadsheet: it appends only under a
    key that the lookup did not find.  The append itself adds a row
    each time, also under a key that the ledger holds already; a
    lookup answers with the first row of the key, so after two appends
    under one key it answers what it answered after the first, and
    that is the location of the first append when the key was new. *)
Theorem content_ledger_write_once :
  (forall (w : World) (found : list (Outcomes * Message)),
     keysUnique (contentSheet w) ->
     Forall (fun om => sheetAtCheck (fst om) = true) found ->
     keysUnique (contentSheet (processEmails w found))) /\
  (forall (w : World) (key : string)
          now1 now2 s1 s2 t1 t2 subj1 subj2 pdfs1 pdfs2 url1 url2,
     truthy (getPropertyOptional (props w) "SPREADSHEET_ID") = true ->
     let w1 := recordContentDuplicate true now1 w key s1 (Some t1) subj1 pdfs1 url1 in
     let w2 := recordContentDuplicate true now2 w1 key s2 (Some t2) subj2 pdfs2 url2 in
     contentSheet w2 =
       (contentSheet w ++
        [MkDuplicateRow now1 key s1 t1 subj1 (JS.join ", " pdfs1) url1 now1;
         MkDuplicateRow now2 key s2 t2 subj2 (JS.join ", " pdfs2) url2 now2])%list /\
     dupFound (checkContentDuplicate true w1 key) = true /\
     checkContentDuplicate true w2 key = checkContentDuplicate true w1 key /\
     (dupFound (checkContentDuplicate true w key) = false ->
      checkContentDuplicate true w2 key = MkDuplicateInfo true (Some url1))).
Proof.
  split.
  - intros w found. apply processEmails_keysUnique.
  - apply appended_twice.
Qed.

Lemma content_ledger_write_once_witness :
  keysUnique (contentSheet
    (processEmails freshWorld [(allFine, loanMessage); (allFine, loanCopy)])) /\
  checkContentDuplicate true recordedTwice loanKey =
  checkContentDuplicate true recordedOnce loanKey.
Proof.
  destruct content_ledger_write_once as [HA HB]. split.
  - apply HA.
    + constructor.
    + repeat constructor.
  - destruct (HB freshWorld loanKey
                (june22 + 300000) (june22 + 600000)
                (from loanMessage) (from loanMessage) june22 june22
                (subject loanMessage) (subject loanMessage)
                ["loan_agreement.pdf"] ["loan_agreement.pdf"]
                "https://drive.example.com/folders/first"
                "https://drive.example.com/folders/second") as (_ & _ & H & _).
    + vm_compute. reflexivity.
    + exact H.
Defined.

(** C1 as stated fails: the second append under a key puts a second
    row with that key into the ledger, and two deliveries of one
    content leave two rows when the lookup of the second could not open
    the spreadsheet. *)
Lemma content_key_written_twice_counterexample :
  List.length (rowsWithKey loanKey (contentSheet recordedOnce)) = 1%nat /\
  List.length (rowsWithKey loanKey (contentSheet recordedTwice)) = 2%nat /\
  sheetAtCheck checkFails = false /\
  List.length (rowsWithKey loanKey (contentSheet twoDeliveries)) = 2%nat /\
  ~ keysUnique (contentSheet twoDeliveries).
Proof.
  vm_compute. repeat split.
  intros H. inversion H as [|? ? N _]. apply N. now left.
Qed.

(* ================================================================== *)
(** * The coordinator *)




Lemma spreadsheetId_not_processed : isProcessedKey "SPREADSHEET_ID" = false.
Proof. reflexivity. Qed.

Lemma handleMessage_props o w m : props (fst (handleMessage o w m)) = props w.
Proof.
  unfold handleMessage.
  destruct (inTrash m); [reflexivity|].
  destruct (isMessageAlreadyProcessed o w m); [reflexivity|].
  destruct (processMessage_frame o w m) as (F1 & _ & _). cbv zeta in F1.
  destruct (processMessage o w m) as [w1 done]. simpl in *.
  destruct done; [|exact F1].
  simpl. rewrite markMessageAsProcessed_eq.
  destruct (_ && _); simpl; exact F1.
Qed.

(** C3, as the code has it.  The check of a message reads the
    processing ledger and nothing else: a message found there is left
    alone and the world is as before; a message not found there goes
    on to [processMessage]; the answer is the same whatever processed
    messages the script properties hold; and the handling of a message
    never writes a script property. *)
Theorem message_check_reads_the_ledger :
  forall (o : Outcomes) (w : World) (m : Message),
    inTrash m = false ->
    (isMessageProcessedInSpreadsheet (sheetAtLookup o) w (messageId m) = true ->
     handleMessage o w m = (w, false)) /\
    (isMessageProcessedInSpreadsheet (sheetAtLookup o) w (messageId m) = false ->
     handleMessage o w m =
     if patternMatch m
     then (markMessageAsProcessed o (fst (processMessage o w m)) m, true)
     else (fst (processMessage o w m), false)) /\
    (forall ps, configuration ps = configuration (props w) ->
                isMessageAlreadyProcessed o (withProps w ps) m =
                isMessageAlreadyProcessed o w m) /\
    props (fst (handleMessage o w m)) = props w.
Proof.
  intros o w m HT. repeat split.
  - intros H. unfold handleMessage, isMessageAlreadyProcessed. now rewrite HT, H.
  - intros H. now apply handleMessage_new.
  - intros ps Hc. unfold isMessageAlreadyProcessed.
    rewrite !isMessageProcessedInSpreadsheet_eq. simpl. unfold getPropertyOptional.
    now rewrite (same_configuration (props w) ps _ spreadsheetId_not_processed Hc).
  - apply handleMessage_props.
Qed.

Lemma message_check_reads_the_ledger_witness :
  handleMessage allFine loggedWorld loanMessage = (loggedWorld, false).
Proof.
  destruct (message_check_reads_the_ledger allFine loggedWorld loanMessage) as (H & _).
  - reflexivity.
  - apply H. vm_compute. reflexivity.
Defined.

(** C3 as stated fails: a message that a script property remembers and
    the ledger does not know is processed like a new one, and a message
    found in the ledger is not put back into the script properties. *)
Lemma fast_store_counterexample :
  PropertiesService.getProperty (props rememberedWorld)
    (processedKey (messageId loanMessage)) = Some "1719019000000" /\
  snd (handleMessage allFine rememberedWorld loanMessage) = true /\
  driveFiles (fst (handleMessage allFine rememberedWorld loanMessage)) =
    ["20240622_loan_agreement.pdf"] /\
  List.length (slackSent (fst (handleMessage allFine rememberedWorld loanMessage))) = 1%nat /\
  isMessageProcessedInSpreadsheet true loggedWorld (messageId loanMessage) = true /\
  PropertiesService.getProperty
    (props (fst (handleMessage allFine loggedWorld loanMessage)))
    (processedKey (messageId loanMessage)) = None.
Proof. vm_compute. repeat split. Qed.




(* ================================================================== *)
(** * The script properties: writes, counts and what stays *)

Lemma deleteProperty_length (ps : Props) (key : string) :
  (List.length (PropertiesService.deleteProperty ps key) <= List.length ps)%nat.
Proof. unfold PropertiesService.deleteProperty. apply filter_length_le. Qed.

Lemma deleteAll_length (keys : list string) :
  forall ps, (List.length (deleteAll keys ps) <= List.length ps)%nat.
Proof.
  unfold deleteAll. induction keys as [|k r IH]; intros ps; simpl; [lia|].
  etransitivity; [apply IH|apply deleteProperty_length].
Qed.

Lemma autoCleanup_length (now : Z) (key : string) (ps : Props) :
  (List.length (autoCleanup now key ps) <= List.length ps)%nat.
Proof.
  unfold autoCleanup. destruct (_ && _); [|lia].
  destruct (isProcessedKey key); simpl; apply deleteAll_length.
Qed.

Lemma setProperty_length (ps : Props) (key value : string) :
  List.length (PropertiesService.setProperty ps key value) =
  if PropertiesService.hasOwnProperty ps key then List.length ps
  else S (List.length ps).
Proof.
  unfold PropertiesService.hasOwnProperty.
  induction ps as [|[k v] r IH]; simpl; [reflexivity|].
  destruct (String.eqb k key); simpl; [reflexivity|].
  rewrite IH. now destruct (existsb _ r).
Qed.

Lemma autoCleanup_configuration (now : Z) (key : string) (ps : Props) :
  configuration (autoCleanup now key ps) = configuration ps.
Proof.
  unfold autoCleanup. destruct (_ && _); [|reflexivity].
  destruct (isProcessedKey key); simpl; apply configuration_deleteAll.
  - apply toRemove_keys.
  - apply expiredKeys_keys.
Qed.

(** A write leaves the other properties that are not processed messages
    as they are. *)
Lemma setProperty_other (now : Z) (key value k : string) (ps : Props) :
  k <> key -> isProcessedKey k = false ->
  PropertiesService.getProperty (setProperty now key value ps) k =
  PropertiesService.getProperty ps k.
Proof.
  intros Hk Hc. unfold setProperty. rewrite getProperty_set.
  assert (Hne : key <> k) by congruence.
  apply String.eqb_neq in Hne. rewrite Hne.
  apply same_configuration; [exact Hc|apply autoCleanup_configuration].
Qed.

(** X1.  A write through [setProperty] of [main.js] can be read back,
    whatever clean-up preceded it; a property that is not a processed
    message and has another key keeps its value; and the store grows by
    one property at most. *)
Theorem written_property_is_read_back :
  forall (now : Z) (key value : string) (ps : Props),
    PropertiesService.getProperty (setProperty now key value ps) key = Some value /\
    (forall k, k <> key -> isProcessedKey k = false ->
               PropertiesService.getProperty (setProperty now key value ps) k =
               PropertiesService.getProperty ps k) /\
    (List.length (setProperty now key value ps) <= S (List.length ps))%nat.
Proof.
  intros now key value ps. unfold setProperty. split; [|split].
  - now rewrite getProperty_set, String.eqb_refl.
  - intros k Hk Hc. rewrite getProperty_set.
    assert (Hne : key <> k) by congruence.
    apply String.eqb_neq in Hne. rewrite Hne.
    apply same_configuration; [exact Hc|apply autoCleanup_configuration].
  - rewrite setProperty_length.
    pose proof (autoCleanup_length now key ps).
    destruct (PropertiesService.hasOwnProperty _ key); lia.
Qed.

(** X2.  The write of a key that the store holds already changes the
    value in place: no clean-up runs, however full the store is, no
    other property changes and the number of properties is the same. *)
Theorem update_never_evicts :
  forall (now : Z) (key value : string) (ps : Props),
    PropertiesService.hasOwnProperty ps key = true ->
    setProperty now key value ps = PropertiesService.setProperty ps key value /\
    List.length (setProperty now key value ps) = List.length ps /\
    (forall k, k <> key ->
               PropertiesService.getProperty (setProperty now key value ps) k =
               PropertiesService.getProperty ps k).
Proof.
  intros now key value ps H.
  assert (E : setProperty now key value ps = PropertiesService.setProperty ps key value).
  { unfold setProperty, autoCleanup. rewrite H. simpl.
    now rewrite andb_false_r. }
  rewrite E. split; [reflexivity|]. split.
  - now rewrite setProperty_length, H.
  - intros k Hk. rewrite getProperty_set.
    assert (Hne : key <> k) by congruence.
    apply String.eqb_neq in Hne. now rewrite Hne.
Qed.

Lemma update_never_evicts_witness :
  List.length (setProperty june22 "PROCESSED_MSG_m7" "1719019800000" messageStore) = 48%nat.
Proof.
  destruct (update_never_evicts june22 "PROCESSED_MSG_m7" "1719019800000" messageStore)
    as (_ & H & _).
  - vm_compute. reflexivity.
  - rewrite H. vm_compute. reflexivity.
Defined.

(** ** The counts that the clean-ups return *)

Lemma deleteProperty_absent (ps : Props) (key : string) :
  ~ In key (map fst ps) -> PropertiesService.deleteProperty ps key = ps.
Proof.
  unfold PropertiesService.deleteProperty.
  induction ps as [|[k v] r IH]; simpl; intros H; [reflexivity|].
  destruct (String.eqb k key) eqn:E.
  - apply String.eqb_eq in E. exfalso. apply H. now left.
  - simpl. f_equal. apply IH. intros Hin. apply H. now right.
Qed.

Lemma deleteProperty_present (ps : Props) (key : string) :
  NoDup (map fst ps) -> In key (map fst ps) ->
  S (List.length (PropertiesService.deleteProperty ps key)) = List.length ps.
Proof.
  induction ps as [|[k v] r IH]; simpl; intros N H; [contradiction|].
  inversion N as [|? ? Hk Hr]; subst.
  unfold PropertiesService.deleteProperty in *. simpl.
  destruct (String.eqb k key) eqn:E; simpl.
  - apply String.eqb_eq in E. subst key.
    fold (PropertiesService.deleteProperty r k).
    now rewrite (deleteProperty_absent r k Hk).
  - f_equal. apply IH; [exact Hr|].
    destruct H as [H|H]; [|exact H].
    apply String.eqb_neq in E. congruence.
Qed.

Lemma deleteProperty_keys (ps : Props) (key k : string) :
  In k (map fst (PropertiesService.deleteProperty ps key)) <->
  In k (map fst ps) /\ k <> key.
Proof.
  unfold PropertiesService.deleteProperty. rewrite !in_map_iff. split.
  - intros ([k' v] & <- & H). apply filter_In in H as [H E]. simpl in *.
    split; [exists (k', v); now split|].
    apply negb_true_iff, String.eqb_neq in E. exact E.
  - intros (([k' v] & <- & H) & Hne). exists (k', v). split; [reflexivity|].
    apply filter_In. split; [exact H|]. simpl in *.
    now apply negb_true_iff, String.eqb_neq.
Qed.

Lemma deleteProperty_NoDup (ps : Props) (key : string) :
  NoDup (map fst ps) -> NoDup (map fst (PropertiesService.deleteProperty ps key)).
Proof.
  unfold PropertiesService.deleteProperty.
  induction ps as [|[k v] r IH]; simpl; intros N; [constructor|].
  inversion N as [|? ? Hk Hr]; subst.
  destruct (negb (String.eqb k key)); simpl; [|now apply IH].
  constructor; [|now apply IH].
  intros Hin. apply Hk. apply in_map_iff in Hin as (kv & E & Hf).
  apply filter_In in Hf as [Hf _]. apply in_map_iff. now exists kv.
Qed.

(** Distinct keys of the store are deleted one by one. *)
Lemma deleteAll_counts (keys : list string) :
  forall ps, NoDup (map fst ps) -> NoDup keys -> incl keys (map fst ps) ->
             (List.length (deleteAll keys ps) + List.length keys)%nat = List.length ps.
Proof.
  unfold deleteAll. induction keys as [|k r IH]; intros ps N Nk I; simpl; [lia|].
  inversion Nk as [|? ? Hk Hr]; subst.
  rewrite <- (deleteProperty_present ps k N) by (apply I; now left).
  rewrite <- (IH (PropertiesService.deleteProperty ps k)); [lia| | |].
  - now apply deleteProperty_NoDup.
  - exact Hr.
  - intros x Hx. apply deleteProperty_keys. split; [apply I; now right|].
    intros ->. contradiction.
Qed.

Lemma collectProcessed_sub (ps : Props) :
  forall e, In e (collectProcessed ps) ->
            exists value, In (fst e, value) ps /\ JS.parseInt value = Some (snd e).
Proof.
  induction ps as [|[k v] r IH]; simpl; intros e H; [contradiction|].
  destruct (isProcessedKey k).
  - destruct (JS.parseInt v) as [t|] eqn:P.
    + destruct H as [<-|H].
      * exists v. split; [now left|exact P].
      * destruct (IH e H) as (value & Hin & Hp). exists value. split; [now right|exact Hp].
    + destruct (IH e H) as (value & Hin & Hp). exists value. split; [now right|exact Hp].
  - destruct (IH e H) as (value & Hin & Hp). exists value. split; [now right|exact Hp].
Qed.

Lemma collectProcessed_NoDup (ps : Props) :
  NoDup (map fst ps) -> NoDup (map fst (collectProcessed ps)).
Proof.
  induction ps as [|[k v] r IH]; simpl; intros N; [constructor|].
  inversion N as [|? ? Hk Hr]; subst.
  destruct (isProcessedKey k); [|now apply IH].
  destruct (JS.parseInt v); [|now apply IH].
  simpl. constructor; [|now apply IH].
  intros Hin. apply Hk. apply in_map_iff in Hin as (e & <- & He).
  now apply collectProcessed_In.
Qed.

Lemma firstn_NoDup {A : Type} (n : nat) (l : list A) : NoDup l -> NoDup (firstn n l).
Proof.
  revert n. induction l as [|a r IH]; intros [|n] N; simpl; try constructor.
  - inversion N as [|? ? Ha Hr]; subst. intros Hin. apply Ha. eapply In_firstn, Hin.
  - inversion N; subst. now apply IH.
Qed.

Lemma toRemove_NoDup (n : nat) (ps : Props) :
  NoDup (map fst ps) -> NoDup (map fst (toRemove n ps)).
Proof.
  intros N. unfold toRemove. rewrite <- firstn_map. apply firstn_NoDup.
  apply (Permutation_NoDup (l := map fst (collectProcessed ps))).
  - apply Permutation_map, sortBy_perm.
  - now apply collectProcessed_NoDup.
Qed.

Lemma filter_keys_NoDup (keep : string * string -> bool) (ps : Props) :
  NoDup (map fst ps) -> NoDup (map fst (filter keep ps)).
Proof.
  induction ps as [|kv r IH]; cbn [map filter]; intros N; [constructor|].
  apply NoDup_cons_iff in N as [Hk Hr].
  destruct (keep kv); cbn [map]; [|now apply IH].
  constructor; [|now apply IH].
  intros Hin. apply Hk. apply in_map_iff in Hin as (x & E & Hx).
  apply filter_In in Hx as [Hx _]. apply in_map_iff. now exists x.
Qed.

(** X3.  In a store with one value per key, each of the three
    clean-ups returns the number of properties that it took away: the
    store afterwards is shorter by the count returned. *)
Theorem cleanup_counts_what_it_removes :
  forall (ps : Props) (removeCount : nat) (now daysOld : Z),
    NoDup (map fst ps) ->
    (List.length (fst (rotateProcessedMessages removeCount ps)) +
     snd (rotateProcessedMessages removeCount ps) = List.length ps)%nat /\
    (List.length (fst (cleanupOldProcessedMessages now daysOld ps)) +
     snd (cleanupOldProcessedMessages now daysOld ps) = List.length ps)%nat /\
    (List.length (fst (clearAllProcessedMessages ps)) +
     snd (clearAllProcessedMessages ps) = List.length ps)%nat.
Proof.
  intros ps n now d N.
  unfold rotateProcessedMessages, cleanupOldProcessedMessages, clearAllProcessedMessages.
  cbn [fst snd]. repeat split.
  - assert (L : List.length (map fst (toRemove n ps)) = List.length (toRemove n ps))
      by apply length_map.
    rewrite <- L.
    apply deleteAll_counts; [exact N|now apply toRemove_NoDup|].
    intros k Hk. apply in_map_iff in Hk as (e & <- & He).
    now apply collectProcessed_In, (toRemove_incl n).
  - apply deleteAll_counts; [exact N| |].
    + unfold expiredKeys. now apply filter_keys_NoDup.
    + intros k Hk. unfold expiredKeys in Hk.
      apply in_map_iff in Hk as (kv & <- & Hf). apply filter_In in Hf as [Hf _].
      now apply in_map.
  - apply deleteAll_counts; [exact N| |].
    + unfold processedKeys. now apply NoDup_filter.
    + intros k Hk. unfold processedKeys in Hk. now apply filter_In in Hk as [Hk _].
Qed.

Lemma cleanup_counts_what_it_removes_witness :
  (List.length (fst (rotateProcessedMessages 10 damagedStore)) +
   snd (rotateProcessedMessages 10 damagedStore) = 4)%nat.
Proof.
  apply (cleanup_counts_what_it_removes damagedStore 10 june22 3).
  repeat constructor; simpl; intuition discriminate.
Defined.

(** ** Entries that no number dates *)

Lemma NoDup_keys_value (ps : Props) (key v1 v2 : string) :
  NoDup (map fst ps) -> In (key, v1) ps -> In (key, v2) ps -> v1 = v2.
Proof.
  induction ps as [|[k v] r IH]; simpl; intros N H1 H2; [contradiction|].
  inversion N as [|? ? Hk Hr]; subst.
  destruct H1 as [H1|H1], H2 as [H2|H2].
  - congruence.
  - inversion H1; subst. exfalso. apply Hk. apply in_map_iff. now exists (key, v2).
  - inversion H2; subst. exfalso. apply Hk. apply in_map_iff. now exists (key, v1).
  - now apply IH.
Qed.

Lemma getProperty_In (ps : Props) (key value : string) :
  NoDup (map fst ps) -> In (key, value) ps ->
  PropertiesService.getProperty ps key = Some value.
Proof.
  induction ps as [|[k v] r IH]; simpl; intros N H; [contradiction|].
  inversion N as [|? ? Hk Hr]; subst.
  destruct H as [H|H].
  - inversion H; subst. now rewrite String.eqb_refl.
  - destruct (String.eqb k key) eqn:E; [|now apply IH].
    apply String.eqb_eq in E. subst k. exfalso. apply Hk.
    apply in_map_iff. now exists (key, value).
Qed.

(** X4.  A processed message whose value does not read as a number is
    never taken away by the rotation nor by the clean-up by age,
    whatever the count, the clock and the age asked for. *)
Theorem undated_entry_is_never_evicted :
  forall (ps : Props) (key value : string) (removeCount : nat) (now daysOld : Z),
    NoDup (map fst ps) ->
    In (key, value) ps ->
    JS.parseInt value = None ->
    PropertiesService.getProperty (fst (rotateProcessedMessages removeCount ps)) key
      = Some value /\
    PropertiesService.getProperty (fst (cleanupOldProcessedMessages now daysOld ps)) key
      = Some value.
Proof.
  intros ps key value n now d N Hin Hp. simpl. rewrite !getProperty_deleteAll.
  rewrite (getProperty_In ps key value N Hin). split.
  - destruct (existsb _ _) eqn:E; [|reflexivity].
    apply existsb_eqb_In, in_map_iff in E as (e & Ek & He).
    apply (toRemove_incl n), collectProcessed_sub in He as (v & Hv & Pv).
    rewrite Ek in Hv. rewrite (NoDup_keys_value ps key v value N Hv Hin) in Pv.
    congruence.
  - destruct (existsb _ _) eqn:E; [|reflexivity].
    apply existsb_eqb_In in E. unfold expiredKeys in E.
    apply in_map_iff in E as ([k v] & Ek & Hf). simpl in Ek. subst k.
    apply filter_In in Hf as [Hv Hc]. simpl in Hc.
    rewrite (NoDup_keys_value ps key v value N Hv Hin) in Hc.
    unfold olderThan in Hc. rewrite Hp in Hc. now rewrite andb_false_r in Hc.
Qed.

Lemma undated_entry_is_never_evicted_witness :
  PropertiesService.getProperty (fst (rotateProcessedMessages 10 damagedStore))
    "PROCESSED_MSG_b" = Some "pending".
Proof.
  apply (undated_entry_is_never_evicted damagedStore "PROCESSED_MSG_b" "pending"
           10 june22 0).
  - repeat constructor; simpl; intuition discriminate.
  - simpl. auto.
  - vm_compute. reflexivity.
Defined.

(** ** What the clean-ups leave behind *)

Lemma deleteAll_filter (keys : list string) :
  forall ps, deleteAll keys ps =
             filter (fun kv => negb (existsb (fun key => String.eqb key (fst kv)) keys)) ps.
Proof.
  unfold deleteAll. induction keys as [|k r IH]; intros ps; simpl.
  - induction ps as [|kv ps IHp]; simpl; [reflexivity|]. now rewrite <- IHp.
  - rewrite IH. unfold PropertiesService.deleteProperty.
    induction ps as [|kv ps IHp]; simpl; [reflexivity|].
    rewrite (String.eqb_sym k (fst kv)).
    destruct (String.eqb (fst kv) k); simpl; [exact IHp|].
    destruct (existsb _ r); simpl; [exact IHp|]. now rewrite IHp.
Qed.

Lemma filter_nil_iff {A : Type} (p : A -> bool) (l : list A) :
  (forall x, In x l -> p x = false) -> filter p l = [].
Proof.
  induction l as [|a r IH]; simpl; intros H; [reflexivity|].
  rewrite (H a) by now left. apply IH. intros x Hx. apply H. now right.
Qed.

(** X5.  After [clearAllProcessedMessages] the store holds no key of a
    processed message; after [cleanupOldProcessedMessages] it holds no
    processed message that is dated before the cut-off; and the rotation
    by a count that is not smaller than the number of dated processed
    messages leaves none of them. *)
Theorem cleanups_are_thorough :
  forall (ps : Props) (now daysOld : Z) (removeCount : nat),
    processedKeys (fst (clearAllProcessedMessages ps)) = [] /\
    expiredKeys (now - daysOld * msPerDay)
      (fst (cleanupOldProcessedMessages now daysOld ps)) = [] /\
    ((List.length (collectProcessed ps) <= removeCount)%nat ->
     collectProcessed (fst (rotateProcessedMessages removeCount ps)) = []).
Proof.
  intros ps now d n. simpl. repeat split.
  - rewrite deleteAll_filter. unfold processedKeys at 1.
    apply filter_nil_iff. intros k Hk.
    apply in_map_iff in Hk as (kv & <- & Hf). apply filter_In in Hf as [Hin Hn].
    destruct (isProcessedKey (fst kv)) eqn:P; [|reflexivity].
    apply negb_true_iff in Hn.
    assert (Hx : existsb (fun key => String.eqb key (fst kv)) (processedKeys ps) = true).
    { apply existsb_eqb_In. unfold processedKeys. apply filter_In.
      split; [now apply in_map|exact P]. }
    congruence.
  - rewrite deleteAll_filter. unfold expiredKeys at 1.
    rewrite filter_nil_iff; [reflexivity|].
    intros kv Hf. apply filter_In in Hf as [Hin Hn].
    destruct (isProcessedKey (fst kv) && olderThan _ (snd kv)) eqn:P; [|reflexivity].
    apply negb_true_iff in Hn.
    assert (Hx : existsb (fun key => String.eqb key (fst kv))
                   (expiredKeys (now - d * msPerDay) ps) = true).
    { apply existsb_eqb_In. unfold expiredKeys. apply in_map, filter_In. now split. }
    congruence.
  - intros Hn.
    assert (E : toRemove n ps = sortByTime (collectProcessed ps)).
    { unfold toRemove.
      assert (L : List.length (sortByTime (collectProcessed ps)) =
                  List.length (collectProcessed ps))
        by (symmetry; apply Permutation_length, sortBy_perm).
      rewrite Nat.min_r by lia. apply firstn_all. }
    rewrite E, deleteAll_filter.
    set (gone := map fst (sortByTime (collectProcessed ps))).
    assert (G : forall e, In e (collectProcessed ps) -> In (fst e) gone).
    { intros e He. apply in_map. eapply Permutation_in; [apply sortBy_perm|exact He]. }
    clearbody gone. clear E Hn.
    induction ps as [|[k v] r IH]; simpl in *; [reflexivity|].
    destruct (isProcessedKey k) eqn:P.
    + destruct (JS.parseInt v) as [t|] eqn:Q.
      * assert (Hg : existsb (fun key => String.eqb key k) gone = true)
          by (apply existsb_eqb_In; apply (G (k, t)); now left).
        rewrite Hg. simpl. apply IH. intros e He. apply G. now right.
      * destruct (existsb _ gone); simpl; [now apply IH|].
        rewrite P, Q. now apply IH.
    + destruct (existsb _ gone); simpl; [now apply IH|].
      rewrite P. now apply IH.
Qed.

(* ================================================================== *)
(** * The property manager *)

Lemma distinct_NoDup (l : list string) : distinct l = true -> NoDup l.
Proof.
  induction l as [|x r IH]; simpl; intros H; [constructor|].
  apply andb_true_iff in H as [Hx Hr]. constructor; [|now apply IH].
  intros Hin. apply negb_true_iff in Hx.
  assert (E : existsb (String.eqb x) r = true)
    by (apply existsb_exists; exists x; split; [exact Hin|apply String.eqb_refl]).
  congruence.
Qed.

Lemma analyse_toDelete (cutoffTime : Z) (ps : Props) :
  map fst (fst (PropertyManager.analyse cutoffTime ps)) = expiredKeys cutoffTime ps.
Proof.
  unfold expiredKeys. induction ps as [|[k v] r IH]; simpl; [reflexivity|].
  destruct (PropertyManager.analyse cutoffTime r) as [d kp]. simpl in IH.
  change (JS.startsWith "PROCESSED_MSG_" k) with (isProcessedKey k).
  destruct (isProcessedKey k); simpl; [|exact IH].
  destruct (olderThan cutoffTime v); simpl; [now rewrite IH|exact IH].
Qed.

Lemma analyse_counts (cutoffTime : Z) (ps : Props) :
  (List.length (fst (PropertyManager.analyse cutoffTime ps)) +
   List.length (snd (PropertyManager.analyse cutoffTime ps)) =
   List.length (processedKeys ps))%nat.
Proof.
  unfold processedKeys. induction ps as [|[k v] r IH]; simpl; [reflexivity|].
  destruct (PropertyManager.analyse cutoffTime r) as [d kp]. simpl in IH.
  change (JS.startsWith "PROCESSED_MSG_" k) with (isProcessedKey k).
  destruct (isProcessedKey k); simpl; [|exact IH].
  destruct (olderThan cutoffTime v); simpl; lia.
Qed.

Lemma deleteAll_nil (ps : Props) : deleteAll [] ps = ps.
Proof. reflexivity. Qed.

(** The store after a run that is not a trial. *)
Lemma cleanupProcessedMessages_store (now daysOld : Z) (ps : Props) :
  fst (PropertyManager.cleanupProcessedMessages now daysOld false ps) =
  deleteAll (expiredKeys (now - daysOld * msPerDay) ps) ps.
Proof.
  unfold PropertyManager.cleanupProcessedMessages.
  change (24 * 60 * 60 * 1000) with msPerDay.
  pose proof (analyse_toDelete (now - daysOld * msPerDay) ps) as E.
  destruct (PropertyManager.analyse (now - daysOld * msPerDay) ps) as [d kp].
  simpl in *. rewrite <- E.
  destruct d as [|x d]; reflexivity.
Qed.

(** X6.  [cleanupOld(days)], which is [cleanupProcessedMessages] of the
    property manager, and [cleanupOldProcessedMessages(days)] of
    [main.js] take the same properties away and count the same number
    of them; a trial run of the first leaves the store as it is and
    reports that nothing was deleted. *)
Theorem the_two_cleanups_by_age_agree :
  forall (now days : Z) (ps : Props),
    fst (cleanupOld now days false ps) =
      fst (cleanupOldProcessedMessages now days ps) /\
    PropertyManager.deleted (snd (cleanupOld now days false ps)) =
      snd (cleanupOldProcessedMessages now days ps) /\
    fst (cleanupOld now days true ps) = ps /\
    PropertyManager.deleted (snd (cleanupOld now days true ps)) = 0%nat.
Proof.
  intros now days ps. unfold cleanupOld.
  split; [apply cleanupProcessedMessages_store|].
  unfold PropertyManager.cleanupProcessedMessages, cleanupOldProcessedMessages.
  change (24 * 60 * 60 * 1000) with msPerDay.
  pose proof (analyse_toDelete (now - days * msPerDay) ps) as E.
  destruct (PropertyManager.analyse (now - days * msPerDay) ps) as [d kp].
  simpl in *. rewrite <- E, length_map, andb_false_r. repeat split.
Qed.

(** X7.  The report of a [cleanupProcessedMessages] that deletes (not a
    trial run, which reports no deletion) adds up in a store with one
    value per key: the properties counted afterwards and the deleted
    ones make up the properties counted before, and the entries kept
    and the deleted ones make up the processed messages that the store
    held. *)
Theorem cleanup_report_adds_up :
  forall (now daysOld : Z) (ps : Props),
    NoDup (map fst ps) ->
    let result := snd (PropertyManager.cleanupProcessedMessages now daysOld false ps) in
    let ps' := fst (PropertyManager.cleanupProcessedMessages now daysOld false ps) in
    PropertyManager.totalBefore result = List.length ps /\
    PropertyManager.totalAfter result = List.length ps' /\
    (PropertyManager.totalAfter result + PropertyManager.deleted result =
     PropertyManager.totalBefore result)%nat /\
    (PropertyManager.kept result + PropertyManager.deleted result =
     List.length (processedKeys ps))%nat.
Proof.
  intros now d ps N. cbv zeta.
  pose proof (cleanupProcessedMessages_store now d ps) as S. revert S.
  unfold PropertyManager.cleanupProcessedMessages.
  change (24 * 60 * 60 * 1000) with msPerDay.
  pose proof (analyse_toDelete (now - d * msPerDay) ps) as E.
  pose proof (analyse_counts (now - d * msPerDay) ps) as C.
  destruct (PropertyManager.analyse (now - d * msPerDay) ps) as [del kp].
  cbn [fst snd PropertyManager.totalBefore PropertyManager.totalAfter
       PropertyManager.deleted PropertyManager.kept negb andb] in *.
  rewrite andb_true_r. intros S.
  split; [reflexivity|]. split; [reflexivity|]. split; [|lia].
  rewrite S.
  assert (L : List.length del = List.length (expiredKeys (now - d * msPerDay) ps))
    by (rewrite <- E; symmetry; apply length_map).
  rewrite L. apply deleteAll_counts; [exact N| |].
  - unfold expiredKeys. now apply filter_keys_NoDup.
  - intros k Hk. unfold expiredKeys in Hk.
    apply in_map_iff in Hk as (kv & <- & Hf). apply filter_In in Hf as [Hf _].
    now apply in_map.
Qed.

Lemma cleanup_report_adds_up_witness :
  (PropertyManager.totalAfter
     (snd (PropertyManager.cleanupProcessedMessages june22 3 false fullStore)) +
   PropertyManager.deleted
     (snd (PropertyManager.cleanupProcessedMessages june22 3 false fullStore)) = 50)%nat.
Proof.
  destruct (cleanup_report_adds_up june22 3 fullStore) as (H1 & _ & H3 & _).
  - apply distinct_NoDup. vm_compute. reflexivity.
  - rewrite H3, H1. vm_compute. reflexivity.
Defined.

(** X8.  [setPropertySafely] without [force] keeps a store of at most
    fifty properties within fifty: it either writes the value, which can
    then be read back while every other property is as before, or it
    refuses, and it refuses only a new key in a store of fifty. *)
Theorem safe_write_keeps_the_limit :
  forall (key v : string) (ps : Props),
    (List.length ps <= 50)%nat ->
    match PropertyManager.setPropertySafely key v false ps with
    | Ok ps' =>
        (List.length ps' <= 50)%nat /\
        PropertiesService.getProperty ps' key = Some v /\
        (forall k, k <> key ->
                   PropertiesService.getProperty ps' k = PropertiesService.getProperty ps k)
    | Throw _ =>
        PropertiesService.hasOwnProperty ps key = false /\ List.length ps = 50%nat
    end.
Proof.
  intros key v ps L. unfold PropertyManager.setPropertySafely.
  rewrite andb_true_r.
  assert (W : forall k, k <> key ->
              PropertiesService.getProperty (PropertiesService.setProperty ps key v) k =
              PropertiesService.getProperty ps k).
  { intros k Hk. rewrite getProperty_set.
    assert (Hne : key <> k) by congruence.
    apply String.eqb_neq in Hne. now rewrite Hne. }
  pose proof (setProperty_length ps key v) as SL.
  destruct (PropertiesService.hasOwnProperty ps key) eqn:H;
    destruct (50 <=? List.length ps)%nat eqn:F; cbn [negb andb].
  - rewrite SL, getProperty_set, String.eqb_refl. auto.
  - rewrite SL, getProperty_set, String.eqb_refl. auto.
  - apply Nat.leb_le in F. split; [reflexivity|lia].
  - apply Nat.leb_gt in F. rewrite SL, getProperty_set, String.eqb_refl.
    split; [lia|]. auto.
Qed.

Lemma safe_write_keeps_the_limit_witness :
  PropertiesService.hasOwnProperty fullStore "SLACK_CHANNEL" = false /\
  List.length fullStore = 50%nat.
Proof.
  apply (safe_write_keeps_the_limit "SLACK_CHANNEL" "#contracts" fullStore).
  apply Nat.leb_le. vm_compute. reflexivity.
Defined.

Lemma getProperty_filter (p : string * string -> bool) (ps : Props) (k : string) :
  (forall kv, fst kv = k -> p kv = true) ->
  PropertiesService.getProperty (filter p ps) k = PropertiesService.getProperty ps k.
Proof.
  intros H. induction ps as [|[k' v'] r IH]; simpl; [reflexivity|].
  destruct (String.eqb k' k) eqn:Q.
  - apply String.eqb_eq in Q. subst k'. rewrite (H (k, v') eq_refl). simpl.
    now rewrite String.eqb_refl.
  - destruct (p (k', v')); simpl; [rewrite Q|]; exact IH.
Qed.

Lemma includes_empty (s : string) : Text.includes "" s = true.
Proof. destruct s; reflexivity. Qed.

(** X9.  After [deletePropertiesByPattern] the store holds no key that
    contains the pattern, and the properties whose keys do not contain
    it are as before; with the empty pattern, which every key contains,
    the store is emptied; a trial run changes nothing. *)
Theorem pattern_deletion_is_thorough :
  forall (pattern : string) (ps : Props),
    (forall k, In k (map fst (fst (PropertyManager.deletePropertiesByPattern pattern false ps))) ->
               Text.includes pattern k = false) /\
    (forall k, Text.includes pattern k = false ->
               PropertiesService.getProperty
                 (fst (PropertyManager.deletePropertiesByPattern pattern false ps)) k =
               PropertiesService.getProperty ps k) /\
    fst (PropertyManager.deletePropertiesByPattern "" false ps) = [] /\
    PropertyManager.deletePropertiesByPattern pattern true ps = (ps, 0%nat).
Proof.
  intros pattern ps.
  assert (E : forall p, fst (PropertyManager.deletePropertiesByPattern p false ps) =
              filter (fun kv => negb (Text.includes p (fst kv))) ps).
  { intros p. unfold PropertyManager.deletePropertiesByPattern.
    set (toDelete := filter (fun entry => Text.includes p (fst entry)) ps).
    assert (D : deleteAll (map fst toDelete) ps =
                filter (fun kv => negb (Text.includes p (fst kv))) ps).
    { rewrite deleteAll_filter. apply filter_ext_in. intros kv Hkv. f_equal.
      destruct (Text.includes p (fst kv)) eqn:I.
      - apply existsb_eqb_In. subst toDelete. apply in_map, filter_In. now split.
      - destruct (existsb _ _) eqn:X; [|reflexivity].
        apply existsb_eqb_In, in_map_iff in X as (kv' & Ek & Hf).
        subst toDelete. apply filter_In in Hf as [_ Hf]. congruence. }
    destruct toDelete as [|x r] eqn:T; [|exact D].
    simpl. rewrite <- D. reflexivity. }
  repeat split.
  - intros k Hk. rewrite E in Hk. apply in_map_iff in Hk as (kv & <- & Hf).
    apply filter_In in Hf as [_ Hf]. now apply negb_true_iff.
  - intros k Hk. rewrite E. apply getProperty_filter.
    intros kv <-. now rewrite Hk.
  - rewrite E. apply filter_nil_iff. intros kv _. now rewrite includes_empty.
  - unfold PropertyManager.deletePropertiesByPattern. simpl.
    now destruct (filter _ ps).
Qed.

(** ** The categories *)

Lemma assign_keys {V : Type} (o : list (string * V)) (key : string) (v : V) (k : string) :
  In k (map fst (PropertyManager.assign o key v)) <-> In k (map fst o) \/ k = key.
Proof.
  induction o as [|[k' x] r IH]; simpl.
  - intuition.
  - destruct (String.eqb k' key) eqn:E; simpl.
    + apply String.eqb_eq in E. subst k'. intuition.
    + rewrite IH. intuition.
Qed.

Lemma assign_fresh {V : Type} (o : list (string * V)) (key : string) (v : V) :
  ~ In key (map fst o) -> PropertyManager.assign o key v = (o ++ [(key, v)])%list.
Proof.
  induction o as [|[k' x] r IH]; simpl; intros H; [reflexivity|].
  destruct (String.eqb k' key) eqn:E.
  - apply String.eqb_eq in E. exfalso. apply H. now left.
  - f_equal. apply IH. intros Hin. apply H. now right.
Qed.

Lemma categorize_total (ps : Props) :
  forall c, PropertyManager.total (fold_left PropertyManager.categorize ps c) =
            PropertyManager.total c.
Proof.
  induction ps as [|[k v] r IH]; intros c; simpl; [reflexivity|].
  rewrite IH. unfold PropertyManager.categorize.
  repeat (match goal with |- context [if ?b then _ else _] => destruct b end);
    reflexivity.
Qed.

(** One step of the loop puts the property into one category. *)
Lemma categorize_step (c : PropertyManager.Categorized) (k v : string) :
  ~ In k (categoryKeys c) ->
  let c' := PropertyManager.categorize c (k, v) in
  categorySizes c' = S (categorySizes c) /\
  (forall x, In x (categoryKeys c') -> In x (categoryKeys c) \/ x = k) /\
  List.length (PropertyManager.processedMessages c') =
    ((if isProcessedKey k then 1 else 0) +
     List.length (PropertyManager.processedMessages c))%nat.
Proof.
  intros H. unfold categoryKeys in H. rewrite !in_app_iff in H.
  unfold PropertyManager.categorize.
  change (JS.startsWith "PROCESSED_MSG_" k) with (isProcessedKey k).
  destruct (isProcessedKey k);
    [|destruct (JS.startsWith "SENDER_EMAIL" k);
      [|destruct (JS.startsWith "RECIPIENT_EMAIL" k);
        [|destruct (existsb (String.eqb k) PropertyManager.configurationKeys)]]];
    cbv zeta; unfold categorySizes, categoryKeys;
    cbn [PropertyManager.configuration PropertyManager.processedMessages
         PropertyManager.senderEmails PropertyManager.recipientEmails
         PropertyManager.other];
    rewrite assign_fresh by tauto;
    rewrite ?length_app, ?map_app; cbn [List.length map fst];
    (split; [lia|]); (split; [|try reflexivity; try lia]);
    intros x; rewrite !in_app_iff; simpl; intuition congruence.
Qed.

Lemma categorize_fold (ps : Props) :
  forall c,
    NoDup (map fst ps) ->
    (forall k, In k (map fst ps) -> ~ In k (categoryKeys c)) ->
    let c' := fold_left PropertyManager.categorize ps c in
    categorySizes c' = (categorySizes c + List.length ps)%nat /\
    List.length (PropertyManager.processedMessages c') =
      (List.length (PropertyManager.processedMessages c) +
       List.length (processedKeys ps))%nat.
Proof.
  induction ps as [|[k v] r IH]; intros c N D; cbv zeta.
  - simpl. split; lia.
  - cbn [fold_left]. simpl in N, D.
    inversion N as [|? ? Hk Hr]; subst.
    destruct (categorize_step c k v) as (S1 & S2 & S3); [apply D; now left|].
    cbv zeta in S1, S2, S3.
    destruct (IH (PropertyManager.categorize c (k, v)) Hr) as (I1 & I2).
    + intros x Hx Hin. apply S2 in Hin as [Hin| ->].
      * apply (D x); [now right|exact Hin].
      * contradiction.
    + cbv zeta in I1, I2. rewrite I1, I2, S1, S3.
      unfold processedKeys. cbn [map fst filter List.length].
      destruct (isProcessedKey k); cbn [List.length]; lia.
Qed.

(** X10.  The statistics of a store with one value per key add up:
    every property is counted in exactly one of the five categories, the
    processed messages counted are the keys with the prefix of the
    processed messages, and the percentage is twice the total. *)
Theorem statistics_add_up :
  forall ps : Props,
    NoDup (map fst ps) ->
    let stats := PropertyManager.getPropertyStats ps in
    PropertyManager.statTotal stats = List.length ps /\
    (PropertyManager.statConfiguration stats +
     PropertyManager.statProcessedMessages stats +
     PropertyManager.statSenderEmails stats +
     PropertyManager.statRecipientEmails stats +
     PropertyManager.statOther stats = PropertyManager.statTotal stats)%nat /\
    PropertyManager.statProcessedMessages stats = List.length (processedKeys ps) /\
    PropertyManager.percentUsed stats = (2 * List.length ps)%nat.
Proof.
  intros ps N. cbv zeta. unfold PropertyManager.getPropertyStats.
  cbn [PropertyManager.statTotal PropertyManager.statConfiguration
       PropertyManager.statProcessedMessages PropertyManager.statSenderEmails
       PropertyManager.statRecipientEmails PropertyManager.statOther
       PropertyManager.percentUsed].
  unfold PropertyManager.getAllProperties. rewrite categorize_total.
  cbn [PropertyManager.total].
  destruct (categorize_fold ps
              (PropertyManager.MkCategorized [] [] [] [] [] (List.length ps)) N)
    as (I1 & I2); [intros k _ []|].
  cbv zeta in I1, I2. unfold categorySizes in I1. simpl in I1, I2.
  repeat split; [exact I1|exact I2].
Qed.

Lemma statistics_add_up_witness :
  PropertyManager.statProcessedMessages (PropertyManager.getPropertyStats fullStore)
  = 46%nat.
Proof.
  destruct (statistics_add_up fullStore) as (_ & _ & H & _).
  - apply distinct_NoDup. vm_compute. reflexivity.
  - rewrite H. vm_compute. reflexivity.
Defined.

Lemma getPropertyStats_nearLimit (ps : Props) :
  PropertyManager.nearLimit (PropertyManager.getPropertyStats ps) =
  (45 <=? List.length ps)%nat.
Proof.
  unfold PropertyManager.getPropertyStats, PropertyManager.getAllProperties.
  cbn [PropertyManager.nearLimit]. now rewrite categorize_total.
Qed.

(** X11.  The emergency clean-up ([fixProperties] of [main.js]) leaves
    a store of fewer than forty-five properties alone; otherwise it
    takes away the processed messages dated more than three days back
    and nothing else, so no property other than a processed message is
    ever lost. *)
Theorem emergency_cleanup_spares_configuration :
  forall (now : Z) (ps : Props),
    ((List.length ps < 45)%nat ->
     fixProperties now ps =
       (ps, PropertyManager.MkEmergencyResult 0 None None "No cleanup needed")) /\
    ((45 <= List.length ps)%nat ->
     fst (fixProperties now ps) = deleteAll (expiredKeys (now - 3 * msPerDay) ps) ps) /\
    configuration (fst (fixProperties now ps)) = configuration ps.
Proof.
  intros now ps. unfold fixProperties, PropertyManager.emergencyCleanup.
  rewrite getPropertyStats_nearLimit.
  pose proof (cleanupProcessedMessages_store now 3 ps) as S.
  destruct (PropertyManager.cleanupProcessedMessages now 3 false ps) as [ps' result].
  cbn [fst] in S. subst ps'.
  destruct (45 <=? List.length ps)%nat eqn:F; cbn [negb fst].
  - apply Nat.leb_le in F. repeat split; [lia|].
    apply configuration_deleteAll, expiredKeys_keys.
  - apply Nat.leb_gt in F. repeat split. lia.
Qed.

(* ================================================================== *)
(** * The configured senders *)

Lemma setAdd_fold (a : list string) :
  forall seen,
    NoDup seen ->
    NoDup (fold_left setAdd a seen) /\
    (forall x, In x (fold_left setAdd a seen) <-> In x seen \/ In x a).
Proof.
  induction a as [|y r IH]; intros seen N; simpl.
  - split; [exact N|]. intuition.
  - assert (N' : NoDup (setAdd seen y)).
    { unfold setAdd. destruct (existsb (String.eqb y) seen) eqn:E; [exact N|].
      apply NoDup_app; [exact N|repeat constructor; intros []|].
      intros x Hx [Ey|[]]. subst x.
      assert (existsb (String.eqb y) seen = true)
        by (apply existsb_exists; exists y; split; [exact Hx|apply String.eqb_refl]).
      congruence. }
    destruct (IH (setAdd seen y) N') as (I1 & I2). split; [exact I1|].
    intros x. rewrite I2. unfold setAdd.
    destruct (existsb (String.eqb y) seen) eqn:E.
    + apply existsb_exists in E as (z & Hz & Ez). apply String.eqb_eq in Ez. subst z.
      intuition (subst; auto).
    + rewrite in_app_iff. simpl. intuition.
Qed.

Lemma setOf_spec (a : list string) :
  NoDup (setOf a) /\ (forall x, In x (setOf a) <-> In x a).
Proof.
  destruct (setAdd_fold a [] (NoDup_nil _)) as (N & I). split; [exact N|].
  intros x. rewrite I. simpl. intuition.
Qed.

Lemma pushConfigured_In (ps : Props) (key e : string) :
  In e (pushConfigured ps key) <->
  PropertiesService.getProperty ps key = Some e /\ e <> "".
Proof.
  unfold pushConfigured, getPropertyOptional, truthy.
  destruct (PropertiesService.getProperty ps key) as [v|]; simpl.
  - destruct (String.eqb v "") eqn:E; simpl.
    + apply String.eqb_eq in E. subst v. split; [intros []|].
      intros [H Hn]. inversion H. congruence.
    + apply String.eqb_neq in E. split.
      * intros [<-|[]]. now split.
      * intros [H _]. inversion H. now left.
  - split; [intros []|intros [H _]; discriminate].
Qed.

Lemma pushConfigured_other (ps : Props) (key v : string) (keys : list string) :
  ~ In key keys ->
  flat_map (pushConfigured (PropertiesService.setProperty ps key v)) keys =
  flat_map (pushConfigured ps) keys.
Proof.
  induction keys as [|k r IH]; simpl; intros Hk; [reflexivity|].
  rewrite IH by (intros H; apply Hk; now right). f_equal.
  unfold pushConfigured, getPropertyOptional. rewrite getProperty_set.
  assert (Hne : key <> k) by (intros ->; apply Hk; now left).
  apply String.eqb_neq in Hne. now rewrite Hne.
Qed.

(** X12.  The configured senders are the values, each once, that are
    not empty and stand under the legacy key or one of the keys
    [SENDER_EMAIL_1] to [SENDER_EMAIL_20]; a property under any other
    key, such as [SENDER_EMAIL_21], is never read. *)
Theorem configured_senders_are_what_the_keys_hold :
  forall ps : Props,
    NoDup (getConfiguredSenderEmails ps) /\
    (forall email, In email (getConfiguredSenderEmails ps) <->
       email <> "" /\
       exists key, In key senderEmailKeys /\
                   PropertiesService.getProperty ps key = Some email) /\
    (forall key v, ~ In key senderEmailKeys ->
       getConfiguredSenderEmails (PropertiesService.setProperty ps key v) =
       getConfiguredSenderEmails ps) /\
    ~ In "SENDER_EMAIL_21" senderEmailKeys.
Proof.
  intros ps. unfold getConfiguredSenderEmails.
  destruct (setOf_spec (flat_map (pushConfigured ps) senderEmailKeys)) as (N & I).
  split; [exact N|]. split; [|split].
  - intros email. rewrite I, in_flat_map. split.
    + intros (key & Hk & He). apply pushConfigured_In in He as (Hg & Hn).
      split; [exact Hn|]. now exists key.
    + intros (Hn & key & Hk & Hg). exists key. split; [exact Hk|].
      now apply pushConfigured_In.
  - intros key v Hk. f_equal. now apply pushConfigured_other.
  - intros H. apply existsb_eqb_In in H. vm_compute in H. discriminate.
Qed.

(* ================================================================== *)
(** * The hash of the recipients *)

(** X13.  The hash of a combination of recipients does not depend on
    the order in which they are listed; it is sixteen characters long;
    and without a list the answer is [default]. *)
Theorem recipient_hash_ignores_the_order :
  forall recipients1 recipients2 : list string,
    Permutation recipients1 recipients2 ->
    createRecipientHash (Some recipients1) = createRecipientHash (Some recipients2) /\
    String.length (createRecipientHash (Some recipients1)) = 16%nat /\
    createRecipientHash None = "default".
Proof.
  intros r1 r2 P. unfold createRecipientHash. cbn [deref bind catch].
  rewrite (sort_perm_eq r1 r2 P).
  split; [reflexivity|]. split; [apply hashOf_prefix_length|reflexivity].
Qed.

Lemma recipient_hash_ignores_the_order_witness :
  createRecipientHash (Some someRecipients) = createRecipientHash (Some sameRecipients).
Proof.
  apply (recipient_hash_ignores_the_order someRecipients sameRecipients).
  unfold someRecipients, sameRecipients.
  apply Permutation_sym, (Permutation_cons_app [_; _] []). simpl. apply Permutation_refl.
Defined.

(* ================================================================== *)
(** * The subject patterns *)

(** In the mode [any] the loop stops at the first pattern that matches;
    results without a match are all it has seen before. *)
Lemma testPatterns_any (subject : string) (patterns : list Pattern) :
  forall results checked,
    existsb patternIsMatch results = false ->
    match testPatterns "any" subject patterns results checked with
    | inl found =>
        isMatch found = true /\
        existsb (hits subject) patterns = true /\
        matchedPattern found = option_map patternString (find (hits subject) patterns)
    | inr (results', checked') =>
        existsb (hits subject) patterns = false /\
        existsb patternIsMatch results' = false /\
        find (hits subject) patterns = None
    end.
Proof.
  induction patterns as [|p rest IH]; intros results checked H.
  - simpl. auto.
  - cbn [testPatterns existsb find].
    assert (Hh : hits subject p =
                 match test p subject with Ok b => b | Throw _ => false end)
      by reflexivity.
    destruct (test p subject) as [b|e]; rewrite Hh.
    + destruct b; cbn [andb orb String.eqb Ascii.eqb Bool.eqb].
      * simpl. auto.
      * apply IH. rewrite existsb_app, H. reflexivity.
    + cbn [orb]. apply IH. rewrite existsb_app, H. reflexivity.
Qed.

(** In any other mode the loop sees every pattern. *)
Lemma testPatterns_all (matchMode subject : string) (patterns : list Pattern) :
  String.eqb matchMode "any" = false ->
  forall results checked,
    exists results',
      testPatterns matchMode subject patterns results checked =
        inr ((results ++ results')%list, (checked ++ map patternString patterns)%list) /\
      forallb patternIsMatch results' = forallb (hits subject) patterns.
Proof.
  intros M. induction patterns as [|p rest IH]; intros results checked.
  - exists []. simpl. now rewrite !List.app_nil_r.
  - cbn [testPatterns forallb map]. rewrite M. cbn [andb].
    assert (Hh : hits subject p =
                 match test p subject with Ok b => b | Throw _ => false end)
      by reflexivity.
    destruct (test p subject) as [b|e]; rewrite Hh.
    + destruct (IH (results ++ [MkPatternResult (patternString p) b None])%list
                   (checked ++ [patternString p])%list) as (r' & E & F).
      exists (MkPatternResult (patternString p) b None :: r').
      split; [rewrite E, <- !app_assoc; reflexivity|].
      cbn [forallb patternIsMatch]. now rewrite F.
    + destruct (IH (results ++ [MkPatternResult (patternString p) false (Some e)])%list
                   (checked ++ [patternString p])%list) as (r' & E & F).
      exists (MkPatternResult (patternString p) false (Some e) :: r').
      split; [rewrite E, <- !app_assoc; reflexivity|].
      cbn [forallb patternIsMatch]. now rewrite F.
Qed.

(** X14.  With the mode [any], which is also the mode when none is
    configured, a subject matches when some pattern answers that it
    does, and the pattern reported is the first such one; with any
    other mode it matches when every pattern answers that it does, so
    that a pattern that raises rejects every subject and an empty list
    of patterns accepts every subject.  When the multiple patterns are
    switched off, the legacy pattern alone decides, and a pattern that
    raises rejects the subject. *)
Theorem subject_matching_modes :
  forall (config : SubjectPatterns) (subject : string),
    ((MATCH_MODE config = None \/ MATCH_MODE config = Some "" \/
      MATCH_MODE config = Some "any") ->
     isMatch (checkMultiplePatterns config subject) =
       existsb (hits subject) (patternsOf config) /\
     matchedPattern (checkMultiplePatterns config subject) =
       option_map patternString (find (hits subject) (patternsOf config))) /\
    (forall m, MATCH_MODE config = Some m -> m <> "" -> m <> "any" ->
     isMatch (checkMultiplePatterns config subject) =
       forallb (hits subject) (patternsOf config) /\
     checkedPatterns (checkMultiplePatterns config subject) =
       map patternString (patternsOf config)) /\
    (forall legacy,
       isMatch (checkSubjectPattern (Some config) legacy subject) =
       if ENABLE_MULTIPLE_PATTERNS config
       then isMatch (checkMultiplePatterns config subject)
       else hits subject legacy).
Proof.
  intros config subject. split; [|split].
  - intros H. unfold checkMultiplePatterns. fold (patternsOf config).
    assert (M : match MATCH_MODE config with
                | Some m => if String.eqb m "" then "any" else m
                | None => "any"
                end = "any")
      by (destruct H as [-> |[-> | ->]]; reflexivity).
    rewrite M.
    pose proof (testPatterns_any subject (patternsOf config) [] [] eq_refl) as T.
    destruct (testPatterns "any" subject (patternsOf config) [] [])
      as [found|[results checked]].
    + destruct T as (T1 & T2 & T3). now rewrite T1, T2.
    + destruct T as (T1 & T2 & T3). simpl. now rewrite T1, T2, T3.
  - intros m Hm H1 H2. unfold checkMultiplePatterns. fold (patternsOf config).
    rewrite Hm. apply String.eqb_neq in H1, H2. rewrite H1.
    destruct (testPatterns_all m subject (patternsOf config) H2 [] [])
      as (r' & E & F).
    rewrite E. simpl. now rewrite H2, F.
  - intros legacy. unfold checkSubjectPattern, legacyMatch, hits.
    destruct (ENABLE_MULTIPLE_PATTERNS config); [reflexivity|].
    destruct (test legacy subject); reflexivity.
Qed.

Example configured_senders_example :
  getConfiguredSenderEmails senderStore =
  ["noreply@contracttool1.example.com"; "noreply@contracttool7.example.com"].
Proof. reflexivity. Qed.

Example broken_pattern_example :
  let subject := "Loan agreement signed" in
  isMatch (checkMultiplePatterns
             (MkSubjectPatterns true (Some "all") (Some [containsSigned; brokenPattern]))
             subject) = false /\
  matchedPattern (checkMultiplePatterns
                    (MkSubjectPatterns true None
                       (Some [brokenPattern; containsLoan; containsSigned]))
                    subject) = Some "/Loan/".
Proof. split; reflexivity. Qed.

(* ================================================================== *)
(** * The names of the saved files *)

Lemma split_nonempty (sep : ascii) (s : string) : Text.split sep s <> [].
Proof.
  destruct s as [|c r]; simpl; [discriminate|].
  destruct (Ascii.eqb c sep); [discriminate|].
  destruct (Text.split sep r); discriminate.
Qed.

Lemma concat_cons (sep x : string) (l : list string) :
  l <> [] -> String.concat sep (x :: l) = x ++ sep ++ String.concat sep l.
Proof. destruct l; [congruence|reflexivity]. Qed.

(** Joining the parts of a split gives the text back. *)
Lemma split_join (sep : ascii) (s : string) :
  String.concat (String sep EmptyString) (Text.split sep s) = s.
Proof.
  induction s as [|c r IH]; [reflexivity|]. cbn [Text.split].
  pose proof (split_nonempty sep r) as N.
  destruct (Ascii.eqb c sep) eqn:E.
  - apply Ascii.eqb_eq in E. subst c.
    rewrite concat_cons by exact N. simpl. now rewrite IH.
  - destruct (Text.split sep r) as [|h t]; [congruence|].
    destruct t as [|h' t'].
    + simpl in *. now rewrite IH.
    + rewrite concat_cons by discriminate.
      rewrite concat_cons in IH by discriminate.
      cbn [append] in *. now rewrite IH.
Qed.

Lemma string_app_assoc (a b c : string) : (a ++ b) ++ c = a ++ (b ++ c).
Proof. induction a; simpl; congruence. Qed.

Lemma concat_snoc (sep x : string) (l : list string) :
  l <> [] -> String.concat sep (l ++ [x]) = String.concat sep l ++ sep ++ x.
Proof.
  induction l as [|y r IH]; [congruence|]. intros _.
  destruct r as [|z r'].
  - reflexivity.
  - change ((y :: z :: r') ++ [x])%list with (y :: ((z :: r') ++ [x]))%list.
    rewrite (concat_cons sep y ((z :: r') ++ [x])) by (simpl; discriminate).
    rewrite IH by discriminate.
    rewrite (concat_cons sep y (z :: r')) by discriminate.
    now rewrite !string_app_assoc.
Qed.

Lemma string_app_nil_r (s : string) : s ++ "" = s.
Proof. induction s; simpl; congruence. Qed.

(** The base name and the extension make up the name. *)
Lemma splitName_join (fileName : string) :
  fst (splitName fileName) ++ snd (splitName fileName) = fileName.
Proof.
  unfold splitName.
  pose proof (split_join "." fileName) as J.
  pose proof (split_nonempty "." fileName) as N.
  destruct (1 <? List.length (Text.split "." fileName))%nat eqn:L; cbn [fst snd].
  - rewrite (app_removelast_last "" N) in J at 1.
    rewrite concat_snoc in J; [exact J|].
    apply Nat.ltb_lt in L.
    destruct (Text.split "." fileName) as [|a [|b t]]; simpl in *; try lia; discriminate.
  - rewrite string_app_nil_r. exact J.
Qed.

Lemma candidate_length (b e : string) (c : nat) :
  (String.length (b ++ e) < String.length (candidate b e c))%nat.
Proof.
  unfold candidate. rewrite !string_length_app. simpl. lia.
Qed.

Lemma candidate_inj (b e : string) (c1 c2 : nat) :
  candidate b e c1 = candidate b e c2 -> c1 = c2.
Proof.
  unfold candidate. intros H.
  apply string_app_inv_head in H. injection H as H.
  apply string_app_inj_tail in H as [H _]; [|reflexivity].
  apply showZ_inj in H. lia.
Qed.

Lemma map_NoDup_inj {A B : Type} (f : A -> B) (l : list A) :
  (forall x y, f x = f y -> x = y) -> NoDup l -> NoDup (map f l).
Proof.
  intros I N. induction N as [|a r Ha Hr IH]; simpl; constructor; [|exact IH].
  intros H. apply in_map_iff in H as (x & E & Hx). apply I in E. now subst.
Qed.

Lemma hasFile_In (folder : list string) (name : string) :
  hasFile folder name = true <-> In name folder.
Proof.
  unfold hasFile. rewrite existsb_exists. split.
  - intros (x & Hx & E). apply String.eqb_eq in E. now subst.
  - intros H. exists name. split; [exact H|apply String.eqb_refl].
Qed.

(** The loop answers with the first free candidate, or with the last
    one that it tried. *)
Lemma uniqueNameFrom_spec (folder : list string) (b e : string) (more : nat) :
  forall counter,
    exists c,
      (counter <= c <= counter + more)%nat /\
      uniqueNameFrom folder b e more counter = candidate b e c /\
      (forall c', (counter <= c' < c)%nat -> In (candidate b e c') folder) /\
      (In (candidate b e c) folder -> c = (counter + more)%nat).
Proof.
  induction more as [|more IH]; intros counter; cbn [uniqueNameFrom].
  - exists counter. destruct (hasFile folder (candidate b e counter)); simpl;
      repeat split; try lia; intros; lia.
  - destruct (hasFile folder (candidate b e counter)) eqn:F; simpl.
    + destruct (IH (S counter)) as (c & R & E & B & L).
      exists c. split; [lia|]. split; [exact E|]. split.
      * intros c' Hc. destruct (Nat.eq_dec c' counter) as [->|Hn].
        -- now apply hasFile_In.
        -- apply B. lia.
      * intros H. rewrite (L H). lia.
    + exists counter. split; [lia|]. split; [reflexivity|]. split.
      * intros c' Hc. lia.
      * intros H. apply hasFile_In in H. congruence.
Qed.

Lemma ensureUniqueFilename_cases (now : Z) (folder : list string) (fileName : string) :
  (~ In fileName folder /\ ensureUniqueFilename true now folder fileName = fileName) \/
  (In fileName folder /\
   exists c, (1 <= c <= 99)%nat /\
     ensureUniqueFilename true now folder fileName =
       candidate (fst (splitName fileName)) (snd (splitName fileName)) c /\
     (forall c', (1 <= c' < c)%nat ->
        In (candidate (fst (splitName fileName)) (snd (splitName fileName)) c') folder) /\
     (In (candidate (fst (splitName fileName)) (snd (splitName fileName)) c) folder ->
      c = 99%nat)).
Proof.
  unfold ensureUniqueFilename. cbn [openFolder bind catch].
  destruct (hasFile folder fileName) eqn:F; cbn [negb].
  - right. split; [now apply hasFile_In|].
    destruct (splitName fileName) as [b e]. cbn [fst snd catch].
    destruct (uniqueNameFrom_spec folder b e 98 1) as (c & R & E & B & L).
    exists c. split; [lia|]. split; [exact E|]. split; [exact B|].
    intros H. rewrite (L H). reflexivity.
  - left. split; [|reflexivity]. intros H. apply hasFile_In in H. congruence.
Qed.

(** A folder of fewer than a hundred files cannot hold the name and
    all of its variants. *)
Lemma ensureUniqueFilename_fresh (now : Z) (folder : list string) (fileName : string) :
  (List.length folder < 100)%nat ->
  ~ In (ensureUniqueFilename true now folder fileName) folder.
Proof.
  intros L.
  destruct (ensureUniqueFilename_cases now folder fileName)
    as [(Hn & E)|(Hi & c & R & E & B & Last)]; [now rewrite E|].
  rewrite E. intros Hc. specialize (Last Hc). subst c.
  assert (CL : forall c', (String.length fileName <
                String.length (candidate (fst (splitName fileName))
                                 (snd (splitName fileName)) c'))%nat).
  { intros c'. pose proof (candidate_length (fst (splitName fileName))
                             (snd (splitName fileName)) c') as H.
    now rewrite splitName_join in H. }
  set (b := fst (splitName fileName)) in *. set (e := snd (splitName fileName)) in *.
  assert (I : incl (fileName :: map (candidate b e) (seq 1 99)) folder).
  { intros x [<-|Hx]; [exact Hi|].
    apply in_map_iff in Hx as (c' & <- & Hc'). apply in_seq in Hc'.
    destruct (Nat.eq_dec c' 99) as [->|Hne]; [exact Hc|apply B; lia]. }
  assert (N : NoDup (fileName :: map (candidate b e) (seq 1 99))).
  { constructor.
    - intros Hx. apply in_map_iff in Hx as (c' & Ec & _).
      specialize (CL c'). rewrite Ec in CL. lia.
    - apply map_NoDup_inj; [|apply seq_NoDup].
      intros x y. apply candidate_inj. }
  apply NoDup_incl_length in I; [|exact N].
  cbn [List.length] in I. rewrite length_map, length_seq in I. lia.
Qed.

(** X15.  In a folder of fewer than a hundred files the name that
    [ensureUniqueFilename] answers is not the name of a file of the
    folder; it is the name asked for when that one is free, and
    otherwise the base name, a counter from 1 to 99 and the extension of
    the name asked for. *)
Theorem unique_name_is_fresh :
  forall (now : Z) (folder : list string) (fileName : string),
    (List.length folder < 100)%nat ->
    ~ In (ensureUniqueFilename true now folder fileName) folder /\
    (~ In fileName folder -> ensureUniqueFilename true now folder fileName = fileName) /\
    (In fileName folder ->
     exists counter, (1 <= counter <= 99)%nat /\
       ensureUniqueFilename true now folder fileName =
       candidate (fst (splitName fileName)) (snd (splitName fileName)) counter).
Proof.
  intros now folder fileName L.
  split; [now apply ensureUniqueFilename_fresh|].
  destruct (ensureUniqueFilename_cases now folder fileName)
    as [(Hn & E)|(Hi & c & R & E & _)].
  - split; [intros _; exact E|intros H; contradiction].
  - split; [intros H; contradiction|intros _; now exists c].
Qed.

Lemma unique_name_is_fresh_witness :
  ~ In (ensureUniqueFilename true june22
          ["20240622_loan_agreement.pdf"; "20240622_loan_agreement_1.pdf"]
          "20240622_loan_agreement.pdf")
       ["20240622_loan_agreement.pdf"; "20240622_loan_agreement_1.pdf"].
Proof.
  apply (unique_name_is_fresh june22
           ["20240622_loan_agreement.pdf"; "20240622_loan_agreement_1.pdf"]
           "20240622_loan_agreement.pdf").
  simpl. lia.
Defined.

(** X16.  When the folder holds the name asked for and all of its
    ninety-nine numbered variants, [ensureUniqueFilename] gives up: it
    answers with the ninety-ninth variant, which is the name of a file
    of the folder. *)
Theorem unique_name_gives_up_after_99 :
  forall (now : Z) (folder : list string) (fileName : string),
    In fileName folder ->
    (forall counter, (1 <= counter <= 99)%nat ->
       In (candidate (fst (splitName fileName)) (snd (splitName fileName)) counter)
          folder) ->
    ensureUniqueFilename true now folder fileName =
      candidate (fst (splitName fileName)) (snd (splitName fileName)) 99 /\
    In (ensureUniqueFilename true now folder fileName) folder.
Proof.
  intros now folder fileName Hi All.
  destruct (ensureUniqueFilename_cases now folder fileName)
    as [(Hn & E)|(_ & c & R & E & B & Last)]; [contradiction|].
  assert (c = 99%nat) by (apply Last, All; exact R). subst c.
  rewrite E. split; [reflexivity|]. apply All. lia.
Qed.

Lemma unique_name_gives_up_after_99_witness :
  ensureUniqueFilename true june22 crowdedFolder "20240622_loan_agreement.pdf" =
  "20240622_loan_agreement_99.pdf".
Proof.
  destruct (unique_name_gives_up_after_99 june22 crowdedFolder
              "20240622_loan_agreement.pdf") as (H & _).
  - now left.
  - intros counter Hc. right.
    change (fst (splitName "20240622_loan_agreement.pdf")) with "20240622_loan_agreement".
    change (snd (splitName "20240622_loan_agreement.pdf")) with ".pdf".
    apply in_map, in_seq. lia.
  - rewrite H. vm_compute. reflexivity.
Defined.

(** ** The name under which an attachment is saved *)

Lemma allChars_app (cls : ascii -> bool) (a b : string) :
  allChars cls (a ++ b) = allChars cls a && allChars cls b.
Proof.
  unfold allChars. induction a as [|c r IH]; simpl; [reflexivity|].
  now rewrite IH, andb_assoc.
Qed.

Lemma allChars_weaken (P Q : ascii -> bool) (s : string) :
  (forall c, P c = true -> Q c = true) ->
  allChars P s = true -> allChars Q s = true.
Proof.
  unfold allChars. intros W. induction s as [|c r IH]; simpl; [reflexivity|].
  intros H. apply andb_true_iff in H as [H1 H2].
  now rewrite (W c H1), IH.
Qed.

Lemma uint_chars (d : Decimal.uint) :
  allChars JS.isDigit (NilEmpty.string_of_uint d) = true.
Proof. unfold allChars. induction d; simpl; try reflexivity; exact IHd. Qed.

Lemma showZ_chars (n : Z) : allChars isNumeric (JS.showZ n) = true.
Proof.
  assert (U : forall d, allChars isNumeric (NilEmpty.string_of_uint d) = true).
  { intros d. apply (allChars_weaken JS.isDigit); [|apply uint_chars].
    intros c H. unfold isNumeric. now rewrite H. }
  unfold JS.showZ. destruct n as [|p|p]; simpl.
  - reflexivity.
  - apply U.
  - unfold allChars. simpl. apply U.
Qed.

Lemma pad_chars (width : nat) (n : Z) : allChars isNumeric (Platform.pad width n) = true.
Proof.
  unfold Platform.pad. rewrite allChars_app, showZ_chars, andb_true_r.
  generalize (width - String.length (JS.showZ n))%nat. intros k.
  unfold allChars. induction k as [|k IH]; simpl; [reflexivity|exact IH].
Qed.

Lemma formatDay_chars (t : Z) : allChars isNumeric (formatDay t) = true.
Proof.
  unfold formatDay.
  destruct (Platform.civil_from_days _) as [[y m] d].
  now rewrite !allChars_app, !pad_chars.
Qed.

Lemma formatClock_chars (t : Z) : allChars isNumeric (formatClock t) = true.
Proof. unfold formatClock. now rewrite !allChars_app, !pad_chars. Qed.

Lemma numeric_is_valid (c : ascii) :
  isNumeric c = true -> negb (isInvalidForName c) = true.
Proof.
  unfold isNumeric, isInvalidForName, JS.isDigit, JS.between, invalidCodes.
  generalize (JS.code c). intros z H. simpl.
  apply orb_true_iff in H as [H|H].
  - apply andb_true_iff in H as [H1 H2]. apply Z.leb_le in H1, H2.
    repeat (match goal with
            | |- context [?a =? ?b] => destruct (Z.eqb_spec a b); [lia|]
            end). reflexivity.
  - apply Z.eqb_eq in H. subst z. reflexivity.
Qed.

Lemma replaceClass_valid (s : string) :
  validName (Text.replaceClass isInvalidForName "_" s) = true.
Proof.
  unfold validName, allChars. induction s as [|c r IH]; simpl; [reflexivity|].
  rewrite IH, andb_true_r. destruct (isInvalidForName c) eqn:E; [reflexivity|].
  now rewrite E.
Qed.

Lemma skipSpaces_chars (cls : ascii -> bool) (s : string) :
  allChars cls s = true -> allChars cls (JS.skipSpaces s) = true.
Proof.
  unfold allChars. induction s as [|c r IH]; simpl; [reflexivity|].
  intros H. destruct (JS.isSpace c); [|exact H].
  apply andb_true_iff in H as [_ H]. now apply IH.
Qed.

Lemma trimEnd_chars (cls : ascii -> bool) (s : string) :
  allChars cls s = true -> allChars cls (Text.trimEnd s) = true.
Proof.
  unfold allChars. induction s as [|c r IH]; simpl; [reflexivity|].
  intros H. apply andb_true_iff in H as [H1 H2]. specialize (IH H2).
  destruct (Text.trimEnd r) as [|c' r'].
  - destruct (JS.isSpace c); simpl; [reflexivity|now rewrite H1].
  - simpl in *. now rewrite H1, IH.
Qed.

Lemma trim_chars (cls : ascii -> bool) (s : string) :
  allChars cls s = true -> allChars cls (Text.trim s) = true.
Proof. intros H. unfold Text.trim. now apply trimEnd_chars, skipSpaces_chars. Qed.

Lemma generateDatePrefixedFilename_valid (now : Z) (dateStr : string) (index : nat)
    (originalName : option string) :
  validName dateStr = true ->
  validName (generateDatePrefixedFilename now dateStr index originalName) = true.
Proof.
  intros D. unfold generateDatePrefixedFilename.
  assert (F : validName (dateStr ++ "_attachment_" ++ JS.showZ (Z.of_nat index + 1) ++
                         "_" ++ formatClock now) = true).
  { unfold validName. rewrite !allChars_app. fold (validName dateStr). rewrite D.
    rewrite (allChars_weaken isNumeric _ _ numeric_is_valid (showZ_chars _)).
    rewrite (allChars_weaken isNumeric _ _ numeric_is_valid (formatClock_chars _)).
    reflexivity. }
  destruct originalName as [name|]; [|exact F].
  destruct (truthy (Some name) && truthy (Some (Text.trim name))); [|exact F].
  unfold validName. rewrite !allChars_app. fold (validName dateStr). rewrite D.
  cbn [andb]. rewrite andb_true_iff. split; [reflexivity|].
  apply trim_chars, replaceClass_valid.
Qed.

Lemma prefix_app (p s : string) : String.prefix p (p ++ s) = true.
Proof.
  induction p as [|c r IH]; simpl; [now destruct s|].
  destruct (ascii_dec c c) as [_|N]; [exact IH|congruence].
Qed.

Lemma prefix_refl_nil (s : string) : String.prefix "" s = true.
Proof. now destruct s. Qed.

(** A prefix without a dot lies before the first dot. *)
Lemma prefix_before_dot (base : string) :
  forall p rest,
    String.prefix p (base ++ String "." rest) = true ->
    allChars (fun c => negb (Ascii.eqb c ".")) p = true ->
    String.prefix p base = true.
Proof.
  induction base as [|c b IH]; intros p rest H N.
  - destruct p as [|d p']; [reflexivity|]. simpl in H.
    destruct (ascii_dec d "."%char) as [->|Hd]; [|discriminate].
    unfold allChars in N. simpl in N. discriminate.
  - destruct p as [|d p']; [reflexivity|]. simpl in *.
    destruct (ascii_dec d c) as [->|Hd]; [|discriminate].
    apply (IH p' rest H). unfold allChars in *. simpl in N.
    now apply andb_true_iff in N as [_ N].
Qed.

Lemma prefix_trans_app (p a b : string) :
  String.prefix p a = true -> String.prefix p (a ++ b) = true.
Proof.
  revert a. induction p as [|c r IH]; intros a H; [apply prefix_refl_nil|].
  destruct a as [|d a']; [discriminate|]. simpl in *.
  destruct (ascii_dec c d); [now apply IH|discriminate].
Qed.

Lemma splitName_extension (fileName : string) :
  snd (splitName fileName) = "" \/
  exists rest, snd (splitName fileName) = String "." rest.
Proof.
  unfold splitName. destruct (1 <? _)%nat; cbn [snd]; [right|now left].
  eexists. reflexivity.
Qed.

Lemma numeric_no_dot (c : ascii) : isNumeric c = true -> negb (Ascii.eqb c ".") = true.
Proof.
  intros H. destruct (Ascii.eqb c ".") eqn:E; [|reflexivity].
  apply Ascii.eqb_eq in E. subst c. discriminate H.
Qed.

(** X17.  The name under which [saveAttachmentToDrive] stores an
    attachment in a folder of fewer than a hundred files is not the
    name of a file of the folder, contains none of the characters that
    are invalid in a file name, and begins with the day of the message
    at +09:00 and an underscore; the folder gains this one file. *)
Theorem saved_name_is_new_and_clean :
  forall (now : Z) (created : string -> Exc string) (folder : list string)
         (attachment : Attachment) (index : nat) (emailDate : Z)
         (folder' : list string) (name url : string),
    saveAttachmentToDrive true now created folder attachment index emailDate =
      Ok (folder', (name, url)) ->
    (List.length folder < 100)%nat ->
    folder' = (folder ++ [name])%list /\
    ~ In name folder /\
    (NoDup folder -> NoDup folder') /\
    validName name = true /\
    JS.startsWith (formatDay emailDate ++ "_") name = true.
Proof.
  intros now created folder attachment index emailDate folder' name url H L.
  unfold saveAttachmentToDrive in H.
  set (safe := generateDatePrefixedFilename now (formatDay emailDate) index
                 (Some (attName attachment))) in *.
  destruct (created (ensureUniqueFilename true now folder safe)) as [u|e];
    [|discriminate]. cbn [bind] in H. injection H as <- <- <-.
  pose proof (ensureUniqueFilename_fresh now folder safe L) as Fresh.
  assert (Same : ~ In safe folder -> ensureUniqueFilename true now folder safe = safe).
  { intros Hn.
    destruct (ensureUniqueFilename_cases now folder safe) as [(_ & E)|(Hi & _)];
      [exact E|contradiction]. }
  assert (Other : In safe folder ->
                  exists counter, (1 <= counter <= 99)%nat /\
                    ensureUniqueFilename true now folder safe =
                    candidate (fst (splitName safe)) (snd (splitName safe)) counter).
  { intros Hi.
    destruct (ensureUniqueFilename_cases now folder safe)
      as [(Hn & _)|(_ & c & R & E & _)]; [contradiction|now exists c]. }
  assert (DV : validName (formatDay emailDate) = true)
    by (apply (allChars_weaken isNumeric _ _ numeric_is_valid), formatDay_chars).
  assert (SV : validName safe = true)
    by (apply generateDatePrefixedFilename_valid, DV).
  assert (SP : String.prefix (formatDay emailDate ++ "_") safe = true).
  { unfold safe, generateDatePrefixedFilename.
    destruct (truthy _ && truthy _).
    - rewrite <- string_app_assoc. apply prefix_app.
    - change "_attachment_" with ("_" ++ "attachment_").
      rewrite (string_app_assoc "_" "attachment_"), <- (string_app_assoc _ "_").
      apply prefix_app. }
  split; [reflexivity|]. split; [exact Fresh|]. split.
  { intros N. apply NoDup_app; [exact N|repeat constructor; intros []|].
    intros x Hx [<-|[]]. contradiction. }
  destruct (in_dec string_dec safe folder) as [Hin|Hout].
  - destruct (Other Hin) as (c & _ & E). rewrite E.
    pose proof (splitName_join safe) as J.
    pose proof (splitName_extension safe) as X.
    destruct (splitName safe) as [b e]. cbn [fst snd] in *.
    assert (BE : validName b = true /\ validName e = true).
    { rewrite <- J in SV. unfold validName in *. rewrite allChars_app in SV.
      now apply andb_true_iff in SV. }
    destruct BE as [Vb Ve]. split.
    + unfold candidate, validName. rewrite !allChars_app.
      fold (validName b) (validName e). rewrite Vb, Ve.
      now rewrite (allChars_weaken isNumeric _ _ numeric_is_valid (showZ_chars _)).
    + assert (PB : String.prefix (formatDay emailDate ++ "_") b = true).
      { destruct X as [E0|(rest & E1)].
        - rewrite E0, string_app_nil_r in J. now rewrite J.
        - rewrite E1 in J. rewrite <- J in SP.
          apply (prefix_before_dot b _ rest SP).
          rewrite allChars_app.
          now rewrite (allChars_weaken isNumeric _ _ numeric_no_dot (formatDay_chars _)). }
      unfold JS.startsWith, candidate. now apply prefix_trans_app.
  - rewrite (Same Hout). split; [exact SV|exact SP].
Qed.

Lemma saved_name_is_new_and_clean_witness :
  ~ In "20240622_loan_agreement_1.pdf" ["20240622_loan_agreement.pdf"] /\
  validName "20240622_loan_agreement_1.pdf" = true.
Proof.
  destruct (saved_name_is_new_and_clean (june22 + 300000)
              (fun _ => Ok "https://drive.example.com/file/2")
              ["20240622_loan_agreement.pdf"] (MkAttachment "loan_agreement.pdf")
              0 june22
              ["20240622_loan_agreement.pdf"; "20240622_loan_agreement_1.pdf"]
              "20240622_loan_agreement_1.pdf" "https://drive.example.com/file/2")
    as (_ & H1 & _ & H2 & _).
  - vm_compute. reflexivity.
  - simpl. lia.
  - split; [exact H1|exact H2].
Defined.

(* ================================================================== *)
(** * Maintenance of the processing ledger *)

Lemma deleteRow_middle {A : Type} (before rest : list A) (row : A) :
  deleteRow (List.length before) (before ++ row :: rest) = (before ++ rest)%list.
Proof.
  unfold deleteRow. induction before as [|a b IH]; [reflexivity|].
  cbn [List.length firstn skipn app] in *. f_equal. exact IH.
Qed.

Lemma firstn_succ (data : list ProcessedRow) :
  forall i row, nth_error data i = Some row ->
                firstn (S i) data = (firstn i data ++ [row])%list.
Proof.
  induction data as [|a d IH]; intros [|i] row H; simpl in *; try discriminate.
  - now inversion H.
  - now rewrite (IH i row H).
Qed.

Lemma deleteRow_last (i : nat) (data rest : list ProcessedRow) (row : ProcessedRow) :
  nth_error data i = Some row ->
  deleteRow i (firstn (S i) data ++ rest) = (firstn i data ++ rest)%list.
Proof.
  intros H.
  assert (L : List.length (firstn i data) = i).
  { apply firstn_length_le. apply Nat.lt_le_incl, nth_error_Some. congruence. }
  rewrite (firstn_succ data i row H), <- app_assoc. simpl.
  rewrite <- L at 1. apply deleteRow_middle.
Qed.

(** The rounds from [next] down delete the old rows among the first
    [next] ones and leave the rest of the sheet alone. *)
Lemma deleteOldRows_spec (cutoffDate : Z) (data : list ProcessedRow) :
  forall next rest removedCount,
    (next <= List.length data)%nat ->
    deleteOldRows cutoffDate data next (firstn next data ++ rest) removedCount =
    ((filter (keptRow cutoffDate) (firstn next data) ++ rest)%list,
     (removedCount +
      (next - List.length (filter (keptRow cutoffDate) (firstn next data))))%nat).
Proof.
  induction next as [|i IH]; intros rest removedCount L.
  - simpl. f_equal. lia.
  - cbn [deleteOldRows].
    destruct (nth_error data i) as [row|] eqn:N;
      [|apply nth_error_None in N; lia].
    pose proof (firstn_succ data i row N) as E.
    assert (FL : (List.length (filter (keptRow cutoffDate) (firstn i data)) <= i)%nat).
    { etransitivity; [apply filter_length_le|]. rewrite length_firstn. lia. }
    assert (FE : filter (keptRow cutoffDate) (firstn (S i) data) =
                 (filter (keptRow cutoffDate) (firstn i data) ++
                  (if processingDate row <? cutoffDate then [] else [row]))%list).
    { rewrite E, filter_app. cbn [filter]. unfold keptRow at 2.
      now destruct (processingDate row <? cutoffDate). }
    rewrite FE, length_app.
    destruct (processingDate row <? cutoffDate) eqn:O.
    + rewrite (deleteRow_last i data rest row N).
      rewrite (IH rest (S removedCount)) by lia.
      rewrite List.app_nil_r. cbn [List.length]. f_equal. lia.
    + rewrite E, <- !app_assoc. cbn [app List.length].
      rewrite (IH (row :: rest) removedCount) by lia.
      f_equal. lia.
Qed.

Lemma scanProcessed_In (rows : list ProcessedRow) (id : string) :
  scanProcessed rows id = true <-> exists row, In row rows /\ rowMessageId row = id.
Proof.
  induction rows as [|row rest IH]; simpl.
  - split; [discriminate|intros (r & [] & _)].
  - destruct (String.eqb (rowMessageId row) id) eqn:E.
    + apply String.eqb_eq in E. split; [|reflexivity]. intros _. exists row. auto.
    + apply String.eqb_neq in E. rewrite IH. split.
      * intros (r & Hr & Hi). exists r. auto.
      * intros (r & [<-|Hr] & Hi); [contradiction|]. now exists r.
Qed.

(** X18.  The clean-up of the processing ledger, which deletes from
    the bottom row upwards, takes away exactly the rows that are dated
    before the cut-off: the rows that stay are the others, in their
    order, and the count returned is the number of rows that went.  The
    content ledger and the script properties are as before; a message
    all of whose rows went is no longer found in the ledger. *)
Theorem ledger_cleanup_removes_the_old_rows :
  forall (now daysOld : Z) (w : World),
    truthy (getPropertyOptional (props w) "SPREADSHEET_ID") = true ->
    let cutoffDate := now - daysOld * msPerDay in
    let w' := fst (cleanupSpreadsheetOld true now daysOld w) in
    let removedCount := snd (cleanupSpreadsheetOld true now daysOld w) in
    processedSheet w' = filter (keptRow cutoffDate) (processedSheet w) /\
    (removedCount + List.length (processedSheet w') =
     List.length (processedSheet w))%nat /\
    contentSheet w' = contentSheet w /\ props w' = props w /\
    (forall id,
       (forall row, In row (processedSheet w) -> rowMessageId row = id ->
                    processingDate row < cutoffDate) ->
       isMessageProcessedInSpreadsheet true w' id = false).
Proof.
  intros now daysOld w HS. cbv zeta.
  unfold cleanupSpreadsheetOld, cleanupOldProcessedEntriesFromSpreadsheet.
  rewrite HS. cbn [negb openSheet bind].
  change (24 * 60 * 60 * 1000) with msPerDay.
  set (cutoffDate := now - daysOld * msPerDay).
  assert (R : forall w', processedSheet w' = filter (keptRow cutoffDate) (processedSheet w) ->
              props w' = props w ->
              forall id,
                (forall row, In row (processedSheet w) -> rowMessageId row = id ->
                             processingDate row < cutoffDate) ->
                isMessageProcessedInSpreadsheet true w' id = false).
  { intros w' E P id Old. rewrite isMessageProcessedInSpreadsheet_eq, P, HS, E. simpl.
    destruct (scanProcessed _ id) eqn:S; [|reflexivity].
    apply scanProcessed_In in S as (row & Hr & Hi).
    apply filter_In in Hr as [Hr K]. specialize (Old row Hr Hi).
    unfold keptRow in K. apply negb_true_iff, Z.ltb_ge in K. lia. }
  destruct (processedSheet w) as [|r0 rows] eqn:D.
  - cbn [catch fst snd]. rewrite D. simpl. repeat split; auto.
  - pose proof (deleteOldRows_spec cutoffDate (r0 :: rows)
                  (List.length (r0 :: rows)) [] 0 (Nat.le_refl _)) as S.
    rewrite firstn_all, !List.app_nil_r in S. rewrite S. cbn [catch fst snd].
    cbn [processedSheet contentSheet props withProcessed].
    pose proof (filter_length_le (keptRow cutoffDate) (r0 :: rows)) as FL.
    repeat split; try lia.
    intros id Old. now apply (R (withProcessed w (filter (keptRow cutoffDate) (r0 :: rows)))).
Qed.

Lemma ledger_cleanup_removes_the_old_rows_witness :
  map rowMessageId (processedSheet (fst (cleanupSpreadsheetOld true june22 7 agedWorld)))
  = ["18f3a1"].
Proof.
  destruct (ledger_cleanup_removes_the_old_rows june22 7 agedWorld) as (H & _).
  - reflexivity.
  - rewrite H. vm_compute. reflexivity.
Defined.

(* ================================================================== *)
(** * The ledgers over a run *)

(** The handling of a message adds at most one row to the processing
    ledger, with the status [Success], and takes none away. *)
Lemma handleMessage_processed o w m :
  exists more,
    processedSheet (fst (handleMessage o w m)) = (processedSheet w ++ more)%list /\
    Forall (fun row => rowStatus row = "Success") more.
Proof.
  unfold handleMessage.
  destruct (inTrash m); [exists []; now rewrite List.app_nil_r|].
  destruct (isMessageAlreadyProcessed o w m); [exists []; now rewrite List.app_nil_r|].
  destruct (processMessage_frame o w m) as (F1 & F2 & _). cbv zeta in F1, F2.
  destruct (processMessage o w m) as [w1 done]. cbn [fst] in *.
  destruct done; cbn [fst]; [|exists []; now rewrite List.app_nil_r].
  rewrite markMessageAsProcessed_eq.
  destruct (_ && _); [|exists []; now rewrite List.app_nil_r].
  eexists. cbn [processedSheet withProcessed]. rewrite F2. split; [reflexivity|].
  repeat constructor.
Qed.

Lemma processEmails_processed (found : list (Outcomes * Message)) :
  forall w,
    props (processEmails w found) = props w /\
    exists more,
      processedSheet (processEmails w found) = (processedSheet w ++ more)%list /\
      Forall (fun row => rowStatus row = "Success") more.
Proof.
  unfold processEmails.
  induction found as [|[o m] rest IH]; intros w; cbn [fold_left fst snd].
  - split; [reflexivity|]. exists []. now rewrite List.app_nil_r.
  - destruct (IH (fst (handleMessage o w m))) as (P & more & E & S).
    destruct (handleMessage_processed o w m) as (more0 & E0 & S0).
    split; [now rewrite P, handleMessage_props|].
    exists (more0 ++ more)%list. split.
    + now rewrite E, E0, app_assoc.
    + apply Forall_app. now split.
Qed.

Lemma countRow_fold (recentCutoff : Z) (data : list ProcessedRow) :
  forall recent errors,
    let result := fold_left (countRow recentCutoff) data (recent, errors) in
    (fst result <= recent + List.length data)%nat /\
    (snd result <= errors + List.length data)%nat /\
    (Forall (fun row => rowStatus row <> "Error") data -> snd result = errors).
Proof.
  induction data as [|row rest IH]; intros recent errors; cbn [fold_left].
  - cbn [fst snd List.length]. repeat split; lia.
  - unfold countRow at 2 4 6.
    specialize (IH (if recentCutoff <=? processingDate row then S recent else recent)
                   (if String.eqb (rowStatus row) "Error" then S errors else errors)).
    cbv zeta in IH. destruct IH as (I1 & I2 & I3). cbv zeta. cbn [List.length].
    destruct (recentCutoff <=? processingDate row);
      destruct (String.eqb (rowStatus row) "Error") eqn:E;
      (split; [lia|]); (split; [lia|]); intros F; inversion F as [|? ? Hr Hf]; subst;
      try (apply String.eqb_eq in E; contradiction); now apply I3.
Qed.

(** X19.  The coordinator never writes the status [Error]: after any
    run over a ledger without such a row the statistics of the
    processed messages count no error, whatever became of the messages
    of the run; the rows that the run added all say [Success]. *)
Theorem statistics_count_no_error :
  forall (w : World) (found : list (Outcomes * Message)) (up : bool) (now : Z),
    (forall row, In row (processedSheet w) -> rowStatus row <> "Error") ->
    statsErrors (getProcessedMessageStats up now (processEmails w found)) = 0%nat /\
    (forall row, In row (processedSheet (processEmails w found)) ->
                 In row (processedSheet w) \/ rowStatus row = "Success") /\
    (statsRecent (getProcessedMessageStats up now (processEmails w found)) <=
     statsTotal (getProcessedMessageStats up now (processEmails w found)))%nat.
Proof.
  intros w found up now H.
  destruct (processEmails_processed found w) as (P & more & E & S).
  assert (A : forall row, In row (processedSheet (processEmails w found)) ->
                          In row (processedSheet w) \/ rowStatus row = "Success").
  { intros row Hr. rewrite E in Hr. apply in_app_or in Hr as [Hr|Hr]; [now left|].
    right. rewrite Forall_forall in S. now apply S. }
  assert (N : Forall (fun row => rowStatus row <> "Error")
                (processedSheet (processEmails w found))).
  { apply Forall_forall. intros row Hr. destruct (A row Hr) as [Ho|Hs].
    - now apply H.
    - rewrite Hs. discriminate. }
  unfold getProcessedMessageStats.
  destruct (truthy _); cbn [negb catch statsErrors statsRecent statsTotal];
    [|repeat split; [exact A|lia]].
  destruct up; cbn [openSheet bind catch statsErrors statsRecent statsTotal];
    [|repeat split; [exact A|lia]].
  destruct (processedSheet (processEmails w found)) as [|r0 rows] eqn:D;
    cbn [catch statsErrors statsRecent statsTotal]; [repeat split; [exact A|lia]|].
  destruct (countRow_fold (now - 7 * 24 * 60 * 60 * 1000) (r0 :: rows) 0 0)
    as (C1 & C2 & C3). cbv zeta in C1, C2, C3.
  destruct (fold_left _ (r0 :: rows) (0%nat, 0%nat)) as [recent errors].
  cbn [fst snd catch statsErrors statsRecent statsTotal] in *.
  split; [now apply C3|]. split; [exact A|lia].
Qed.

Lemma statistics_count_no_error_witness :
  statsErrors (getProcessedMessageStats true (june22 + 900000)
                 (processEmails freshWorld [(uploadFails, loanMessage)])) = 0%nat.
Proof.
  apply (statistics_count_no_error freshWorld [(uploadFails, loanMessage)] true
           (june22 + 900000)).
  intros row [].
Defined.

Lemma scanProcessed_app (rows more : list ProcessedRow) (id : string) :
  scanProcessed rows id = true -> scanProcessed (rows ++ more)%list id = true.
Proof.
  induction rows as [|row rest IH]; simpl; [discriminate|].
  destruct (String.eqb (rowMessageId row) id); [reflexivity|exact IH].
Qed.

(** The check of the folder changes neither ledger nor the id of the
    spreadsheet. *)
Lemma getOrCreateDriveFolder_frame (c : Checks) (w : World) :
  let w1 := fst (getOrCreateDriveFolder c w) in
  processedSheet w1 = processedSheet w /\ contentSheet w1 = contentSheet w /\
  getPropertyOptional (props w1) "SPREADSHEET_ID" =
    getPropertyOptional (props w) "SPREADSHEET_ID".
Proof.
  cbv zeta. unfold getOrCreateDriveFolder.
  destruct (bind (getPropertyRequired (props w) "DRIVE_FOLDER_ID") _);
    [now repeat split|].
  destruct (bind (folderByName c) _); [|now repeat split].
  cbn [fst withProps processedSheet contentSheet props].
  repeat split. unfold getPropertyOptional.
  apply setProperty_other; [discriminate|reflexivity].
Qed.

(** While the spreadsheet of the properties answers, the check of the
    configuration keeps it. *)
Lemma validateConfiguration_keeps (c : Checks) (w : World) :
  spreadsheetAnswers c = true ->
  truthy (getPropertyOptional (props w) "SPREADSHEET_ID") = true ->
  let w1 := fst (validateConfiguration c w) in
  processedSheet w1 = processedSheet w /\ contentSheet w1 = contentSheet w /\
  getPropertyOptional (props w1) "SPREADSHEET_ID" =
    getPropertyOptional (props w) "SPREADSHEET_ID".
Proof.
  intros A T. cbv zeta. unfold validateConfiguration.
  destruct (getConfiguredSenderEmails (props w)); [now repeat split|].
  destruct (getPropertyRequired (props w) "SLACK_WEBHOOK_URL"); [|now repeat split].
  destruct (negb _); [now repeat split|].
  destruct (getOrCreateDriveFolder_frame c w) as (F1 & F2 & F3). cbv zeta in *.
  destruct (getOrCreateDriveFolder c w) as [w1 [folderId|message]]; cbn [fst] in *;
    [|now repeat split].
  unfold createOrGetSpreadsheet. rewrite F3, T, A. cbn [andb fst].
  now repeat split.
Qed.

(** X20.  A message that the processing ledger holds stays there over
    a whole run of [processEmails], whether the run ends with an error
    or not, as long as the check of the configuration at its start can
    open the spreadsheet; it is then left alone by every handling whose
    lookup can open the spreadsheet.  When the check cannot open the
    spreadsheet and makes a new one, the run goes on with empty
    ledgers: the message is not found any more and is handled again. *)
Theorem processed_message_stays_processed :
  forall (c : Checks) (search : Exc (list (Outcomes * Message))) (w : World)
         (o : Outcomes) (m : Message),
    isMessageProcessedInSpreadsheet true w (messageId m) = true ->
    (spreadsheetAnswers c = true ->
     let w' := fst (processEmailsRun c search w) in
     isMessageProcessedInSpreadsheet true w' (messageId m) = true /\
     (sheetAtLookup o = true -> handleMessage o w' m = (w', false))) /\
    (forall (w1 : World) (id : string),
       spreadsheetAnswers c = false ->
       fileByName c = Ok None ->
       spreadsheetCreated c = Ok id ->
       validateConfiguration c w = (w1, Ok tt) ->
       getPropertyOptional (props w1) "SPREADSHEET_ID" = Some id /\
       processedSheet w1 = [] /\ contentSheet w1 = [] /\
       isMessageProcessedInSpreadsheet true w1 (messageId m) = false /\
       (inTrash m = false -> patternMatch m = true ->
        snd (handleMessage o w1 m) = true)).
Proof.
  intros c search w o m H.
  rewrite isMessageProcessedInSpreadsheet_eq in H.
  apply andb_true_iff in H as [H1 H2]. rewrite andb_true_r in H1. split.
  - intros A. cbv zeta.
    destruct (validateConfiguration_keeps c w A H1) as (V1 & V2 & V3). cbv zeta in *.
    assert (K : isMessageProcessedInSpreadsheet true (fst (processEmailsRun c search w))
                  (messageId m) = true).
    { rewrite isMessageProcessedInSpreadsheet_eq. unfold processEmailsRun.
      destruct (validateConfiguration c w) as [w1 [[]|message]]; cbn [fst] in *.
      - destruct search as [found|message]; cbn [fst].
        + destruct (processEmails_processed found w1) as (P & more & E & _).
          rewrite P, E, V3, H1, V1. cbn [andb]. now apply scanProcessed_app.
        + now rewrite V3, H1, V1.
      - now rewrite V3, H1, V1. }
    split; [exact K|]. intros L. unfold handleMessage, isMessageAlreadyProcessed.
    rewrite L, K. now destruct (inTrash m).
  - intros w1 id A F C V. unfold validateConfiguration in V.
    destruct (getConfiguredSenderEmails (props w)); [discriminate|].
    destruct (getPropertyRequired (props w) "SLACK_WEBHOOK_URL"); [|discriminate].
    destruct (negb _); [discriminate|].
    destruct (getOrCreateDriveFolder c w) as [w0 [folderId|message]]; [|discriminate].
    unfold createOrGetSpreadsheet in V. rewrite A, andb_false_r, F, C in V.
    injection V as <-.
    assert (G : getPropertyOptional
                  (props (useSpreadsheet (checkedAt c) w0 (MkSpreadsheet id [] [])))
                  "SPREADSHEET_ID" = Some id).
    { unfold useSpreadsheet, getPropertyOptional, setProperty. cbn [props fileId].
      now rewrite getProperty_set, String.eqb_refl. }
    assert (N : isMessageProcessedInSpreadsheet true
                  (useSpreadsheet (checkedAt c) w0 (MkSpreadsheet id [] []))
                  (messageId m) = false).
    { rewrite isMessageProcessedInSpreadsheet_eq. cbn [useSpreadsheet processedSheet
        itsProcessed scanProcessed]. apply andb_false_r. }
    split; [exact G|]. split; [reflexivity|]. split; [reflexivity|].
    split; [exact N|]. intros T P. unfold handleMessage, isMessageAlreadyProcessed.
    rewrite T.
    assert (N' : isMessageProcessedInSpreadsheet (sheetAtLookup o)
                   (useSpreadsheet (checkedAt c) w0 (MkSpreadsheet id [] []))
                   (messageId m) = false).
    { rewrite isMessageProcessedInSpreadsheet_eq. cbn [useSpreadsheet processedSheet
        itsProcessed scanProcessed]. apply andb_false_r. }
    rewrite N'.
    pose proof (processMessage_done o
                  (useSpreadsheet (checkedAt c) w0 (MkSpreadsheet id [] [])) m) as D.
    destruct (processMessage o _ m) as [w2 done]. cbn [snd] in D. subst done.
    now rewrite P.
Qed.

Lemma processed_message_stays_processed_witness :
  isMessageProcessedInSpreadsheet true
    (fst (processEmailsRun checksPass (Ok [(allFine, loanCopy)]) loggedWorld))
    "18f3a1" = true /\
  isMessageProcessedInSpreadsheet true
    (fst (validateConfiguration spreadsheetLost loggedWorld)) "18f3a1" = false.
Proof.
  destruct (processed_message_stays_processed checksPass (Ok [(allFine, loanCopy)])
              loggedWorld allFine loanMessage eq_refl) as (Kept & _).
  destruct (processed_message_stays_processed spreadsheetLost (Ok [])
              loggedWorld allFine loanMessage eq_refl) as (_ & Lost).
  split.
  - now apply Kept.
  - apply (Lost (fst (validateConfiguration spreadsheetLost loggedWorld)) "sheet-2");
      reflexivity.
Defined.

(** After the spreadsheet was lost the message of the ledger is
    notified a second time. *)
Example lost_spreadsheet_example :
  let after := fst (processEmailsRun spreadsheetLost (Ok [(allFine, loanMessage)])
                      loggedWorld) in
  map rowMessageId (processedSheet after) = ["18f3a1"] /\
  List.length (slackSent after) = 1%nat /\
  getPropertyOptional (props after) "SPREADSHEET_ID" = Some "sheet-2".
Proof. vm_compute. repeat split. Qed.

(* ================================================================== *)
(** * The attachments of a message *)

Lemma map_indexed {A B : Type} (f : A -> B) (l : list A) :
  forall start,
    map (fun item => f (snd item)) (combine (seq start (List.length l)) l) = map f l.
Proof.
  induction l as [|a r IH]; intros start; cbn [List.length seq combine map];
    [reflexivity|].
  cbn [snd]. f_equal. apply IH.
Qed.

(** X21.  When the lookup finds the content key of a message in the
    content ledger, [processAttachments] changes nothing: no file is
    stored and no row is written; every PDF is reported as a duplicate
    with the location of the first record, every other attachment as
    skipped. *)
Theorem known_content_is_not_saved_again :
  forall (o : Outcomes) (w : World) (attachments : list Attachment)
         (subject : string) (emailDate : Z) (sender : string),
    let pdfNames := map attName (filter (fun a => isPdfName (attName a)) attachments) in
    let contentKey := generateContentDuplicateKey (clock o) (Some sender)
                        (Some emailDate) (Some subject) (Some pdfNames) in
    dupFound (checkContentDuplicate (sheetAtCheck o) w contentKey) = true ->
    fst (processAttachments o w attachments subject emailDate sender) = w /\
    (forall infos,
       snd (processAttachments o w attachments subject emailDate sender) = Ok infos ->
       infos =
       map (fun a =>
              if isPdfName (attName a)
              then duplicateContentInfo (attName a) (Some contentKey)
                     (checkContentDuplicate (sheetAtCheck o) w contentKey)
              else notPdfInfo (attName a)) attachments).
Proof.
  intros o w atts subj t sender pdfNames contentKey D.
  destruct atts as [|a0 atts0]; [split; [reflexivity|now intros infos [= <-]]|].
  unfold processAttachments. cbv beta iota.
  set (atts := a0 :: atts0) in *. clearbody atts. clear a0 atts0.
  destruct (getPropertyRequired (props w) "DRIVE_FOLDER_ID");
    [|split; [reflexivity|discriminate]].
  destruct (baseFolder o) as [url|message]; [|split; [reflexivity|discriminate]].
  fold pdfNames.
  set (key := match pdfNames with [] => None | _ => Some contentKey end).
  assert (KEY : match pdfNames with
                | [] => None
                | _ :: _ =>
                    Some (generateContentDuplicateKey (clock o) (Some sender) (Some t)
                            (Some subj) (Some pdfNames))
                end = key) by reflexivity.
  rewrite KEY.
  set (info := match key with
               | Some k => checkContentDuplicate (sheetAtCheck o) w k
               | None => notDuplicate
               end).
  assert (STEP : forall items acc,
            (forall i a, In (i, a) items ->
                         isPdfName (attName a) = true -> pdfNames <> []) ->
            fold_left (saveOne o subj sender t (JS.sort pdfNames) key info url) items acc =
            (fst acc,
             (snd acc ++
              map (fun item =>
                     if isPdfName (attName (snd item))
                     then duplicateContentInfo (attName (snd item)) (Some contentKey)
                            (checkContentDuplicate (sheetAtCheck o) w contentKey)
                     else notPdfInfo (attName (snd item))) items)%list)).
  { induction items as [|item rest IH]; intros acc Hp; cbn [fold_left fst snd map].
    - destruct acc. cbn [fst snd]. now rewrite List.app_nil_r.
    - rewrite IH by (intros j b Hj; apply (Hp j b); now right).
      destruct acc as [w0 infos0], item as [i att].
      unfold saveOne. cbn [fst snd].
      destruct (isPdfName (attName att)) eqn:P; cbn [negb].
      + assert (NE : pdfNames <> []) by (apply (Hp i att); [now left|exact P]).
        assert (EK : key = Some contentKey)
          by (unfold key; destruct pdfNames; [congruence|reflexivity]).
        assert (EI : info = checkContentDuplicate (sheetAtCheck o) w contentKey)
          by (unfold info; now rewrite EK).
        rewrite EI, D, EK. cbn [fst snd]. now rewrite <- app_assoc.
      + cbn [fst snd]. now rewrite <- app_assoc. }
  rewrite STEP.
  - cbn [fst snd app]. split; [reflexivity|]. intros infos [= <-].
    unfold indexed.
    apply (map_indexed
             (fun a => if isPdfName (attName a)
                       then duplicateContentInfo (attName a) (Some contentKey)
                              (checkContentDuplicate (sheetAtCheck o) w contentKey)
                       else notPdfInfo (attName a))).
  - intros i att Hin P E. apply in_combine_r in Hin.
    assert (In (attName att) pdfNames).
    { unfold pdfNames. apply in_map, filter_In. now split. }
    rewrite E in H. contradiction.
Qed.

Lemma known_content_is_not_saved_again_witness :
  fst (processAttachments allFine recordedOnce (attachments loanCopy)
         (subject loanCopy) (date loanCopy) (from loanCopy)) = recordedOnce.
Proof.
  apply (known_content_is_not_saved_again allFine recordedOnce (attachments loanCopy)
           (subject loanCopy) (date loanCopy) (from loanCopy)).
  vm_compute. reflexivity.
Defined.

(** X22.  The content ledger gets its row with the attachment of index
    0 only: when the first attachment of a message is not a PDF,
    nothing is written to the content ledger, whichever PDFs follow and
    are stored. *)
Theorem content_is_recorded_with_the_first_attachment_only :
  forall (o : Outcomes) (w : World) (first : Attachment) (others : list Attachment)
         (subject : string) (emailDate : Z) (sender : string),
    isPdfName (attName first) = false ->
    contentSheet (fst (processAttachments o w (first :: others) subject emailDate sender))
    = contentSheet w.
Proof.
  intros o w a atts subj t sender NP. unfold processAttachments.
  destruct (getPropertyRequired (props w) "DRIVE_FOLDER_ID"); [|reflexivity].
  destruct (baseFolder o) as [url|message]; [|reflexivity].
  unfold indexed. cbn [List.length seq combine fold_left].
  match goal with
  | |- context [fold_left (saveOne ?o ?a1 ?a2 ?a3 ?a4 ?a5 ?a6 ?a7) ?items ?acc] =>
      pose proof (saveAll_later o a1 a2 a3 a4 a5 a6 a7 items
                    (fun i b H => indexed_later atts 0 i b H) acc) as L;
      destruct (fold_left (saveOne o a1 a2 a3 a4 a5 a6 a7) items acc) as [w' infos]
  end.
  cbn [fst] in L |- *. rewrite L. unfold saveOne. cbn [fst snd].
  now rewrite NP.
Qed.

Lemma content_is_recorded_with_the_first_attachment_only_witness :
  contentSheet (fst (processAttachments allFine freshWorld coverFirst
                       (subject loanMessage) (date loanMessage) (from loanMessage))) = [] /\
  driveFiles (fst (processAttachments allFine freshWorld coverFirst
                     (subject loanMessage) (date loanMessage) (from loanMessage))) =
    ["20240622_loan_agreement.pdf"].
Proof.
  split.
  - apply (content_is_recorded_with_the_first_attachment_only allFine freshWorld
             (MkAttachment "cover.txt") [MkAttachment "loan_agreement.pdf"]).
    reflexivity.
  - vm_compute. reflexivity.
Defined.

(* ================================================================== *)
(** * The tool of a sender *)

Lemma lowerChar_not_upper (c : ascii) : negb (JS.isUpper (JS.lowerChar c)) = true.
Proof. by_all_ascii c. Qed.

Lemma lowerChar_idem (c : ascii) : JS.lowerChar (JS.lowerChar c) = JS.lowerChar c.
Proof. by_all_ascii c. Qed.

Lemma toLowerCase_idem (s : string) :
  JS.toLowerCase (JS.toLowerCase s) = JS.toLowerCase s.
Proof. induction s as [|c r IH]; simpl; [reflexivity|]. now rewrite lowerChar_idem, IH. Qed.

Lemma toLowerCase_chars (s : string) :
  allChars (fun c => negb (JS.isUpper c)) (JS.toLowerCase s) = true.
Proof.
  unfold allChars. induction s as [|c r IH]; simpl; [reflexivity|].
  now rewrite lowerChar_not_upper, IH.
Qed.

Lemma prefix_chars (cls : ascii -> bool) (p : string) :
  forall s, String.prefix p s = true -> allChars cls s = true -> allChars cls p = true.
Proof.
  unfold allChars. induction p as [|c r IH]; intros s H A; [reflexivity|].
  destruct s as [|d s']; [discriminate|]. simpl in *.
  destruct (ascii_dec c d) as [->|]; [|discriminate].
  apply andb_true_iff in A as [A1 A2]. now rewrite A1, (IH s' H A2).
Qed.

Lemma includes_chars (cls : ascii -> bool) (p s : string) :
  Text.includes p s = true -> allChars cls s = true -> allChars cls p = true.
Proof.
  induction s as [|c r IH]; cbn [Text.includes]; intros H A.
  - rewrite orb_false_r in H. now apply (prefix_chars cls p "").
  - apply orb_true_iff in H as [H|H].
    + now apply (prefix_chars cls p (String c r)).
    + apply IH; [exact H|]. unfold allChars in *. simpl in A.
      now apply andb_true_iff in A as [_ A].
Qed.

Lemma prefix_app_l (p q : string) :
  forall s, String.prefix (p ++ q) s = true -> String.prefix p s = true.
Proof.
  induction p as [|c r IH]; intros s H; [apply prefix_refl_nil|].
  destruct s as [|d s']; [discriminate|]. simpl in *.
  destruct (ascii_dec c d); [now apply IH|discriminate].
Qed.

Lemma includes_app_l (p q s : string) :
  Text.includes (p ++ q) s = true -> Text.includes p s = true.
Proof.
  induction s as [|c r IH]; cbn [Text.includes]; intros H.
  - rewrite orb_false_r in *. now apply (prefix_app_l p q).
  - apply orb_true_iff in H as [H|H]; apply orb_true_iff.
    + left. now apply (prefix_app_l p q).
    + right. now apply IH.
Qed.

Lemma split_chars (cls : ascii -> bool) (sep : ascii) (s : string) :
  allChars cls s = true -> Forall (fun part => allChars cls part = true) (Text.split sep s).
Proof.
  unfold allChars. induction s as [|c r IH]; simpl; intros A.
  - repeat constructor.
  - apply andb_true_iff in A as [A1 A2]. specialize (IH A2).
    destruct (Ascii.eqb c sep); [constructor; [reflexivity|exact IH]|].
    destruct (Text.split sep r) as [|h t]; [repeat constructor; simpl; now rewrite A1|].
    inversion IH as [|? ? Hh Ht]; subst. constructor; [|exact Ht].
    simpl. now rewrite A1, Hh.
Qed.

(** The name taken from the domain has no capital letter. *)
Lemma domain_name_chars (email : string) :
  allChars (fun c => negb (JS.isUpper c)) email = true ->
  allChars (fun c => negb (JS.isUpper c))
    match nth_error (Text.split "@" email) 1 with
    | Some domain =>
        if truthy (Some domain) then hd "" (Text.split "." domain) else "Unknown"
    | None => "Unknown"
    end = true \/
  match nth_error (Text.split "@" email) 1 with
  | Some domain =>
      if truthy (Some domain) then hd "" (Text.split "." domain) else "Unknown"
  | None => "Unknown"
  end = "Unknown".
Proof.
  intros A. destruct (nth_error (Text.split "@" email) 1) as [domain|] eqn:N;
    [|now right].
  destruct (truthy (Some domain)); [left|now right].
  assert (D : allChars (fun c => negb (JS.isUpper c)) domain = true).
  { pose proof (split_chars _ "@" email A) as F. rewrite Forall_forall in F.
    apply F. eapply nth_error_In, N. }
  pose proof (split_chars _ "." domain D) as F.
  destruct (Text.split "." domain) as [|h t]; [reflexivity|].
  now inversion F.
Qed.

(** X23.  [extractContractTool] never answers [Contract Tool 10],
    [Dropbox Sign] or [HelloSign]: the address is lowered before it is
    searched, so a text with a capital letter is never found in it, and
    an address that contains [contracttool10] contains [contracttool1],
    which is looked for first.  The answer does not depend on the case
    of the letters of the address. *)
Theorem contract_tool_answers :
  forall (senderEmail : option string) (address : string),
    extractContractTool senderEmail <> "Contract Tool 10" /\
    extractContractTool senderEmail <> "Dropbox Sign" /\
    extractContractTool senderEmail <> "HelloSign" /\
    (Text.includes "contracttool10" (JS.toLowerCase address) = true ->
     extractContractTool (Some address) = "Contract Tool 1") /\
    extractContractTool (Some (JS.toLowerCase address)) =
    extractContractTool (Some address).
Proof.
  intros senderEmail address.
  assert (TEN : forall s, Text.includes "contracttool10" (JS.toLowerCase s) = true ->
                          Text.includes "contracttool1" (JS.toLowerCase s) = true).
  { intros s. apply (includes_app_l "contracttool1" "0"). }
  assert (CAP : forall p s, allChars (fun c => negb (JS.isUpper c)) p = false ->
                            Text.includes p (JS.toLowerCase s) = false).
  { intros p s Hp. destruct (Text.includes p (JS.toLowerCase s)) eqn:I; [|reflexivity].
    rewrite (includes_chars _ p _ I (toLowerCase_chars s)) in Hp. discriminate. }
  assert (EMPTY : forall s, truthy (Some (JS.toLowerCase s)) = truthy (Some s))
    by (intros [|c r]; reflexivity).
  assert (MAIN : forall s,
            extractContractTool (Some s) <> "Contract Tool 10" /\
            extractContractTool (Some s) <> "Dropbox Sign" /\
            extractContractTool (Some s) <> "HelloSign").
  { intros s. unfold extractContractTool.
    destruct (truthy (Some s)); cbn [negb]; [|repeat split; discriminate].
    rewrite (CAP "via Dropbox Sign" s eq_refl), (CAP "'Dropbox Sign' via" s eq_refl),
            (CAP "via HelloSign" s eq_refl), (CAP "'HelloSign' via" s eq_refl).
    cbn [orb].
    destruct (Text.includes "contracttool1" (JS.toLowerCase s)) eqn:C1;
      [repeat split; discriminate|].
    assert (C10 : Text.includes "contracttool10" (JS.toLowerCase s) = false).
    { destruct (Text.includes "contracttool10" (JS.toLowerCase s)) eqn:C; [|reflexivity].
      apply TEN in C. congruence. }
    rewrite C10.
    repeat (match goal with
            | |- context [if ?b then _ else _] =>
                destruct b; [repeat split; discriminate|]
            end).
    destruct (domain_name_chars (JS.toLowerCase s) (toLowerCase_chars s)) as [D|D].
    - repeat split; intros E; rewrite E in D; discriminate.
    - rewrite D. repeat split; discriminate. }
  destruct (MAIN address) as (M1 & M2 & M3).
  assert (ALL : extractContractTool senderEmail <> "Contract Tool 10" /\
                extractContractTool senderEmail <> "Dropbox Sign" /\
                extractContractTool senderEmail <> "HelloSign").
  { destruct senderEmail as [s|]; [apply MAIN|repeat split; discriminate]. }
  destruct ALL as (A1 & A2 & A3).
  split; [exact A1|]. split; [exact A2|]. split; [exact A3|]. split.
  - intros H. unfold extractContractTool.
    assert (T : truthy (Some address) = true).
    { destruct address; [discriminate H|reflexivity]. }
    rewrite T. cbn [negb]. now rewrite (TEN address H).
  - unfold extractContractTool. now rewrite EMPTY, toLowerCase_idem.
Qed.

(* ================================================================== *)
(** * The records of the contract list *)








(** With an older row of the same id, the older row is the one that
    is updated. *)
Example older_row_is_updated :
  let older :=
    MkContractRow (june22 - 86400000) "contracttool7" "noreply@contracttool7.example.com"
      "" "Loan Agreement" "Loan" "John Doe" "" "" "Processing" "No" [] "18f3a1" "" in
  option_map (map listStatus)
    (fst (updateRecordStatus true settings
            (fst (addEmailRecord true settings (Some [older]) "Loan" "John Doe" loanRecord))
            "18f3a1" successUpdate)) =
  Some ["Success"; "Processing"].
Proof. reflexivity. Qed.

(* ================================================================== *)
(** * The files that a message leaves in the folder *)

Lemma saveOne_files o subj sender t pdfs key info url
    (acc : World * list AttachmentInfo) (item : nat * Attachment) :
  dupFound info = false ->
  let acc' := saveOne o subj sender t pdfs key info url acc item in
  driveFiles (fst acc') = (driveFiles (fst acc) ++ storedFile o item)%list /\
  List.length (snd acc') = S (List.length (snd acc)).
Proof.
  intros D. destruct acc as [w infos], item as [index a].
  unfold saveOne, storedFile. cbn [fst snd]. rewrite D.
  destruct (isPdfName (attName a)); cbn [negb fst snd];
    [|rewrite List.app_nil_r, length_app; simpl; split; [reflexivity|lia]].
  destruct (saved o index) as [file|message]; cbn [fst snd];
    [|rewrite List.app_nil_r, length_app; simpl; split; [reflexivity|lia]].
  assert (L : List.length (infos ++ [savedInfo (attName a) file key]) =
              S (List.length infos)) by (rewrite length_app; simpl; lia).
  destruct key as [k|]; [|cbn [fst snd driveFiles withDrive]; now split].
  destruct (index =? 0)%nat; [|cbn [fst snd driveFiles withDrive]; now split].
  cbn [fst snd].
  destruct (recordContentDuplicate_cases (sheetAtRecord o)
              (withDrive w (driveFiles w ++ [fst file])%list)
              (clock o) k sender (Some t) subj pdfs url) as (_ & _ & Hd & _).
  cbv zeta in Hd. rewrite Hd. now split.
Qed.

Lemma saveAll_files o subj sender t pdfs key info url (items : list (nat * Attachment)) :
  dupFound info = false ->
  forall acc : World * list AttachmentInfo,
    let acc' := fold_left (saveOne o subj sender t pdfs key info url) items acc in
    driveFiles (fst acc') = (driveFiles (fst acc) ++ flat_map (storedFile o) items)%list /\
    List.length (snd acc') = (List.length (snd acc) + List.length items)%nat.
Proof.
  intros D. induction items as [|item rest IH]; intros acc; cbn [fold_left flat_map].
  - cbn [List.length]. rewrite List.app_nil_r. split; [reflexivity|lia].
  - destruct (IH (saveOne o subj sender t pdfs key info url acc item)) as (I1 & I2).
    destruct (saveOne_files o subj sender t pdfs key info url acc item D) as (S1 & S2).
    cbv zeta in *. rewrite I1, I2, S1, S2, <- app_assoc. cbn [List.length].
    split; [reflexivity|lia].
Qed.

(** X25.  For a message whose content is new, every PDF is handed to
    Drive on its own: the folder gains the files of the PDFs whose
    upload succeeded, in the order of the attachments, whether or not
    the upload of another attachment failed; no other attachment is
    stored; and every attachment is reported once. *)
Theorem every_pdf_is_stored_on_its_own :
  forall (o : Outcomes) (w : World) (attachments : list Attachment)
         (subject : string) (emailDate : Z) (sender folderId folderUrl : string),
    getPropertyRequired (props w) "DRIVE_FOLDER_ID" = Ok folderId ->
    baseFolder o = Ok folderUrl ->
    dupFound
      (checkContentDuplicate (sheetAtCheck o) w
         (generateContentDuplicateKey (clock o) (Some sender) (Some emailDate)
            (Some subject)
            (Some (map attName
                     (filter (fun a => isPdfName (attName a)) attachments))))) = false ->
    driveFiles (fst (processAttachments o w attachments subject emailDate sender)) =
      (driveFiles w ++ flat_map (storedFile o) (indexed attachments))%list /\
    exists infos,
      snd (processAttachments o w attachments subject emailDate sender) = Ok infos /\
      List.length infos = List.length attachments.
Proof.
  intros o w atts subj t sender folderId folderUrl HF HB HD.
  destruct atts as [|a0 atts0].
  { simpl. rewrite List.app_nil_r. split; [reflexivity|]. now exists []. }
  unfold processAttachments. cbv beta iota. rewrite HF, HB.
  set (atts := a0 :: atts0) in *. clearbody atts. clear a0 atts0.
  set (pdfNames := map attName (filter (fun a => isPdfName (attName a)) atts)) in *.
  set (key := match pdfNames with
              | [] => None
              | _ => Some (generateContentDuplicateKey (clock o) (Some sender)
                             (Some t) (Some subj) (Some pdfNames))
              end).
  set (info := match key with
               | Some k => checkContentDuplicate (sheetAtCheck o) w k
               | None => notDuplicate
               end).
  assert (D : dupFound info = false).
  { unfold info, key. destruct pdfNames; [reflexivity|exact HD]. }
  destruct (saveAll_files o subj sender t (JS.sort pdfNames) key info folderUrl
              (indexed atts) D (w, [])) as (S1 & S2).
  cbv zeta in S1, S2.
  destruct (fold_left _ (indexed atts) (w, [])) as [w' infos].
  cbn [fst snd] in *. split; [exact S1|]. exists infos. split; [reflexivity|].
  rewrite S2. unfold indexed. rewrite length_combine, length_seq. simpl. lia.
Qed.

Lemma every_pdf_is_stored_on_its_own_witness :
  driveFiles (fst (processAttachments firstUploadFails freshWorld threeAttachments
                     (subject loanMessage) (date loanMessage) (from loanMessage))) =
  ["20240622_terms.pdf"].
Proof.
  refine (eq_trans
            (proj1 (every_pdf_is_stored_on_its_own firstUploadFails freshWorld
                      threeAttachments (subject loanMessage) (date loanMessage)
                      (from loanMessage) "folder-1"
                      "https://drive.example.com/folders/folder-1" _ _ _)) _);
    reflexivity.
Defined.

(* ================================================================== *)
(** * The summary of a body *)

Lemma isWhiteSpace_lineFeed : Utf16.isWhiteSpace lineFeed = true.
Proof. reflexivity. Qed.

Lemma collapseSpaces_space (c : N) (r : Utf16.t) :
  Utf16.isWhiteSpace c = true ->
  collapseSpaces (c :: r) =
  if startsWithSpace r then collapseSpaces r else spaceUnit :: collapseSpaces r.
Proof.
  intros H. cbn [collapseSpaces]. rewrite H. destruct r as [|d r']; reflexivity.
Qed.

(** White space in front of a text collapses into the white space at
    the head of the text, or into one space. *)
Lemma collapseSpaces_app (w : Utf16.t) :
  w <> [] -> forallb Utf16.isWhiteSpace w = true ->
  forall d,
    collapseSpaces (w ++ d)%list =
    if startsWithSpace d then collapseSpaces d else spaceUnit :: collapseSpaces d.
Proof.
  induction w as [|c r IH]; intros N A d; [congruence|].
  cbn [forallb] in A. apply andb_true_iff in A as [A1 A2].
  cbn [app]. rewrite (collapseSpaces_space c _ A1).
  destruct r as [|c' r']; [reflexivity|].
  assert (S : startsWithSpace ((c' :: r') ++ d)%list = true).
  { cbn [app startsWithSpace]. cbn [forallb] in A2.
    now apply andb_true_iff in A2 as [A2 _]. }
  rewrite S. apply IH; [discriminate|exact A2].
Qed.

(** What [\s*\n] takes is white space at the head of the text. *)
Lemma blankLineLength_spec (s : Utf16.t) :
  forall n, blankLineLength s = Some n ->
            exists w d, s = (w ++ d)%list /\ List.length w = n /\ w <> [] /\
                        forallb Utf16.isWhiteSpace w = true.
Proof.
  induction s as [|c r IH]; intros n H; [discriminate|].
  cbn [blankLineLength] in H. destruct (Utf16.isWhiteSpace c) eqn:E; [|discriminate].
  destruct (blankLineLength r) as [m|] eqn:B.
  - injection H as <-. destruct (IH m eq_refl) as (w & d & -> & L & _ & A).
    exists (c :: w), d. cbn [List.length app forallb]. rewrite L, E, A.
    repeat split. discriminate.
  - destruct (N.eqb c lineFeed); [|discriminate]. injection H as <-.
    exists [c], r. cbn [forallb]. rewrite E. repeat split. discriminate.
Qed.

Lemma replaceBlankLines_skip (w : Utf16.t) :
  forall d, replaceBlankLines (List.length w) (w ++ d)%list = replaceBlankLines 0 d.
Proof. induction w as [|c r IH]; intros d; [reflexivity|]. apply IH. Qed.

Lemma replaceBlankLines_head (s : Utf16.t) :
  startsWithSpace (replaceBlankLines 0 s) = startsWithSpace s.
Proof.
  destruct s as [|c r]; [reflexivity|]. cbn [replaceBlankLines].
  destruct (N.eqb c lineFeed) eqn:E; [|reflexivity].
  apply N.eqb_eq in E. subst c.
  destruct (blankLineLength r); reflexivity.
Qed.

(** The first replacement of [truncateBody] does not show after the
    second one. *)
Lemma collapseSpaces_replaceBlankLines (k : nat) :
  forall s, (List.length s <= k)%nat ->
            collapseSpaces (replaceBlankLines 0 s) = collapseSpaces s.
Proof.
  induction k as [|k IH]; intros s L.
  - destruct s; [reflexivity|simpl in L; lia].
  - destruct s as [|c r]; [reflexivity|]. cbn [List.length] in L.
    assert (PLAIN : collapseSpaces (c :: replaceBlankLines 0 r) =
                    collapseSpaces (c :: r)).
    { destruct (Utf16.isWhiteSpace c) eqn:E.
      - rewrite !(collapseSpaces_space c _ E), replaceBlankLines_head.
        now rewrite IH by lia.
      - cbn [collapseSpaces]. rewrite E. now rewrite IH by lia. }
    cbn [replaceBlankLines].
    destruct (N.eqb c lineFeed) eqn:E; [|exact PLAIN].
    destruct (blankLineLength r) as [n|] eqn:B; [|exact PLAIN].
    apply N.eqb_eq in E. subst c.
    destruct (blankLineLength_spec r n B) as (w & d & -> & Lw & Nw & Aw).
    rewrite <- Lw, replaceBlankLines_skip.
    rewrite (collapseSpaces_space spaceUnit _ eq_refl), replaceBlankLines_head.
    rewrite IH by (rewrite length_app in L; lia).
    change (lineFeed :: w ++ d)%list with ((lineFeed :: w) ++ d)%list.
    rewrite collapseSpaces_app; [reflexivity|discriminate|].
    cbn [forallb]. now rewrite Aw.
Qed.

Lemma collapseSpaces_chars (s : Utf16.t) : forallb isPlain (collapseSpaces s) = true.
Proof.
  induction s as [|c r IH]; [reflexivity|]. cbn [collapseSpaces].
  destruct (Utf16.isWhiteSpace c) eqn:E.
  - destruct r as [|d r']; [reflexivity|].
    destruct (Utf16.isWhiteSpace d); [exact IH|].
    cbn [forallb]. now rewrite IH.
  - cbn [forallb]. unfold isPlain at 1. now rewrite E, IH.
Qed.

Lemma collapseSpaces_blank (s : Utf16.t) :
  forallb Utf16.isWhiteSpace s = true ->
  forallb Utf16.isWhiteSpace (collapseSpaces s) = true.
Proof.
  induction s as [|c r IH]; [reflexivity|].
  cbn [forallb]. intros A.
  apply andb_true_iff in A as [A1 A2]. cbn [collapseSpaces]. rewrite A1.
  destruct r as [|d r']; [reflexivity|].
  destruct (Utf16.isWhiteSpace d); [now apply IH|].
  cbn [forallb]. now rewrite IH.
Qed.

Lemma trimStart_blank (s : Utf16.t) :
  forallb Utf16.isWhiteSpace s = true -> Utf16.trimStart s = [].
Proof.
  induction s as [|c r IH]; [reflexivity|].
  cbn [forallb Utf16.trimStart]. intros A.
  apply andb_true_iff in A as [A1 A2]. rewrite A1. now apply IH.
Qed.

Lemma trimEnd_empty (s : Utf16.t) :
  Utf16.trimEnd s = [] -> forallb Utf16.isWhiteSpace s = true.
Proof.
  induction s as [|c r IH]; [reflexivity|].
  cbn [Utf16.trimEnd forallb].
  destruct (Utf16.trimEnd r) as [|c' r'] eqn:T; [|discriminate].
  destruct (Utf16.isWhiteSpace c); [|discriminate]. intros _. now rewrite IH.
Qed.

Lemma trimStart_head (s : Utf16.t) : startsWithSpace (Utf16.trimStart s) = false.
Proof.
  induction s as [|c r IH]; [reflexivity|]. cbn [Utf16.trimStart].
  destruct (Utf16.isWhiteSpace c) eqn:E; [exact IH|]. cbn [startsWithSpace]. exact E.
Qed.

Lemma trimStart_empty (s : Utf16.t) :
  Utf16.trimStart s = [] -> forallb Utf16.isWhiteSpace s = true.
Proof.
  induction s as [|c r IH]; [reflexivity|].
  cbn [Utf16.trimStart forallb].
  destruct (Utf16.isWhiteSpace c); [|discriminate]. intros H. now rewrite IH.
Qed.

(** A text is trimmed to nothing when it is white space, and only then. *)
Lemma trim_empty (s : Utf16.t) :
  Utf16.trim s = [] <-> forallb Utf16.isWhiteSpace s = true.
Proof.
  unfold Utf16.trim. split.
  - intros H. apply trimEnd_empty in H.
    apply trimStart_empty.
    pose proof (trimStart_head s) as N.
    destruct (Utf16.trimStart s) as [|c r]; [reflexivity|].
    cbn [forallb startsWithSpace] in *.
    rewrite N in H. discriminate.
  - intros H. now rewrite (trimStart_blank s H).
Qed.

Lemma trimStart_units (cls : N -> bool) (s : Utf16.t) :
  forallb cls s = true -> forallb cls (Utf16.trimStart s) = true.
Proof.
  induction s as [|c r IH]; [reflexivity|]. cbn [Utf16.trimStart].
  destruct (Utf16.isWhiteSpace c); [|trivial].
  cbn [forallb]. intros A. apply andb_true_iff in A as [_ A]. now apply IH.
Qed.

Lemma trimEnd_units (cls : N -> bool) (s : Utf16.t) :
  forallb cls s = true -> forallb cls (Utf16.trimEnd s) = true.
Proof.
  induction s as [|c r IH]; [reflexivity|]. cbn [Utf16.trimEnd forallb].
  intros A. apply andb_true_iff in A as [A1 A2]. specialize (IH A2).
  destruct (Utf16.trimEnd r) as [|c' r'].
  - destruct (Utf16.isWhiteSpace c); [reflexivity|]. cbn [forallb]. now rewrite A1.
  - cbn [forallb] in *. now rewrite A1, IH.
Qed.

Lemma firstn_units (cls : N -> bool) (n : nat) :
  forall s : Utf16.t, forallb cls s = true -> forallb cls (firstn n s) = true.
Proof.
  induction n as [|n IH]; intros [|c r] A; try reflexivity.
  cbn [firstn forallb] in *.
  apply andb_true_iff in A as [A1 A2]. now rewrite A1, IH.
Qed.

(** X26.  The summary that [truncateBody] makes of a body, read as
    UTF-16 code units with the white space of ECMAScript, is the body
    with every run of white space turned into one space and the ends
    trimmed, cut after a thousand code units with three dots added: the
    first of its two replacements changes nothing in the outcome.  The
    summary is at most 1003 code units long and holds no white-space
    character other than the space. *)
Theorem body_summary_is_single_spaced :
  forall body : Utf16.t,
    truncateBody (Some body) = cutBody (Utf16.trim (collapseSpaces body)) /\
    (List.length (truncateBody (Some body)) <= MAX_BODY_LENGTH + 3)%nat /\
    forallb isPlain (truncateBody (Some body)) = true.
Proof.
  intros body.
  assert (E : truncateBody (Some body) = cutBody (Utf16.trim (collapseSpaces body))).
  { unfold truncateBody.
    rewrite (collapseSpaces_replaceBlankLines (List.length body) body (Nat.le_refl _)).
    destruct body as [|c r]; [reflexivity|].
    destruct (List.length (Utf16.trim (c :: r)) =? 0)%nat eqn:B; [|reflexivity].
    assert (A : forallb Utf16.isWhiteSpace (c :: r) = true).
    { apply trim_empty. apply Nat.eqb_eq in B.
      destruct (Utf16.trim (c :: r)); [reflexivity|discriminate]. }
    apply collapseSpaces_blank, trim_empty in A. now rewrite A. }
  rewrite E. unfold cutBody.
  assert (P : forallb isPlain (Utf16.trim (collapseSpaces body)) = true)
    by (apply trimEnd_units, trimStart_units, collapseSpaces_chars).
  destruct (List.length (Utf16.trim (collapseSpaces body)) <=? MAX_BODY_LENGTH)%nat
    eqn:L.
  - apply Nat.leb_le in L. repeat split; [lia|exact P].
  - repeat split.
    + rewrite length_app.
      pose proof (firstn_le_length MAX_BODY_LENGTH (Utf16.trim (collapseSpaces body))).
      cbn [dots List.length]. lia.
    + rewrite forallb_app, (firstn_units isPlain _ _ P). reflexivity.
Qed.

(** A body of four hundred ideographs is four hundred code units long
    and is kept whole; no-break and ideographic spaces are white
    space. *)
Example summary_of_ideographs : truncateBody (Some kanjiBody) = kanjiBody.
Proof. vm_compute. reflexivity. Qed.

Example summary_of_wide_spaces :
  truncateBody (Some wideSpaces) = [97; 32; 98]%N.
Proof. reflexivity. Qed.

(** The white space of ECMAScript, and some characters next to it that
    are none. *)
Example white_space_units :
  forallb Utf16.isWhiteSpace
    [9; 10; 11; 12; 13; 32; 160; 5760; 8192; 8197; 8202; 8232; 8233; 8239; 8287;
     12288; 65279]%N = true /\
  existsb Utf16.isWhiteSpace
    [8; 14; 31; 33; 133; 159; 161; 6158; 8191; 8203; 8234; 8288; 12287; 12289]%N = false.
Proof. split; reflexivity. Qed.

(* ================================================================== *)
(** * The triggers *)

Lemma deleteEmailTriggers_ok (app : ScriptApp) (ts : list Trigger) :
  (forall id, deleteAnswers app id = true) ->
  deleteEmailTriggers app ts = (filter (fun t => negb (isEmailTrigger t)) ts, Ok tt).
Proof.
  intros H. induction ts as [|t rest IH]; [reflexivity|].
  cbn [deleteEmailTriggers filter]. destruct (isEmailTrigger t); cbn [negb].
  - now rewrite H.
  - now rewrite IH.
Qed.

Lemma filter_filter_neg {A : Type} (p : A -> bool) (l : list A) :
  filter p (filter (fun x => negb (p x)) l) = [].
Proof.
  induction l as [|x r IH]; [reflexivity|]. cbn [filter].
  destruct (p x) eqn:E; cbn [negb filter]; [exact IH|]. now rewrite E.
Qed.

Lemma filter_idem {A : Type} (p : A -> bool) (l : list A) :
  filter p (filter p l) = filter p l.
Proof.
  induction l as [|x r IH]; [reflexivity|]. cbn [filter].
  destruct (p x) eqn:E; cbn [filter]; [|exact IH]. now rewrite E, IH.
Qed.

Lemma deleteExistingTriggers_ok (app : ScriptApp) (s : Script) :
  listAnswers app = true ->
  (forall id, deleteAnswers app id = true) ->
  exists ps,
    deleteExistingTriggers app s = (MkScript (otherTriggers s) ps, Ok tt) /\
    PropertiesService.getProperty ps "TRIGGER_ID" = None.
Proof.
  intros L D. unfold deleteExistingTriggers. rewrite L, (deleteEmailTriggers_ok app _ D).
  eexists. split; [reflexivity|].
  change (PropertiesService.deleteProperty
            (PropertiesService.deleteProperty (scriptProps s) "TRIGGER_ID")
            "TRIGGER_CREATED")
    with (deleteAll ["TRIGGER_ID"; "TRIGGER_CREATED"] (scriptProps s)).
  now rewrite getProperty_deleteAll.
Qed.

Lemma createTrigger_ok (app : ScriptApp) (now : Z) (nowText id : string) (s : Script) :
  listAnswers app = true ->
  (forall i, deleteAnswers app i = true) ->
  created app = Ok id ->
  exists ps,
    createTrigger app now nowText s =
      (MkScript (otherTriggers s ++ [MkTrigger "processEmails" id]) ps, Ok tt) /\
    PropertiesService.getProperty ps "TRIGGER_ID" = Some id.
Proof.
  intros L D C. unfold createTrigger.
  destruct (deleteExistingTriggers_ok app s L D) as (ps & E & _).
  rewrite E, C. cbn [triggers scriptProps].
  eexists. split; [reflexivity|].
  rewrite setProperty_other by (reflexivity || discriminate).
  unfold setProperty. now rewrite getProperty_set, String.eqb_refl.
Qed.

Lemma otherTriggers_idem (s : Script) ps :
  otherTriggers (MkScript (otherTriggers s) ps) = otherTriggers s.
Proof. unfold otherTriggers. cbn [triggers]. apply filter_idem. Qed.

(** X27.  When [ScriptApp] answers, the health check ends with exactly
    one trigger of [processEmails] and leaves the triggers of other
    functions as they are.  A project that has exactly one such trigger
    is not touched at all; in any other case the trigger is a new one
    whose id stands under [TRIGGER_ID]. *)
Theorem health_check_leaves_one_trigger :
  forall (app : ScriptApp) (now : Z) (nowText id : string) (s : Script),
    listAnswers app = true ->
    (forall i, deleteAnswers app i = true) ->
    created app = Ok id ->
    let after := checkTriggerHealth app now nowText s in
    snd after = Ok tt /\
    List.length (emailTriggers (fst after)) = 1%nat /\
    otherTriggers (fst after) = otherTriggers s /\
    (List.length (emailTriggers s) = 1%nat -> fst after = s) /\
    (List.length (emailTriggers s) <> 1%nat ->
     emailTriggers (fst after) = [MkTrigger "processEmails" id] /\
     PropertiesService.getProperty (scriptProps (fst after)) "TRIGGER_ID" = Some id).
Proof.
  intros app now nowText id s L D C. cbv zeta.
  assert (NEW : forall s0,
            otherTriggers s0 = otherTriggers s ->
            snd (createTrigger app now nowText s0) = Ok tt /\
            emailTriggers (fst (createTrigger app now nowText s0)) =
              [MkTrigger "processEmails" id] /\
            otherTriggers (fst (createTrigger app now nowText s0)) = otherTriggers s /\
            PropertiesService.getProperty
              (scriptProps (fst (createTrigger app now nowText s0))) "TRIGGER_ID" =
              Some id).
  { intros s0 O.
    destruct (createTrigger_ok app now nowText id s0 L D C) as (ps & E & G).
    rewrite E. cbn [fst snd scriptProps]. split; [reflexivity|].
    split; [|split; [|exact G]].
    - unfold emailTriggers, otherTriggers. cbn [triggers].
      now rewrite filter_app, filter_filter_neg.
    - rewrite <- O. unfold otherTriggers. cbn [triggers].
      rewrite filter_app, filter_idem. cbn [filter isEmailTrigger handlerFunction].
      apply List.app_nil_r. }
  unfold checkTriggerHealth, getTriggerInfo. rewrite L. fold (emailTriggers s).
  destruct (emailTriggers s) as [|t1 [|t2 more]] eqn:ES; cbn [map].
  - destruct (NEW s eq_refl) as (A & B & O & G). rewrite A, B, O, G.
    do 3 (split; [reflexivity|]).
    split; [intros N; discriminate N|intros _; split; reflexivity].
  - cbn [fst snd]. rewrite ES. do 3 (split; [reflexivity|]).
    split; [intros _; reflexivity|intros N; now contradiction N].
  - destruct (deleteExistingTriggers_ok app s L D) as (ps1 & E1 & _).
    rewrite E1.
    destruct (NEW (MkScript (otherTriggers s) ps1) (otherTriggers_idem s ps1))
      as (A & B & O & G).
    rewrite A, B, O, G. do 3 (split; [reflexivity|]).
    split; [intros N; discriminate N|intros _; split; reflexivity].
Qed.

Lemma health_check_leaves_one_trigger_witness :
  emailTriggers (fst (checkTriggerHealth scriptAnswers june22
                        "2024-06-22T03:00:00.000Z" doubledTriggers)) =
    [MkTrigger "processEmails" "t-4"] /\
  otherTriggers (fst (checkTriggerHealth scriptAnswers june22
                        "2024-06-22T03:00:00.000Z" doubledTriggers)) =
    [MkTrigger "dailyReport" "t-2"].
Proof.
  destruct (health_check_leaves_one_trigger scriptAnswers june22
              "2024-06-22T03:00:00.000Z" "t-4" doubledTriggers eq_refl
              (fun _ => eq_refl) eq_refl) as (_ & _ & O & _ & N).
  split; [|exact O]. apply N. discriminate.
Defined.

(** X28.  [createTrigger] deletes the triggers of [processEmails]
    before it makes the new one: when [ScriptApp] cannot make the
    trigger, the error is thrown on and the project is left without any
    trigger of [processEmails] and without a [TRIGGER_ID], while the
    triggers of other functions are as they were; a health check that
    follows ends with the same error. *)
Theorem failed_creation_leaves_no_trigger :
  forall (app : ScriptApp) (now : Z) (nowText message : string) (s : Script),
    listAnswers app = true ->
    (forall i, deleteAnswers app i = true) ->
    created app = Throw message ->
    let after := createTrigger app now nowText s in
    snd after = Throw message /\
    emailTriggers (fst after) = [] /\
    otherTriggers (fst after) = otherTriggers s /\
    PropertiesService.getProperty (scriptProps (fst after)) "TRIGGER_ID" = None /\
    snd (checkTriggerHealth app now nowText (fst after)) = Throw message.
Proof.
  intros app now nowText message s L D C. cbv zeta.
  assert (F : forall s0, snd (createTrigger app now nowText s0) = Throw message).
  { intros s0. unfold createTrigger.
    destruct (deleteExistingTriggers_ok app s0 L D) as (ps0 & E0 & _).
    now rewrite E0, C. }
  unfold createTrigger in *.
  destruct (deleteExistingTriggers_ok app s L D) as (ps & E & G).
  rewrite E, C. cbn [fst snd scriptProps].
  assert (ET : emailTriggers (MkScript (otherTriggers s) ps) = []).
  { unfold emailTriggers, otherTriggers. cbn [triggers]. apply filter_filter_neg. }
  rewrite ET, otherTriggers_idem. repeat split; try assumption.
  unfold checkTriggerHealth, getTriggerInfo. rewrite L.
  fold (emailTriggers (MkScript (otherTriggers s) ps)). rewrite ET. cbn [map].
  apply F.
Qed.

Lemma failed_creation_leaves_no_trigger_witness :
  emailTriggers (fst (createTrigger quotaExceeded june22
                        "2024-06-22T03:00:00.000Z" doubledTriggers)) = [] /\
  snd (createTrigger quotaExceeded june22
         "2024-06-22T03:00:00.000Z" doubledTriggers) =
    Throw "This script has too many triggers".
Proof.
  destruct (failed_creation_leaves_no_trigger quotaExceeded june22
              "2024-06-22T03:00:00.000Z" "This script has too many triggers"
              doubledTriggers eq_refl (fun _ => eq_refl) eq_refl) as (T & E & _).
  split; [exact E|exact T].
Defined.
